(** * STUDENTS-COMPANION: the statistics back end, modelled and verified

    A shallow embedding of the Python back end:
    - [backend/analysis/statistics.py]  (class [StatisticalAnalyzer])
    - [backend/analysis/assumptions.py] (class [AssumptionChecker])
    - [backend/analysis/tables.py]      (class [APATableGenerator])
    - [backend/cleaning/audit.py]       (classes [AuditLogger], [DataVersionManager])
    - [backend/ai/interpreter.py]       (class [AIInterpreter])
    - [backend/ai/prompts.py]           (the templates of the interpreters)
    - [backend/utils/file_handlers.py]  (class [DataStorage])

    Python floats are IEEE binary64 numbers: they are Rocq's primitive floats.
    Python dictionaries that are result records keep their insertion order and
    are association lists; the version store and the object heap are finite
    maps.  Exceptions are an error monad, [try: ... except Exception as e] is
    the handler [try_except].  The numerical routines of SciPy, statsmodels,
    scikit-learn and pandas that the code only calls are the fields of the
    class [Lib]: every statement below is proved for every implementation.

    The numbers are those of pandas and NumPy to the last bit where the code
    computes them itself: the sums of [s.mean()] and [s.var()] are NumPy's
    sums in blocks ([Float.np_sum]), those of Python's [sum] run from left
    to right (pandas without the optional bottleneck package, Python 3.11
    as the byte code in the repository has it).  The texts of the
    exceptions are Python's; where Python or pandas prints a text with
    [repr], or a library chooses the message, the text is a field of [Lib].

    What the model leaves out: exceptions that are not subclasses of
    [Exception] (a keyboard interrupt), the texts [print] writes, integer
    columns (every number is a float), frames with a repeated column
    label except where the code itself builds one ([df[[a, a]]]), and a
    text that reads as a number (['1.5']) in a column handed to a numerical
    routine: to the model every text there is an exception, as it is to
    most routines.  A text is the sequence of its bytes, which are its
    characters as long as it is ASCII. *)

From stdpp Require Import gmap strings pretty list.
From Stdlib Require Import ZArith Floats Uint63 Bool Lia.

Set Warnings "-inexact-float,-register-all".
Local Open Scope string_scope.
Local Open Scope list_scope.
Local Open Scope Z_scope.

(** ** Exceptions *)

(** An instance of a subclass of Python's [Exception].  [Exception cls msg]
    is an instance of the class [cls] whose text [str(e)] is [msg].  The
    other three keep what they were raised with, and [str_exn] below prints
    them as Python does:
    - [KeyError key] is [KeyError(key)], [key] a text: a missing column
      label or dictionary key;
    - [LabelsNotFound names columns] is the [KeyError] pandas raises for
      [df[[n1, n2, ...]]] when a label asked for is no column of the frame;
    - [NotAFloat text] is what a numerical routine raises when it meets
      [text] where it needs a number: the [ValueError] of the conversion to
      float, where that is what the routine starts with. *)
Inductive exn : Type :=
| Exception (cls : string) (msg : string)
| KeyError (key : string)
| LabelsNotFound (names columns : list string)
| NotAFloat (text : string).

Inductive result (A : Type) : Type :=
| Ok (a : A)
| Raise (e : exn).
Arguments Ok {A} a.
Arguments Raise {A} e.

Definition ret {A} (a : A) : result A := Ok a.

Definition bind {A B} (m : result A) (k : A -> result B) : result B :=
  match m with
  | Ok a => k a
  | Raise e => Raise e
  end.

Notation "'let*' x ':=' m 'in' k" := (bind m (fun x => k))
  (at level 10, x binder, m at level 100, k at level 200).

Fixpoint mapM {A B} (f : A -> result B) (l : list A) : result (list B) :=
  match l with
  | [] => ret []
  | a :: l' => let* b := f a in let* bs := mapM f l' in ret (b :: bs)
  end.

(** The entry at a position of what a library returned ([model.params[i]],
    [conf_int.iloc[i]], an entry of a correlation matrix).  The libraries
    return one entry for every column they were given, so the [IndexError]
    stands for a library that does not. *)
Definition getitem_list {A} (l : list A) (i : nat) : result A :=
  match nth_error l i with
  | Some a => Ok a
  | None => Raise (Exception "IndexError" "index out of bounds")
  end.

(** ** Floats *)

Module Float.

Definition nan : float := (0 / 0)%float.

Definition of_Z (z : Z) : float :=
  match z with
  | Z0 => 0%float
  | Zpos _ => PrimFloat.of_uint63 (Uint63.of_Z z)
  | Zneg _ => PrimFloat.opp (PrimFloat.of_uint63 (Uint63.of_Z (- z)))
  end.

Definition is_nan (x : float) : bool := negb (PrimFloat.eqb x x).

(** [x > y], false when either side is NaN *)
Definition gtb (x y : float) : bool := PrimFloat.ltb y x.

(** Truth value of a float in a condition: [if x] holds unless [x == 0]
    (NaN is true). *)
Definition truthy (x : float) : bool := negb (PrimFloat.eqb x 0).

(** [sum(l)], Python's: from left to right, starting at 0 *)
Definition fsum (l : list float) : float :=
  fold_left PrimFloat.add l 0%float.

(** The sum NumPy makes of a contiguous array of floats
    ([_pairwise_sum] under [np.add.reduce], which [a.sum()] and the sums of
    pandas come down to).  Up to 128 values are summed by [block_sum]: fewer
    than eight are added from left to right; from eight on, eight running
    sums take every eighth value each, are added two by two, and the values
    after the last full block of eight are added to that one by one. *)
Fixpoint sum8 (r0 r1 r2 r3 r4 r5 r6 r7 : float) (a : list float) : float :=
  match a with
  | a0 :: a1 :: a2 :: a3 :: a4 :: a5 :: a6 :: a7 :: a' =>
      sum8 (r0 + a0) (r1 + a1) (r2 + a2) (r3 + a3)
           (r4 + a4) (r5 + a5) (r6 + a6) (r7 + a7) a'
  | _ =>
      fold_left PrimFloat.add a
        (((r0 + r1) + (r2 + r3)) + ((r4 + r5) + (r6 + r7)))
  end%float.

Definition block_sum (a : list float) : float :=
  match a with
  | a0 :: a1 :: a2 :: a3 :: a4 :: a5 :: a6 :: a7 :: a' =>
      sum8 a0 a1 a2 a3 a4 a5 a6 a7 a'
  | _ => fold_left PrimFloat.add a 0%float
  end.

(** Where a longer array is cut in two: at half its length, less what
    that leaves over a multiple of eight. *)
Definition cut (n : nat) : nat := (n / 2 - (n / 2) mod 8)%nat.

(** More than 128 values are cut in two and the sums of the halves added.
    Every cut at least halves the longer part, so [length a] levels of
    recursion are more than enough ([pairwise_sum_cut] below). *)
Fixpoint pairwise_sum_upto (depth : nat) (a : list float) : float :=
  match depth with
  | O => block_sum a
  | S depth' =>
      let n := length a in
      if (n <=? 128)%nat then block_sum a
      else
        (pairwise_sum_upto depth' (firstn (cut n) a)
         + pairwise_sum_upto depth' (skipn (cut n) a))%float
  end.

Definition pairwise_sum (a : list float) : float :=
  pairwise_sum_upto (length a) a.

(** [a.sum()]: the reduction starts from 0.  (Where it starts shows in the
    sign of a sum that is zero only; newer versions of NumPy start from -0,
    which keeps a sum of negative zeros negative.) *)
Definition np_sum (a : list float) : float := (0 + pairwise_sum a)%float.

Definition square (x : float) : float := (x * x)%float.

Definition two52 : float := 4503599627370496%float.

(** Round to the nearest integer, ties to even ([numpy.rint]). *)
Definition rint (x : float) : float :=
  let a := PrimFloat.abs x in
  if PrimFloat.ltb a two52 then
    let r := ((a + two52) - two52)%float in
    if PrimFloat.ltb x 0 then PrimFloat.opp r else r
  else x.

(** [round(x, ndigits)] on a numpy float: scale, [rint], scale back. *)
Definition round_nd (x : float) (ndigits : Z) : float :=
  let s := of_Z (10 ^ ndigits) in
  (rint (x * s) / s)%float.

Definition fmin (x y : float) : float := if PrimFloat.ltb y x then y else x.

Definition sign (x : float) : float :=
  if PrimFloat.ltb x 0 then (-1)%float
  else if PrimFloat.ltb 0 x then 1%float
  else x.

End Float.

Definition len {A} (l : list A) : Z := Z.of_nat (length l).

(** ** Result records *)

(** The values the code puts in a result record.  [VRound x n] is the float
    [round(x, n)]: the record keeps the number of digits it was rounded to,
    [float_of] is the number itself; [VFloat x] is a float stored as it
    is. *)
Inductive value : Type :=
| VNone
| VBool (b : bool)
| VInt (n : Z)
| VFloat (x : float)
| VRound (x : float) (ndigits : Z)
| VStr (s : string)
| VTuple (vs : list value)
| VList (vs : list value)
| VDict (kvs : list (string * value)).

Definition float_of (v : value) : option float :=
  match v with
  | VFloat x => Some x
  | VRound x n => Some (Float.round_nd x n)
  | _ => None
  end.

(** [d[k] = v] on an insertion-ordered dictionary *)
Fixpoint dict_set (d : list (string * value)) (k : string) (v : value)
  : list (string * value) :=
  match d with
  | [] => [(k, v)]
  | (k', v') :: d' =>
      if String.eqb k k' then (k', v) :: d' else (k', v') :: dict_set d' k v
  end.

(** A dictionary display [{k1: v1, k2: v2, ...}] whose keys are computed *)
Definition mkdict (kvs : list (string * value)) : list (string * value) :=
  fold_left (fun d kv => dict_set d (fst kv) (snd kv)) kvs [].

Fixpoint dict_get (d : list (string * value)) (k : string) : option value :=
  match d with
  | [] => None
  | (k', v) :: d' => if String.eqb k k' then Some v else dict_get d' k
  end.

(** [r[k]] *)
Definition field (k : string) (r : value) : option value :=
  match r with
  | VDict kvs => dict_get kvs k
  | _ => None
  end.

(** [r[k1][k2]...] *)
Fixpoint field_path (ks : list string) (r : value) : option value :=
  match ks with
  | [] => Some r
  | k :: ks' =>
      match field k r with
      | Some v => field_path ks' v
      | None => None
      end
  end.

(** [k in r] *)
Definition has_key (k : string) (r : value) : bool :=
  match r with
  | VDict kvs => existsb (fun kv => String.eqb k (fst kv)) kvs
  | _ => false
  end.

Definition error_record (msg : string) : value := VDict [("error", VStr msg)].

(** The text of one double quote *)
Definition double_quote : string := String (Ascii.ascii_of_nat 34) "".

(** [type(v).__name__], as the messages of a [TypeError] name it (a number
    that came out of NumPy is named [numpy.float64] there; the records hold
    both kinds, and no statement below depends on which). *)
Definition type_name (v : value) : string :=
  match v with
  | VNone => "NoneType"
  | VBool _ => "bool"
  | VInt _ => "int"
  | VFloat _ | VRound _ _ => "float"
  | VStr _ => "str"
  | VTuple _ => "tuple"
  | VList _ => "list"
  | VDict _ => "dict"
  end.

(** ** Data frames (pandas) *)

(** A cell of a column: a number, a text, or a missing entry ([None]; a
    NaN number is missing too). *)
Inductive cell : Type :=
| Num (x : float)
| Str (s : string)
| Null.

Definition isna (c : cell) : bool :=
  match c with
  | Num x => Float.is_nan x
  | Str _ => false
  | Null => true
  end.

(** [a == b] on cells that are not missing *)
Definition cell_eqb (a b : cell) : bool :=
  match a, b with
  | Num x, Num y => PrimFloat.eqb x y
  | Str s, Str t => String.eqb s t
  | _, _ => false
  end.

(** A frame, row by row: every row has one cell per column label.  The
    labels of a frame read from a file are distinct. *)
Record DataFrame : Type := {
  columns : list string;
  rows : list (list cell)
}.

Fixpoint index_of (name : string) (cols : list string) : option nat :=
  match cols with
  | [] => None
  | c :: cols' =>
      if String.eqb name c then Some 0%nat
      else option_map S (index_of name cols')
  end.

Definition cell_at (row : list cell) (i : nat) : cell := nth i row Null.

(** The [KeyError] of [df[name]] when [name] is no column. *)
Definition key_error (name : string) : exn := KeyError name.

Definition column_index (df : DataFrame) (name : string) : result nat :=
  match index_of name (columns df) with
  | Some i => Ok i
  | None => Raise (key_error name)
  end.

(** [df[[n1, n2, ...]]]: one [KeyError] for all the labels that are no
    column *)
Definition getitems (df : DataFrame) (names : list string) : result DataFrame :=
  match mapM (column_index df) names with
  | Ok idx =>
      ret {| columns := names;
             rows := map (fun r => map (cell_at r) idx) (rows df) |}
  | Raise _ => Raise (LabelsNotFound names (columns df))
  end.

(** [df.dropna()]: the rows without a missing cell *)
Definition dropna (df : DataFrame) : DataFrame :=
  {| columns := columns df;
     rows := List.filter (fun r => forallb (fun c => negb (isna c)) r) (rows df) |}.

(** [df[name]] as a Series.  When the label occurs twice in the frame (after
    [df[[a, a]]]) pandas gives a frame instead, and the Series method the code
    calls next raises [AttributeError]. *)
Definition getitem (df : DataFrame) (name : string) : result (list cell) :=
  match List.filter (String.eqb name) (columns df) with
  | [] => Raise (key_error name)
  | [_] => let* i := column_index df name in ret (map (fun r => cell_at r i) (rows df))
  | _ => Raise (Exception "AttributeError" "'DataFrame' object has no such attribute")
  end.

(** [df[df[name] == key]] *)
Definition where_eq (df : DataFrame) (name : string) (key : cell) : result DataFrame :=
  match List.filter (String.eqb name) (columns df) with
  | [] => Raise (key_error name)
  | [_] =>
      let* i := column_index df name in
      ret {| columns := columns df;
             rows := List.filter (fun r => cell_eqb (cell_at r i) key) (rows df) |}
  | _ => Raise (Exception "ValueError" "cannot index with a frame of booleans")
  end.

(** [s.unique()]: the distinct values in order of first appearance (the
    series has no missing cell where the code calls it). *)
Definition unique (s : list cell) : list cell :=
  fold_left (fun seen c => if existsb (cell_eqb c) seen then seen else seen ++ [c]) s [].

(** The numbers of a series, as the numerical routines read them: a text
    among them is an exception, which the routine chooses. *)
Definition as_float (c : cell) : result float :=
  match c with
  | Num x => Ok x
  | Null => Ok Float.nan
  | Str s => Raise (NotAFloat s)
  end.

Definition as_floats (s : list cell) : result (list float) := mapM as_float s.

(** [s.mean()], [s.var()], [s.std()] of a Series of floats, as pandas
    computes them itself ([nanmean], [nanvar] and [nanstd] of
    [pandas.core.nanops]): a missing value counts as 0 in the sums and is
    left out of the count ([skipna]); the sums are NumPy's; the variance is
    the sample variance ([ddof = 1]) in two passes, NaN below two values.
    [np.var(a, ddof=1)] and [np.std(a, ddof=1)] on an array without missing
    values, which is where the code calls them, give the same numbers. *)
Definition count (s : list float) : Z :=
  len (List.filter (fun x => negb (Float.is_nan x)) s).

Definition fill_zero (s : list float) : list float :=
  map (fun x => if Float.is_nan x then 0%float else x) s.

Definition mean (s : list float) : float :=
  if (0 <? count s)%Z then (Float.np_sum (fill_zero s) / Float.of_Z (count s))%float
  else Float.nan.

Definition var (s : list float) : float :=
  if (count s <=? 1)%Z then Float.nan
  else
    let avg := (Float.np_sum (fill_zero s) / Float.of_Z (count s))%float in
    let sqr :=
      map (fun x => if Float.is_nan x then 0%float else Float.square (avg - x)) s in
    (Float.np_sum sqr / Float.of_Z (count s - 1))%float.

Definition std (s : list float) : float := PrimFloat.sqrt (var s).

(** ** The numerical libraries *)

(** One row of the summary table of [pairwise_tukeyhsd]. *)
Record tukey_row : Type := {
  tk_group1 : cell; tk_group2 : cell;
  tk_meandiff : float; tk_p_adj : float;
  tk_lower : float; tk_upper : float;
  tk_reject : bool
}.

(** What the code reads of a fitted statsmodels model. *)
Record fit : Type := {
  params : list float; bse : list float;
  tvalues : list float; pvalues : list float;
  conf_int : list (float * float);
  resid : list float; fittedvalues : list float;
  rsquared : float; rsquared_adj : float;
  fvalue : float; f_pvalue : float;
  aic : float; bic : float;
  prsquared : float; llf : float; llr_pvalue : float;
  predict : list float
}.

Class Lib : Type := {
  (* scipy.stats: statistic and p-value *)
  levene : list (list float) -> result (float * float);
  bartlett : list (list float) -> result (float * float);
  ttest_ind : list float -> list float -> bool -> result (float * float);
  ttest_rel : list float -> list float -> result (float * float);
  shapiro : list float -> result (float * float);
  normaltest : list float -> result (float * float);
  f_oneway : list (list float) -> result (float * float);
  pearsonr : list float -> list float -> result (float * float);
  spearmanr : list float -> list float -> result (float * float);
  mannwhitneyu : list float -> list float -> result (float * float);
  kruskal : list (list float) -> result (float * float);
  fisher_exact : list (list Z) -> result (float * float);
  chi2_sf : float -> Z -> float;
  norm_ppf : float -> float;
  t_ppf : float -> Z -> float;
  (* numpy *)
  arctanh : float -> float;
  tanh : float -> float;
  exp : float -> float;
  (* pandas *)
  median : list float -> float;
  quantile : list float -> float -> float;
  skew : list float -> float;
  kurtosis : list float -> float;
  (* str() of a float, repr() of a text *)
  str_float : float -> string;
  repr_str : string -> string;
  (* pandas: the message of the KeyError of df[[...]], from the labels asked
     for and the labels of the frame *)
  labels_not_found : list string -> list string -> string;
  (* the message of the exception a numerical routine raises for a text
     among numbers; for the conversion to float that most begin with it is
     "could not convert string to float: " and repr() of the text *)
  not_a_number : string -> string;
  (* statsmodels *)
  pairwise_tukeyhsd : list float -> list cell -> float -> result (list tukey_row);
  OLS_fit : list float -> list (string * list float) -> result fit;
  Logit_fit : list float -> list (string * list float) -> result fit;
  variance_inflation_factor : list (list float) -> nat -> result float;
  het_breuschpagan : list float -> list (string * list float) -> result (float * float);
  durbin_watson : list float -> result float;
  (* sklearn.metrics *)
  confusion_matrix : list float -> list Z -> result (list (list Z))
}.

(** [str(c)] *)
Definition str_cell `{Lib} (c : cell) : string :=
  match c with
  | Num x => str_float x
  | Str s => s
  | Null => "None"
  end.

(** [str(e)].  A [KeyError] prints its argument with [repr], so a label
    comes out in quotes, and so does pandas' message. *)
Definition str_exn `{L : Lib} (e : exn) : string :=
  match e with
  | Exception _ msg => msg
  | KeyError key => repr_str key
  | LabelsNotFound names columns => repr_str (labels_not_found names columns)
  | NotAFloat text => not_a_number text
  end.

(** [try: body  except Exception as e: return {'error': str(e)}] *)
Definition try_except `{L : Lib} (body : result value) : value :=
  match body with
  | Ok v => v
  | Raise e => error_record (str_exn e)
  end.

(** ** statistics.py: [StatisticalAnalyzer] *)

(** A function body that may [return] a record early. *)
Inductive flow (A : Type) : Type :=
| Return (v : value)
| Continue (a : A).
Arguments Return {A} v.
Arguments Continue {A} a.

(** numpy divides by zero without raising: the quotient is inf or nan and a
    [RuntimeWarning] is issued, which the module silences
    ([warnings.filterwarnings('ignore')]).  A [warned] number keeps, next to
    the value, whether a zero divisor was met. *)
Definition warned : Type := float * bool.

Definition wret (x : float) : warned := (x, false).

Definition wbind (m : warned) (k : float -> warned) : warned :=
  let r := k (fst m) in (fst r, snd m || snd r).

(** [x / y], [y] a float *)
Definition np_div (x y : float) : warned := ((x / y)%float, PrimFloat.eqb y 0).

(** [x / k], [k] an [int] *)
Definition np_div_int (x : float) (k : Z) : warned :=
  ((x / Float.of_Z k)%float, (k =? 0)%Z).

(** [a / b] on two [int]s: Python raises on a zero divisor. *)
Definition int_truediv (a b : Z) : result float :=
  if (b =? 0)%Z then Raise (Exception "ZeroDivisionError" "division by zero")
  else Ok (Float.of_Z a / Float.of_Z b)%float.

(** [self.effect_size_thresholds]: small, medium, large *)
Definition effect_size_thresholds : list (string * (float * float * float)) :=
  [ ("cohens_d", (0.2, 0.5, 0.8)%float);
    ("r", (0.1, 0.3, 0.5)%float);
    ("eta_squared", (0.01, 0.06, 0.14)%float);
    ("cramers_v", (0.1, 0.3, 0.5)%float);
    ("r_squared", (0.02, 0.13, 0.26)%float) ].

Fixpoint thresholds_get (metric : string) (t : list (string * (float * float * float)))
  : option (float * float * float) :=
  match t with
  | [] => None
  | (m, th) :: t' => if String.eqb metric m then Some th else thresholds_get metric t'
  end.

Definition _interpret_effect_size (value : float) (metric : string) : string :=
  match thresholds_get metric effect_size_thresholds with
  | None => "unknown"
  | Some (small, medium, large) =>
      let abs_value := PrimFloat.abs value in
      if PrimFloat.ltb abs_value small then "negligible"
      else if PrimFloat.ltb abs_value medium then "small"
      else if PrimFloat.ltb abs_value large then "medium"
      else "large"
  end.

(** The local [pooled_std] of [_cohens_d]. *)
Definition pooled_std (group1 group2 : list float) : float :=
  let n1 := len group1 in
  let n2 := len group2 in
  let var1 := var group1 in
  let var2 := var group2 in
  PrimFloat.sqrt
    ((Float.of_Z (n1 - 1) * var1 + Float.of_Z (n2 - 1) * var2)
     / Float.of_Z (n1 + n2 - 2))%float.

Definition _cohens_d (group1 group2 : list float) : warned :=
  let n1 := len group1 in
  let n2 := len group2 in
  let var1 := var group1 in
  let var2 := var group2 in
  wbind (np_div_int (Float.of_Z (n1 - 1) * var1 + Float.of_Z (n2 - 1) * var2)%float
                    (n1 + n2 - 2))
    (fun q =>
       let pooled_std := PrimFloat.sqrt q in
       if PrimFloat.eqb pooled_std 0 then wret 0%float
       else np_div (mean group1 - mean group2)%float pooled_std).

Section StatisticalAnalyzer.

Context `{L : Lib}.

(** [self.alpha] *)
Variable alpha : float.

(** [(n1 + n2) / (n1 * n2)] divides two [int]s; the second quotient has the
    divisor [2 * (n1 + n2)], which is not zero once the first went through
    (the arguments are lengths). *)
Definition _cohens_d_ci (d : float) (n1 n2 : Z) : result (float * float) :=
  let* q := int_truediv (n1 + n2) (n1 * n2) in
  let se := PrimFloat.sqrt (q + Float.square d / Float.of_Z (2 * (n1 + n2)))%float in
  let z := norm_ppf ((1 + 0.95) / 2)%float in
  ret ((d - z * se)%float, (d + z * se)%float).

(** What the two branches of [run_ttest] leave for the rest of the body;
    the Levene results are bound in the independent branch only. *)
Record ttest_locals : Type := {
  tt_groups : cell * cell;
  tt_group1_data : list float;
  tt_group2_data : list float;
  tt_t_stat : float;
  tt_p_value : float;
  tt_test_type : string;
  tt_levene : option (float * float * bool)
}.

(** [df_clean[df_clean[group_var] == g][outcome_var]] *)
Definition group_series (df_clean : DataFrame) (group_var outcome_var : string) (g : cell)
  : result (list cell) :=
  let* sub := where_eq df_clean group_var g in
  getitem sub outcome_var.

Definition ttest_paired (df_clean : DataFrame) (group_var outcome_var : string)
  : result (flow ttest_locals) :=
  let* gcol := getitem df_clean group_var in
  match unique gcol with
  | [g0; g1] =>
      let* group1_data := group_series df_clean group_var outcome_var g0 in
      let* group2_data := group_series df_clean group_var outcome_var g1 in
      if negb (len group1_data =? len group2_data)%Z then
        ret (Return (error_record "Paired t-test requires equal sample sizes"))
      else
        let* x1 := as_floats group1_data in
        let* x2 := as_floats group2_data in
        let* '(t_stat, p_value) := ttest_rel x1 x2 in
        ret (Continue {| tt_groups := (g0, g1);
                         tt_group1_data := x1; tt_group2_data := x2;
                         tt_t_stat := t_stat; tt_p_value := p_value;
                         tt_test_type := "Paired Samples t-test";
                         tt_levene := None |})
  | _ => ret (Return (error_record "Paired t-test requires exactly 2 groups"))
  end.

Definition ttest_independent (df_clean : DataFrame) (group_var outcome_var : string)
  : result (flow ttest_locals) :=
  let* gcol := getitem df_clean group_var in
  match unique gcol with
  | [g0; g1] =>
      let* group1_data := group_series df_clean group_var outcome_var g0 in
      let* group2_data := group_series df_clean group_var outcome_var g1 in
      let* x1 := as_floats group1_data in
      let* x2 := as_floats group2_data in
      (* Levene's test for homogeneity of variance *)
      let* '(levene_stat, levene_p) := levene [x1; x2] in
      let equal_var := Float.gtb levene_p alpha in
      let* '(t_stat, p_value) := ttest_ind x1 x2 equal_var in
      let test_type :=
        if negb equal_var then "Independent Samples t-test (Welch's)"
        else "Independent Samples t-test" in
      ret (Continue {| tt_groups := (g0, g1);
                       tt_group1_data := x1; tt_group2_data := x2;
                       tt_t_stat := t_stat; tt_p_value := p_value;
                       tt_test_type := test_type;
                       tt_levene := Some (levene_stat, levene_p, equal_var) |})
  | groups =>
      ret (Return (error_record
             ("T-test requires exactly 2 groups, found " +:+ pretty (len groups))))
  end.

(** [shapiro(data) if len(data) >= 3 else (None, None)] *)
Definition shapiro_if_3 (data : list float) : result (option (float * float)) :=
  if (3 <=? len data)%Z then
    let* r := shapiro data in ret (Some r)
  else ret None.

(** The block [{'shapiro_w': round(w, 4) if w else None, 'p_value': round(p, 4)
    if p else None, 'normal': p > self.alpha if p else None}] *)
Definition normality_block (normality : option (float * float)) : value :=
  VDict [
    ("shapiro_w",
      match normality with
      | Some (w, _) => if Float.truthy w then VRound w 4 else VNone
      | None => VNone
      end);
    ("p_value",
      match normality with
      | Some (_, p) => if Float.truthy p then VRound p 4 else VNone
      | None => VNone
      end);
    ("normal",
      match normality with
      | Some (_, p) => if Float.truthy p then VBool (Float.gtb p alpha) else VNone
      | None => VNone
      end) ].

Definition group_block (data : list float) : value :=
  VDict [
    ("n", VInt (len data));
    ("mean", VRound (mean data) 4);
    ("std", VRound (std data) 4);
    ("se", VRound (std data / PrimFloat.sqrt (Float.of_Z (len data)))%float 4) ].

Definition ttest_report (group_var outcome_var : string) (paired : bool)
    (loc : ttest_locals) : result value :=
  let '(g0, g1) := tt_groups loc in
  let group1_data := tt_group1_data loc in
  let group2_data := tt_group2_data loc in
  let t_stat := tt_t_stat loc in
  let p_value := tt_p_value loc in
  (* Effect size (Cohen's d) *)
  let cohens_d := fst (_cohens_d group1_data group2_data) in
  let* d_ci := _cohens_d_ci cohens_d (len group1_data) (len group2_data) in
  (* Mean difference and CI *)
  let mean_diff := (mean group1_data - mean group2_data)%float in
  let se_diff :=
    PrimFloat.sqrt (var group1_data / Float.of_Z (len group1_data)
                    + var group2_data / Float.of_Z (len group2_data))%float in
  let t_crit := t_ppf 0.975%float (len group1_data + len group2_data - 2) in
  let diff_ci := ((mean_diff - t_crit * se_diff)%float,
                  (mean_diff + t_crit * se_diff)%float) in
  (* Normality checks *)
  let* normality_g1 := shapiro_if_3 group1_data in
  let* normality_g2 := shapiro_if_3 group2_data in
  ret (VDict [
    ("test_type", VStr (tt_test_type loc));
    ("test_statistic", VRound t_stat 4);
    ("degrees_of_freedom", VInt (len group1_data + len group2_data - 2));
    ("p_value", VRound p_value 4);
    ("significant", VBool (PrimFloat.ltb p_value alpha));
    ("alpha", VFloat alpha);
    ("effect_size", VDict [
       ("cohens_d", VRound cohens_d 4);
       ("ci_95", VTuple [VRound (fst d_ci) 4; VRound (snd d_ci) 4]);
       ("interpretation", VStr (_interpret_effect_size cohens_d "cohens_d")) ]);
    ("mean_difference", VDict [
       ("value", VRound mean_diff 4);
       ("ci_95", VTuple [VRound (fst diff_ci) 4; VRound (snd diff_ci) 4]) ]);
    ("group_statistics", VDict (mkdict [
       (str_cell g0, group_block group1_data);
       (str_cell g1, group_block group2_data) ]));
    ("assumptions", VDict [
       ("normality_group1", normality_block normality_g1);
       ("normality_group2", normality_block normality_g2);
       ("equal_variance", VDict [
          ("levene_stat",
            if negb paired then
              match tt_levene loc with Some (s, _, _) => VRound s 4 | None => VNone end
            else VNone);
          ("p_value",
            if negb paired then
              match tt_levene loc with Some (_, p, _) => VRound p 4 | None => VNone end
            else VNone);
          ("equal",
            if negb paired then
              match tt_levene loc with Some (_, _, e) => VBool e | None => VNone end
            else VNone) ]) ]);
    ("variables", VDict [
       ("group", VStr group_var);
       ("outcome", VStr outcome_var);
       ("groups", VList [VStr (str_cell g0); VStr (str_cell g1)]) ]) ]).

Definition run_ttest_body (df : DataFrame) (group_var outcome_var : string) (paired : bool)
  : result value :=
  let* sel := getitems df [group_var; outcome_var] in
  let df_clean := dropna sel in
  let* branch :=
    if paired then ttest_paired df_clean group_var outcome_var
    else ttest_independent df_clean group_var outcome_var in
  match branch with
  | Return v => ret v
  | Continue loc => ttest_report group_var outcome_var paired loc
  end.

Definition run_ttest (df : DataFrame) (group_var outcome_var : string) (paired : bool)
  : value :=
  try_except (run_ttest_body df group_var outcome_var paired).


(** *** One-way ANOVA *)

Definition tukey_block (row : tukey_row) : value :=
  VDict [
    ("group1", VStr (str_cell (tk_group1 row)));
    ("group2", VStr (str_cell (tk_group2 row)));
    ("mean_diff", VRound (tk_meandiff row) 4);
    ("p_adj", VRound (tk_p_adj row) 4);
    ("ci_lower", VRound (tk_lower row) 4);
    ("ci_upper", VRound (tk_upper row) 4);
    ("significant", VBool (tk_reject row)) ].

(** The numbers of the group [g], read again from [df_clean]. *)
Definition group_floats (df_clean : DataFrame) (group_var outcome_var : string) (g : cell)
  : result (list float) :=
  let* s := group_series df_clean group_var outcome_var g in
  as_floats s.

Definition run_anova_body (df : DataFrame) (group_var outcome_var : string) : result value :=
  let* sel := getitems df [group_var; outcome_var] in
  let df_clean := dropna sel in
  let* gcol := getitem df_clean group_var in
  let groups := unique gcol in
  if (len groups <? 3)%Z then
    ret (error_record "ANOVA requires 3 or more groups. Use t-test for 2 groups.")
  else
    (* Prepare group data *)
    let* group_cells := mapM (group_series df_clean group_var outcome_var) groups in
    let* group_data := mapM as_floats group_cells in
    (* Run ANOVA *)
    let* '(f_stat, p_value) := f_oneway group_data in
    (* Effect size (Eta-squared) *)
    let* ocol := getitem df_clean outcome_var in
    let* y := as_floats ocol in
    let grand_mean := mean y in
    let ss_between :=
      Float.fsum (map (fun g => (Float.of_Z (len g) * Float.square (mean g - grand_mean))%float)
                      group_data) in
    let ss_total := Float.fsum (map (fun x => Float.square (x - grand_mean)%float) y) in
    let eta_squared :=
      if PrimFloat.ltb 0 ss_total then (ss_between / ss_total)%float else 0%float in
    (* Omega-squared (less biased) *)
    let n_total := len (rows df_clean) in
    let k := len groups in
    let ms_within := ((ss_total - ss_between) / Float.of_Z (n_total - k))%float in
    let omega_squared :=
      ((ss_between - Float.of_Z (k - 1) * ms_within) / (ss_total + ms_within))%float in
    (* Group statistics *)
    let* group_stats :=
      mapM (fun g =>
              let* g_data := group_floats df_clean group_var outcome_var g in
              ret (str_cell g, group_block g_data)) groups in
    (* Post-hoc: Tukey HSD using statsmodels *)
    let* tukey := pairwise_tukeyhsd y gcol alpha in
    let posthoc_results := map tukey_block tukey in
    (* Assumption checks *)
    let* '(levene_stat, levene_p) := levene group_data in
    ret (VDict [
      ("test_type", VStr "One-way ANOVA");
      ("test_statistic", VRound f_stat 4);
      ("degrees_of_freedom", VDict [
         ("between", VInt (k - 1));
         ("within", VInt (n_total - k)) ]);
      ("p_value", VRound p_value 4);
      ("significant", VBool (PrimFloat.ltb p_value alpha));
      ("alpha", VFloat alpha);
      ("effect_size", VDict [
         ("eta_squared", VRound eta_squared 4);
         ("omega_squared", VRound omega_squared 4);
         ("interpretation", VStr (_interpret_effect_size eta_squared "eta_squared")) ]);
      ("group_statistics", VDict (mkdict group_stats));
      ("posthoc", VDict [
         ("method", VStr "Tukey HSD");
         ("comparisons", VList posthoc_results) ]);
      ("assumptions", VDict [
         ("homogeneity_of_variance", VDict [
            ("levene_stat", VRound levene_stat 4);
            ("p_value", VRound levene_p 4);
            ("equal", VBool (Float.gtb levene_p alpha)) ]) ]);
      ("variables", VDict [
         ("group", VStr group_var);
         ("outcome", VStr outcome_var);
         ("groups", VList (map (fun g => VStr (str_cell g)) groups)) ]) ]).

Definition run_anova (df : DataFrame) (group_var outcome_var : string) : value :=
  try_except (run_anova_body df group_var outcome_var).

(** *** Chi-square test of independence *)

(** The order pandas sorts labels in: numbers before text. *)
Definition cell_leb (a b : cell) : bool :=
  match a, b with
  | Num x, Num y => PrimFloat.leb x y
  | Num _, _ => true
  | Str s, Str t => String.leb s t
  | Str _, Num _ => false
  | Str _, Null => true
  | Null, Null => true
  | Null, _ => false
  end.

Fixpoint insert_sorted (c : cell) (l : list cell) : list cell :=
  match l with
  | [] => [c]
  | d :: l' => if cell_leb c d then c :: d :: l' else d :: insert_sorted c l'
  end.

Definition sort_cells (l : list cell) : list cell :=
  fold_right insert_sorted [] l.

(** [pd.crosstab(a, b)]: the sorted labels of both series and the counts. *)
Record crosstab_t : Type := {
  ct_index : list cell;
  ct_columns : list cell;
  ct_counts : list (list Z)
}.

Definition count_pairs (a b : list cell) (i j : cell) : Z :=
  len (List.filter (fun xy => cell_eqb (fst xy) i && cell_eqb (snd xy) j) (combine a b)).

Definition crosstab (a b : list cell) : crosstab_t :=
  let index := sort_cells (unique a) in
  let cols := sort_cells (unique b) in
  {| ct_index := index;
     ct_columns := cols;
     ct_counts := map (fun i => map (fun j => count_pairs a b i j) cols) index |}.

(** [table.shape] *)
Definition shape (t : crosstab_t) : Z * Z := (len (ct_index t), len (ct_columns t)).

Definition zsum (l : list Z) : Z := fold_left Z.add l 0%Z.

Fixpoint col_sums (m : list (list Z)) (ncols : nat) : list Z :=
  match ncols with
  | O => []
  | S n => col_sums m n ++ [zsum (map (fun r => nth n r 0%Z) m)]
  end.

(** [scipy.stats.chi2_contingency(observed)] with its defaults
    ([correction=True]): the expected frequencies are the products of the
    margins over the total; a table with one degree of freedom gets Yates'
    continuity correction; the statistic is Pearson's; the p-value is the
    survival function of the chi-square distribution. *)
Definition chi2_contingency (observed : list (list Z))
  : result (float * float * Z * list (list float)) :=
  let nrows := len observed in
  let ncols := match observed with [] => 0%Z | r :: _ => len r end in
  if (nrows * ncols =? 0)%Z then
    Raise (Exception "ValueError" "No data; `observed` has size 0.")
  else
    let rsums := map zsum observed in
    let csums := col_sums observed (Z.to_nat ncols) in
    let n := zsum rsums in
    let expected :=
      map (fun r => map (fun c => (Float.of_Z r * Float.of_Z c / Float.of_Z n)%float) csums)
          rsums in
    if existsb (existsb (fun e => PrimFloat.eqb e 0)) expected then
      Raise (Exception "ValueError"
               "The internally computed table of expected frequencies has a zero element")
    else
      let dof := (nrows * ncols - (nrows + ncols) + 2 - 1)%Z in
      if (dof =? 0)%Z then ret (0%float, 1%float, dof, expected)
      else
        let obs := map (map Float.of_Z) observed in
        let corrected :=
          if (dof =? 1)%Z then
            map (fun oe =>
                   map (fun p =>
                          let '(o, e) := p in
                          let diff := (e - o)%float in
                          (o + Float.fmin 0.5 (PrimFloat.abs diff) * Float.sign diff)%float)
                       (combine (fst oe) (snd oe)))
                (combine obs expected)
          else obs in
        let terms :=
          flat_map (fun oe =>
                      map (fun p => let '(o, e) := p in (Float.square (o - e) / e)%float)
                          (combine (fst oe) (snd oe)))
                   (combine corrected expected) in
        let chi2 := Float.np_sum terms in
        ret (chi2, chi2_sf chi2 dof, dof, expected).

(** [table.to_dict()]: column label, then row label *)
Definition table_to_dict {A} (index cols : list cell) (m : list (list A))
    (leaf : A -> value) (dflt : A) : value :=
  VDict (mkdict
    (map (fun jc =>
            (str_cell (snd jc),
             VDict (mkdict
               (map (fun ir => (str_cell (snd ir), leaf (nth (fst jc) (fst ir) dflt)))
                    (combine m index)))))
         (combine (seq 0 (length cols)) cols))).

Definition float_min (l : list float) : float :=
  match l with
  | [] => Float.nan
  | x :: l' => fold_left Float.fmin l' x
  end.

(** The body of [run_chisquare] from the contingency table on. *)
Definition chisquare_report (var1 var2 : string) (contingency_table : crosstab_t)
  : result value :=
  (* Check if Fisher's exact is needed (any expected cell < 5) *)
  let* '(chi2, p_chi2, dof, expected) := chi2_contingency (ct_counts contingency_table) in
  let use_fisher := existsb (existsb (fun e => PrimFloat.ltb e 5)) expected in
  let is_2x2 :=
    let '(r, c) := shape contingency_table in ((r =? 2) && (c =? 2))%Z in
  let* '(test_type, p_value, odds_ratio) :=
    if use_fisher && is_2x2 then
      (* Fisher's exact test for 2x2 tables *)
      let* '(odds_ratio, p) := fisher_exact (ct_counts contingency_table) in
      ret ("Fisher's Exact Test", p, Some odds_ratio)
    else ret ("Chi-square Test of Independence", p_chi2, None) in
  (* Effect size (Cramer's V) *)
  let n := zsum (map zsum (ct_counts contingency_table)) in
  let min_dim :=
    let '(r, c) := shape contingency_table in Z.min (r - 1) (c - 1) in
  let cramers_v :=
    if (0 <? min_dim)%Z then PrimFloat.sqrt (chi2 / Float.of_Z (n * min_dim))%float
    else 0%float in
  (* Phi coefficient for 2x2 tables *)
  let phi := if is_2x2 then Some (PrimFloat.sqrt (chi2 / Float.of_Z n)%float) else None in
  ret (VDict [
    ("test_type", VStr test_type);
    ("test_statistic", VRound chi2 4);
    ("degrees_of_freedom", VInt dof);
    ("p_value", VRound p_value 4);
    ("significant", VBool (PrimFloat.ltb p_value alpha));
    ("alpha", VFloat alpha);
    ("effect_size", VDict [
       ("cramers_v", VRound cramers_v 4);
       ("phi", match phi with
               | Some x => if Float.truthy x then VRound x 4 else VNone
               | None => VNone
               end);
       ("odds_ratio", match odds_ratio with
                      | Some x => if Float.truthy x then VRound x 4 else VNone
                      | None => VNone
                      end);
       ("interpretation", VStr (_interpret_effect_size cramers_v "cramers_v")) ]);
    ("contingency_table", VDict [
       ("observed",
         table_to_dict (ct_index contingency_table) (ct_columns contingency_table)
                       (ct_counts contingency_table) VInt 0%Z);
       ("expected",
         table_to_dict (ct_index contingency_table) (ct_columns contingency_table)
                       expected (fun e => VRound e 2) Float.nan) ]);
    ("sample_size", VInt n);
    ("assumptions", VDict [
       ("expected_cell_counts", VDict [
          ("min_expected", VRound (float_min (concat expected)) 2);
          ("cells_below_5",
            VInt (len (List.filter (fun e => PrimFloat.ltb e 5) (concat expected))));
          ("fisher_recommended", VBool use_fisher) ]) ]);
    ("variables", VDict [
       ("variable1", VStr var1);
       ("variable2", VStr var2) ]) ]).

Definition run_chisquare_body (df : DataFrame) (var1 var2 : string) : result value :=
  let* sel := getitems df [var1; var2] in
  let df_clean := dropna sel in
  (* Create contingency table *)
  let* c1 := getitem df_clean var1 in
  let* c2 := getitem df_clean var2 in
  let contingency_table := crosstab c1 c2 in
  chisquare_report var1 var2 contingency_table.

Definition run_chisquare (df : DataFrame) (var1 var2 : string) : value :=
  try_except (run_chisquare_body df var1 var2).

(** *** Correlation *)

Definition run_correlation_body (df : DataFrame) (var1 var2 : string) (method : string)
  : result value :=
  let* sel := getitems df [var1; var2] in
  let df_clean := dropna sel in
  let* c1 := getitem df_clean var1 in
  let* c2 := getitem df_clean var2 in
  let n := len c1 in
  let* x := as_floats c1 in
  let* y := as_floats c2 in
  let* '(r, p_value, test_type) :=
    if String.eqb method "pearson" then
      let* '(r, p) := pearsonr x y in ret (r, p, "Pearson Correlation")
    else
      let* '(r, p) := spearmanr x y in ret (r, p, "Spearman Correlation") in
  (* Fisher's z transformation for CI *)
  let z := arctanh r in
  let se := (1 / PrimFloat.sqrt (Float.of_Z (n - 3)))%float in
  let z_ci := ((z - 1.96 * se)%float, (z + 1.96 * se)%float) in
  let r_ci := (tanh (fst z_ci), tanh (snd z_ci)) in
  (* R-squared *)
  let r_squared := Float.square r in
  (* Strength interpretation *)
  let abs_r := PrimFloat.abs r in
  let strength :=
    if PrimFloat.ltb abs_r 0.1 then "negligible"
    else if PrimFloat.ltb abs_r 0.3 then "weak"
    else if PrimFloat.ltb abs_r 0.5 then "moderate"
    else if PrimFloat.ltb abs_r 0.7 then "strong"
    else "very strong" in
  let direction := if Float.gtb r 0 then "positive" else "negative" in
  ret (VDict [
    ("test_type", VStr test_type);
    ("correlation_coefficient", VRound r 4);
    ("p_value", VRound p_value 4);
    ("significant", VBool (PrimFloat.ltb p_value alpha));
    ("alpha", VFloat alpha);
    ("r_squared", VRound r_squared 4);
    ("confidence_interval", VDict [
       ("ci_95", VTuple [VRound (fst r_ci) 4; VRound (snd r_ci) 4]) ]);
    ("interpretation", VDict [
       ("strength", VStr strength);
       ("direction", VStr direction);
       ("effect_size", VStr (_interpret_effect_size r "r")) ]);
    ("sample_size", VInt n);
    ("variables", VDict [
       ("variable1", VStr var1);
       ("variable2", VStr var2) ]) ]).

Definition run_correlation (df : DataFrame) (var1 var2 : string) (method : string) : value :=
  try_except (run_correlation_body df var1 var2 method).


(** *** Regression *)

(** The [predictors] argument: one name or a list of names. *)
Inductive predictors_arg : Type :=
| OneName (name : string)
| Names (names : list string).

(** [if isinstance(predictors, str): predictors = [predictors]] *)
Definition predictor_list (predictors : predictors_arg) : list string :=
  match predictors with
  | OneName name => [name]
  | Names names => names
  end.

(** The columns of a frame as numbers, for the design matrix (the library
    adds the constant column: [sm.add_constant]). *)
Definition frame_floats (df : DataFrame) : result (list (string * list float)) :=
  mapM (fun ic =>
          let* xs := as_floats (map (fun r => cell_at r (fst ic)) (rows df)) in
          ret (snd ic, xs))
       (combine (seq 0 (length (columns df))) (columns df)).

(** [enumerate(l)] *)
Definition enumerate {A} (l : list A) : list (nat * A) := combine (seq 0 (length l)) l.

Definition linear_coefficient (model : fit) (X : DataFrame) (y : list float)
    (iv : nat * string) : result value :=
  let '(i, var) := iv in
  let* coef := getitem_list (params model) i in
  let* se := getitem_list (bse model) i in
  let* t_val := getitem_list (tvalues model) i in
  let* p_val := getitem_list (pvalues model) i in
  let* ci := getitem_list (conf_int model) i in
  (* Standardized coefficient (beta) - only for predictors, not constant *)
  let* beta :=
    if String.eqb var "const" then ret None
    else
      let* xc := getitem X var in
      let* xv := as_floats xc in
      ret (Some (coef * (std xv / std y))%float) in
  ret (VDict [
    ("variable", VStr var);
    ("B", VRound coef 4);
    ("SE", VRound se 4);
    ("beta", match beta with Some b => VRound b 4 | None => VNone end);
    ("t", VRound t_val 4);
    ("p", VRound p_val 4);
    ("ci_95", VTuple [VRound (fst ci) 4; VRound (snd ci) 4]);
    ("significant", VBool (PrimFloat.ltb p_val alpha)) ]).

Definition vif_entry (Xf : list (string * list float)) (iv : nat * string) : result value :=
  let '(i, var) := iv in
  let* vif := variance_inflation_factor (map snd Xf) i in
  ret (VDict [
    ("variable", VStr var);
    ("VIF", VRound vif 4);
    ("concern", VBool (Float.gtb vif 5));
    ("severe", VBool (Float.gtb vif 10)) ]).

Definition run_linear_regression_body (df : DataFrame) (outcome : string)
    (predictors_in : predictors_arg) : result value :=
  (* Ensure predictors is a list *)
  let predictors := predictor_list predictors_in in
  (* Clean data *)
  let all_vars := outcome :: predictors in
  let* sel := getitems df all_vars in
  let df_clean := dropna sel in
  (* Prepare data *)
  let* X := getitems df_clean predictors in
  let* ycol := getitem df_clean outcome in
  let* Xf := frame_floats X in
  let* y := as_floats ycol in
  (* Fit model *)
  let* model := OLS_fit y Xf in
  (* Extract results *)
  let* coefficients := mapM (linear_coefficient model X y) (enumerate ("const" :: predictors)) in
  (* VIF for multicollinearity *)
  let* vif_data :=
    if (1 <? len predictors)%Z then mapM (vif_entry Xf) (enumerate predictors)
    else ret [] in
  (* Residual diagnostics *)
  let residuals := resid model in
  (* Normality of residuals *)
  let* normality :=
    if (len residuals <=? 5000)%Z then let* r := shapiro residuals in ret (Some r)
    else ret None in
  (* Heteroscedasticity (Breusch-Pagan) *)
  let* '(bp_stat, bp_p) := het_breuschpagan residuals Xf in
  (* Durbin-Watson for autocorrelation *)
  let* dw := durbin_watson residuals in
  ret (VDict [
    ("test_type", VStr (if (1 <? len predictors)%Z then "Multiple Linear Regression"
                        else "Simple Linear Regression"));
    ("model_summary", VDict [
       ("r_squared", VRound (rsquared model) 4);
       ("r_squared_adj", VRound (rsquared_adj model) 4);
       ("f_statistic", VRound (fvalue model) 4);
       ("f_pvalue", VRound (f_pvalue model) 4);
       ("significant", VBool (PrimFloat.ltb (f_pvalue model) alpha));
       ("aic", VRound (aic model) 4);
       ("bic", VRound (bic model) 4) ]);
    ("coefficients", VList coefficients);
    ("sample_size", VInt (len (rows df_clean)));
    ("effect_size", VDict [
       ("r_squared", VRound (rsquared model) 4);
       ("interpretation", VStr (_interpret_effect_size (rsquared model) "r_squared")) ]);
    ("multicollinearity", match vif_data with [] => VNone | _ => VList vif_data end);
    ("assumptions", VDict [
       ("normality_of_residuals", normality_block normality);
       ("homoscedasticity", VDict [
          ("breusch_pagan_stat", VRound bp_stat 4);
          ("p_value", VRound bp_p 4);
          ("homoscedastic", VBool (Float.gtb bp_p alpha)) ]);
       ("independence", VDict [
          ("durbin_watson", VRound dw 4);
          ("interpretation",
            VStr (if PrimFloat.ltb dw 1.5 then "positive autocorrelation"
                  else if Float.gtb dw 2.5 then "negative autocorrelation"
                  else "no autocorrelation")) ]) ]);
    ("variables", VDict [
       ("outcome", VStr outcome);
       ("predictors", VList (map VStr predictors)) ]) ]).

Definition run_linear_regression (df : DataFrame) (outcome : string)
    (predictors : predictors_arg) : value :=
  try_except (run_linear_regression_body df outcome predictors).

Definition is_str (c : cell) : bool :=
  match c with Str _ => true | _ => false end.

(** [pd.Categorical(y).codes]: the position of each value among the sorted
    categories *)
Definition categorical_codes (y : list cell) : list float :=
  let cats := sort_cells (unique y) in
  map (fun c =>
         match list_find (fun d => cell_eqb c d = true) cats with
         | Some (i, _) => Float.of_Z (Z.of_nat i)
         | None => (-1)%float
         end) y.

Definition logistic_coefficient (model : fit) (iv : nat * string) : result value :=
  let '(i, var) := iv in
  let* coef := getitem_list (params model) i in
  let* se := getitem_list (bse model) i in
  let* z_val := getitem_list (tvalues model) i in
  let* p_val := getitem_list (pvalues model) i in
  let* ci := getitem_list (conf_int model) i in
  (* Odds ratio *)
  let odds_ratio := exp coef in
  let or_ci := (exp (fst ci), exp (snd ci)) in
  ret (VDict [
    ("variable", VStr var);
    ("B", VRound coef 4);
    ("SE", VRound se 4);
    ("Wald", VRound (Float.square z_val) 4);
    ("z", VRound z_val 4);
    ("p", VRound p_val 4);
    ("OR", VRound odds_ratio 4);
    ("OR_ci_95", VTuple [VRound (fst or_ci) 4; VRound (snd or_ci) 4]);
    ("significant", VBool (PrimFloat.ltb p_val alpha)) ]).

Definition run_logistic_regression_body (df : DataFrame) (outcome : string)
    (predictors_in : predictors_arg) : result value :=
  (* Ensure predictors is a list *)
  let predictors := predictor_list predictors_in in
  (* Clean data *)
  let all_vars := outcome :: predictors in
  let* sel := getitems df all_vars in
  let df_clean := dropna sel in
  (* Verify binary outcome *)
  let* ycol := getitem df_clean outcome in
  let unique_vals := unique ycol in
  if negb (len unique_vals =? 2)%Z then
    ret (error_record ("Logistic regression requires binary outcome. Found "
                       +:+ pretty (len unique_vals) +:+ " unique values."))
  else
    (* Prepare data *)
    let* X := getitems df_clean predictors in
    (* Encode outcome if needed *)
    let* y :=
      if existsb is_str ycol then ret (categorical_codes ycol) else as_floats ycol in
    let* Xf := frame_floats X in
    (* Fit model *)
    let* model := Logit_fit y Xf in
    (* Extract results *)
    let* coefficients := mapM (logistic_coefficient model) (enumerate ("const" :: predictors)) in
    (* McFadden's pseudo R-squared *)
    let pseudo_r2 := prsquared model in
    (* Prediction accuracy *)
    let predicted := map (fun q => if Float.gtb q 0.5 then 1%Z else 0%Z) (predict model) in
    let accuracy :=
      (Float.of_Z (len (List.filter (fun py => PrimFloat.eqb (Float.of_Z (fst py)) (snd py))
                               (combine predicted y)))
       / Float.of_Z (len predicted))%float in
    (* Confusion matrix *)
    let* cm := confusion_matrix y predicted in
    ret (VDict [
      ("test_type", VStr "Binary Logistic Regression");
      ("model_summary", VDict [
         ("pseudo_r_squared", VRound pseudo_r2 4);
         ("log_likelihood", VRound (llf model) 4);
         ("aic", VRound (aic model) 4);
         ("bic", VRound (bic model) 4);
         ("llr_pvalue", VRound (llr_pvalue model) 4);
         ("significant", VBool (PrimFloat.ltb (llr_pvalue model) alpha)) ]);
      ("coefficients", VList coefficients);
      ("sample_size", VInt (len (rows df_clean)));
      ("classification", VDict [
         ("accuracy", VRound accuracy 4);
         ("confusion_matrix", VList (map (fun r => VList (map VInt r)) cm)) ]);
      ("effect_size", VDict [
         ("pseudo_r_squared", VRound pseudo_r2 4);
         ("interpretation",
           VStr (if Float.gtb pseudo_r2 0.4 then "excellent"
                 else if Float.gtb pseudo_r2 0.2 then "good"
                 else "acceptable")) ]);
      ("variables", VDict [
         ("outcome", VStr outcome);
         ("predictors", VList (map VStr predictors)) ]) ]).

Definition run_logistic_regression (df : DataFrame) (outcome : string)
    (predictors : predictors_arg) : value :=
  try_except (run_logistic_regression_body df outcome predictors).

(** *** Rank-based tests *)

Definition rank_block (data : list float) : value :=
  VDict [
    ("n", VInt (len data));
    ("median", VRound (median data) 4);
    ("iqr", VRound (quantile data 0.75 - quantile data 0.25)%float 4) ].

Definition run_mannwhitney_body (df : DataFrame) (group_var outcome_var : string)
  : result value :=
  let* sel := getitems df [group_var; outcome_var] in
  let df_clean := dropna sel in
  let* gcol := getitem df_clean group_var in
  match unique gcol with
  | [g0; g1] =>
      let* group1_cells := group_series df_clean group_var outcome_var g0 in
      let* group2_cells := group_series df_clean group_var outcome_var g1 in
      let* group1_data := as_floats group1_cells in
      let* group2_data := as_floats group2_cells in
      (* Run Mann-Whitney U *)
      let* '(u_stat, p_value) := mannwhitneyu group1_data group2_data in
      (* Effect size (rank-biserial correlation) *)
      let n1 := len group1_data in
      let n2 := len group2_data in
      let r := (1 - (2 * u_stat) / Float.of_Z (n1 * n2))%float in
      ret (VDict [
        ("test_type", VStr "Mann-Whitney U Test");
        ("test_statistic", VRound u_stat 4);
        ("p_value", VRound p_value 4);
        ("significant", VBool (PrimFloat.ltb p_value alpha));
        ("alpha", VFloat alpha);
        ("effect_size", VDict [
           ("rank_biserial_r", VRound r 4);
           ("interpretation", VStr (_interpret_effect_size r "r")) ]);
        ("group_statistics", VDict (mkdict [
           (str_cell g0, rank_block group1_data);
           (str_cell g1, rank_block group2_data) ]));
        ("variables", VDict [
           ("group", VStr group_var);
           ("outcome", VStr outcome_var);
           ("groups", VList [VStr (str_cell g0); VStr (str_cell g1)]) ]) ])
  | groups =>
      ret (error_record
             ("Mann-Whitney U requires exactly 2 groups, found " +:+ pretty (len groups)))
  end.

Definition run_mannwhitney (df : DataFrame) (group_var outcome_var : string) : value :=
  try_except (run_mannwhitney_body df group_var outcome_var).

Definition run_kruskal_body (df : DataFrame) (group_var outcome_var : string)
  : result value :=
  let* sel := getitems df [group_var; outcome_var] in
  let df_clean := dropna sel in
  let* gcol := getitem df_clean group_var in
  let groups := unique gcol in
  if (len groups <? 3)%Z then
    ret (error_record
           "Kruskal-Wallis requires 3 or more groups. Use Mann-Whitney U for 2 groups.")
  else
    (* Prepare group data *)
    let* group_cells := mapM (group_series df_clean group_var outcome_var) groups in
    let* group_data := mapM as_floats group_cells in
    (* Run Kruskal-Wallis *)
    let* '(h_stat, p_value) := kruskal group_data in
    (* Effect size (epsilon-squared) *)
    let n := len (rows df_clean) in
    let k := len groups in
    let epsilon_sq := (h_stat / Float.of_Z (n - 1))%float in
    (* Group statistics *)
    let* group_stats :=
      mapM (fun g =>
              let* g_data := group_floats df_clean group_var outcome_var g in
              ret (str_cell g, rank_block g_data)) groups in
    ret (VDict [
      ("test_type", VStr "Kruskal-Wallis H Test");
      ("test_statistic", VRound h_stat 4);
      ("degrees_of_freedom", VInt (k - 1));
      ("p_value", VRound p_value 4);
      ("significant", VBool (PrimFloat.ltb p_value alpha));
      ("alpha", VFloat alpha);
      ("effect_size", VDict [
         ("epsilon_squared", VRound epsilon_sq 4);
         ("interpretation", VStr (_interpret_effect_size epsilon_sq "eta_squared")) ]);
      ("group_statistics", VDict (mkdict group_stats));
      ("variables", VDict [
         ("group", VStr group_var);
         ("outcome", VStr outcome_var);
         ("groups", VList (map (fun g => VStr (str_cell g)) groups)) ]) ]).

Definition run_kruskal (df : DataFrame) (group_var outcome_var : string) : value :=
  try_except (run_kruskal_body df group_var outcome_var).

End StatisticalAnalyzer.

(** ** assumptions.py: [AssumptionChecker.check_normality] *)

Section AssumptionChecker.

Context `{L : Lib}.

(** [self.alpha] *)
Variable alpha : float.

(** Truth value of a record entry, for [all(...)] *)
Definition truthy_value (v : value) : bool :=
  match v with
  | VNone => false
  | VBool b => b
  | VInt n => negb (n =? 0)%Z
  | VFloat x => Float.truthy x
  | VRound x n => Float.truthy (Float.round_nd x n)
  | VStr s => negb (String.eqb s "")
  | VTuple l | VList l => negb (len l =? 0)%Z
  | VDict d => negb (len d =? 0)%Z
  end.

Definition test_block (stat p : float) : value :=
  VDict [
    ("statistic", VRound stat 4);
    ("p_value", VRound p 4);
    ("normal", VBool (Float.gtb p alpha)) ].

Definition check_normality_body (data_in : list cell) (variable_name : option string)
  : result value :=
  (* data = pd.Series(data).dropna() *)
  let data := List.filter (fun c => negb (isna c)) data_in in
  let n := len data in
  (* Shapiro-Wilk (best for n < 5000) *)
  let* tests1 :=
    if ((3 <=? n) && (n <=? 5000))%Z then
      let* xs := as_floats data in
      let* '(shapiro_stat, shapiro_p) := shapiro xs in
      ret (dict_set [] "shapiro_wilk" (test_block shapiro_stat shapiro_p))
    else ret [] in
  (* D'Agostino-Pearson (for n >= 20); [try: ... except: pass] *)
  let tests :=
    if (20 <=? n)%Z then
      match (let* xs := as_floats data in normaltest xs) with
      | Ok (dagostino_stat, dagostino_p) =>
          dict_set tests1 "dagostino_pearson" (test_block dagostino_stat dagostino_p)
      | Raise _ => tests1
      end
    else tests1 in
  (* Descriptive indicators *)
  let* xs := as_floats data in
  let skewness := skew xs in
  let kurt := kurtosis xs in
  (* Overall conclusion *)
  let test_results :=
    map (fun t => match field "normal" (snd t) with Some v => v | None => VBool true end)
        tests in
  let all_results := forallb truthy_value test_results in
  ret (VDict [
    ("variable", match variable_name with Some s => VStr s | None => VNone end);
    ("sample_size", VInt n);
    ("tests", VDict tests);
    ("descriptive", VDict [
       ("skewness", VRound skewness 4);
       ("kurtosis", VRound kurt 4);
       ("skewness_concern", VBool (Float.gtb (PrimFloat.abs skewness) 2));
       ("kurtosis_concern", VBool (Float.gtb (PrimFloat.abs kurt) 7)) ]);
    ("conclusion", VDict [
       ("normal", match test_results with
                  | [] => VNone
                  | _ => VBool all_results
                  end);
       ("recommendation", VStr (if all_results then "parametric" else "non-parametric")) ]) ]).

Definition check_normality (data : list cell) (variable_name : option string) : value :=
  try_except (check_normality_body data variable_name).

End AssumptionChecker.

(** ** audit.py: [AuditLogger] *)

Module Audit.

(** One entry of the trail: [{'timestamp', 'action', 'details', 'user',
    'entry_number'}] *)
Record entry : Type := {
  timestamp : string;
  action : string;
  details : list (string * value);
  user : string;
  entry_number : Z
}.

Record AuditLogger : Type := {
  dataset_id : option string;
  entries : list entry;
  created_at : string
}.

(** [AuditLogger(dataset_id)], at the time [now] *)
Definition init (dataset_id : option string) (now : string) : AuditLogger :=
  {| dataset_id := dataset_id; entries := []; created_at := now |}.

Definition entry_value (e : entry) : value :=
  VDict [
    ("timestamp", VStr (timestamp e));
    ("action", VStr (action e));
    ("details", VDict (details e));
    ("user", VStr (user e));
    ("entry_number", VInt (entry_number e)) ].

(** [log(action, details, user)], at the time [now]: the new state and the
    entry returned *)
Definition log (self : AuditLogger) (now : string) (action : string)
    (details : list (string * value)) (user : string) : AuditLogger * entry :=
  let entry := {| timestamp := now; action := action; details := details; user := user;
                  entry_number := len (entries self) + 1 |} in
  ({| dataset_id := dataset_id self;
      entries := entries self ++ [entry];
      created_at := created_at self |}, entry).

Definition opt_str (o : option string) : value :=
  match o with Some s => VStr s | None => VNone end.

Definition get_log (self : AuditLogger) : value :=
  VDict [
    ("dataset_id", opt_str (dataset_id self));
    ("created_at", VStr (created_at self));
    ("total_entries", VInt (len (entries self)));
    ("entries", VList (map entry_value (entries self))) ].

(** [action_counts[action] = action_counts.get(action, 0) + 1] *)
Definition count_action (counts : list (string * value)) (e : entry) : list (string * value) :=
  let old := match dict_get counts (action e) with Some (VInt n) => n | _ => 0%Z end in
  dict_set counts (action e) (VInt (old + 1)).

Definition get_summary (self : AuditLogger) : value :=
  let action_counts := fold_left count_action (entries self) [] in
  VDict [
    ("dataset_id", opt_str (dataset_id self));
    ("total_transformations", VInt (len (entries self)));
    ("transformation_counts", VDict action_counts);
    ("first_transformation", opt_str (option_map timestamp (head (entries self))));
    ("last_transformation", opt_str (option_map timestamp (last (entries self)))) ].

(** [clear()] *)
Definition clear (self : AuditLogger) : AuditLogger :=
  {| dataset_id := dataset_id self; entries := []; created_at := created_at self |}.

(** [undo_last()]: remove and return the last entry, [None] on an empty
    trail *)
Definition undo_last (self : AuditLogger) : AuditLogger * option entry :=
  match entries self with
  | [] => (self, None)
  | _ :: _ =>
      ({| dataset_id := dataset_id self;
          entries := removelast (entries self);
          created_at := created_at self |},
       last (entries self))
  end.

(** The methods of the class as operations on its state.  The two exports
    and the two getters only read it. *)
Inductive op : Type :=
| Log (now : string) (action : string) (details : list (string * value)) (user : string)
| GetLog
| GetSummary
| ExportMarkdown
| ExportJson
| Clear
| UndoLast.

Definition step (self : AuditLogger) (o : op) : AuditLogger :=
  match o with
  | Log now action details user => fst (log self now action details user)
  | GetLog | GetSummary | ExportMarkdown | ExportJson => self
  | Clear => clear self
  | UndoLast => fst (undo_last self)
  end.

Definition run (self : AuditLogger) (ops : list op) : AuditLogger :=
  fold_left step ops self.

End Audit.

(** ** audit.py: [DataVersionManager] *)

Module Versions.

(** Frames are mutable objects: a program state has a heap of frames, and a
    variable holds the address of one.  Two variables with one address
    see each other's changes. *)
Abbreviation loc := positive.

Abbreviation heap := (gmap positive DataFrame).

(** Reading an attribute of the object at an address *)
Definition deref (h : heap) (df : loc) : result DataFrame :=
  match h !! df with
  | Some contents => Ok contents
  | None => Raise (Exception "AttributeError" "no such object")
  end.

(** [df.copy()]: a new object with the same contents (cells are immutable
    numbers and texts). *)
Definition copy (h : heap) (df : loc) : result (heap * loc) :=
  let* contents := deref h df in
  let l := fresh (dom h) in
  ret (<[l := contents]> h, l).

(** In-place change of the frame at an address, as [df.loc[...] = ...] or
    [df.drop(..., inplace=True)] do. *)
Definition mutate (h : heap) (df : loc) (f : DataFrame -> DataFrame) : heap :=
  match h !! df with
  | Some contents => <[df := f contents]> h
  | None => h
  end.

Record version : Type := {
  data : loc;
  timestamp : string;
  description : option string;
  shape : Z * Z;
  version_columns : list string
}.

Record DataVersionManager : Type := {
  versions : gmap string version;
  current_version : option string
}.

Definition init : DataVersionManager :=
  {| versions := ∅; current_version := None |}.

Definition df_shape (d : DataFrame) : Z * Z := (len (rows d), len (columns d)).

(** [save_version(df, version_name, description)], at the time [now]: the
    new heap, the new state and the summary returned *)
Definition save_version (h : heap) (self : DataVersionManager) (df : loc)
    (version_name : string) (description : option string) (now : string)
  : result (heap * DataVersionManager * value) :=
  let* '(h', snapshot) := copy h df in
  let* contents := deref h' df in
  let v := {| data := snapshot; timestamp := now; description := description;
              shape := df_shape contents; version_columns := columns contents |} in
  ret (h',
       {| versions := <[version_name := v]> (versions self);
          current_version := Some version_name |},
       VDict [
         ("version", VStr version_name);
         ("rows", VInt (fst (df_shape contents)));
         ("columns", VInt (snd (df_shape contents)));
         ("saved_at", VStr now) ]).

(** [get_version(version_name)]: the address of a copy, or [None] *)
Definition get_version (h : heap) (self : DataVersionManager) (version_name : string)
  : result (heap * option loc) :=
  match versions self !! version_name with
  | Some v =>
      let* '(h', l) := copy h (data v) in
      ret (h', Some l)
  | None => ret (h, None)
  end.

End Versions.

(** ** interpreter.py: [AIInterpreter] *)

Module Interpreter.

(** What the code reads of a [requests] response: the status, and the
    parsed body ([response.json()] may raise). *)
Record response : Type := {
  status_code : Z;
  json : result value
}.

(** [requests.post(url, headers=..., json=..., timeout=60)] *)
Class Requests : Type := {
  post : string -> list (string * string) -> value -> result response
}.

Record AIInterpreter : Type := {
  deepseek_api_key : string;
  gemini_api_key : string;
  deepseek_base_url : string;
  gemini_base_url : string
}.

(** [AIInterpreter()], the two keys read from the environment *)
Definition init (deepseek_key gemini_key : string) : AIInterpreter :=
  {| deepseek_api_key := deepseek_key;
     gemini_api_key := gemini_key;
     deepseek_base_url := "https://api.deepseek.com/v1";
     gemini_base_url := "https://generativelanguage.googleapis.com/v1beta" |}.

(** [v[k]] on a parsed body *)
(** What [v[k]] raises for a text [k] that is no key of [v] *)
Definition no_key (v : value) (k : string) : exn :=
  match v with
  | VDict _ => KeyError k
  | VList _ | VTuple _ =>
      Exception "TypeError" (type_name v +:+ " indices must be integers or slices, not str")
  | VStr _ => Exception "TypeError" "string indices must be integers, not 'str'"
  | _ => Exception "TypeError" ("'" +:+ type_name v +:+ "' object is not subscriptable")
  end.

Definition subscript (v : value) (k : string) : result value :=
  match field k v with
  | Some w => Ok w
  | None => Raise (no_key v k)
  end.

(** [v[0]] where the code goes on with [...[key]]: the first entry of a
    list; anything else is an exception, there or at the key (the first
    character of a text has no keys). *)
Definition first (v : value) : result value :=
  match v with
  | VList (w :: _) => Ok w
  | VList [] => Raise (Exception "IndexError" "list index out of range")
  | _ => Raise (Exception "KeyError" "0")
  end.

(** [if result:] *)
Definition truthy (v : option value) : bool :=
  match v with
  | None => false
  | Some w => truthy_value w
  end.

Section AIInterpreter.

Context `{R : Requests}.

(** [INTERPRETATION_SYSTEM_PROMPT] of prompts.py *)
Variable INTERPRETATION_SYSTEM_PROMPT : string.

Variable self : AIInterpreter.

Definition _call_deepseek (messages : list value) (max_tokens : Z) : option value :=
  if String.eqb (deepseek_api_key self) "" then None
  else
    let attempt :=
      let* response :=
        post (deepseek_base_url self +:+ "/chat/completions")
             [("Content-Type", "application/json");
              ("Authorization", "Bearer " +:+ deepseek_api_key self)]
             (VDict [
                ("model", VStr "deepseek-reasoner");
                ("messages", VList messages);
                ("max_tokens", VInt max_tokens);
                ("temperature", VFloat 0.7);
                ("stream", VBool false) ]) in
      if (status_code response =? 200)%Z then
        let* data := json response in
        let* choices := subscript data "choices" in
        let* choice := first choices in
        let* message := subscript choice "message" in
        let* content := subscript message "content" in
        ret (Some content)
      else ret None in
    match attempt with
    | Ok r => r
    | Raise _ => None
    end.

(** One round of the loop over the Gemini models: [Some r] when the body
    returns [r], [None] when the loop goes on. *)
Definition gemini_attempt (prompt : string) (max_tokens : Z) (model : string)
  : option value :=
  let attempt :=
    let* response :=
      post (gemini_base_url self +:+ "/models/" +:+ model +:+ ":generateContent?key="
            +:+ gemini_api_key self)
           [("Content-Type", "application/json")]
           (VDict [
              ("contents", VList [VDict [("parts", VList [VDict [("text", VStr prompt)]])]]);
              ("generationConfig", VDict [
                 ("temperature", VFloat 0.7);
                 ("maxOutputTokens", VInt max_tokens) ]) ]) in
    if (status_code response =? 200)%Z then
      let* data := json response in
      let* candidates := subscript data "candidates" in
      let* candidate := first candidates in
      let* content := subscript candidate "content" in
      let* parts := subscript content "parts" in
      let* part := first parts in
      let* text := subscript part "text" in
      ret (Some text)
    else ret None in
  match attempt with
  | Ok r => r
  | Raise _ => None
  end.

Fixpoint gemini_loop (prompt : string) (max_tokens : Z) (models : list string)
  : option value :=
  match models with
  | [] => None
  | model :: models' =>
      match gemini_attempt prompt max_tokens model with
      | Some r => Some r
      | None => gemini_loop prompt max_tokens models'
      end
  end.

Definition _call_gemini (prompt : string) (max_tokens : Z) : option value :=
  if String.eqb (gemini_api_key self) "" then None
  else gemini_loop prompt max_tokens ["gemini-3-flash-preview"; "gemini-2.5-flash"].

Definition _generate_fallback_interpretation : string :=
"
**Interpretation (AI temporarily unavailable):**

The statistical results have been calculated accurately by Python. Please review:
- The p-value to determine statistical significance (p < 0.05 is significant)
- The effect size to understand practical significance
- The confidence intervals for precision of estimates

For a complete narrative interpretation, please retry when AI services are available.
".

Definition interpret (prompt : string) (use_system_prompt : bool) : value :=
  let messages :=
    (if use_system_prompt then
       [VDict [("role", VStr "system"); ("content", VStr INTERPRETATION_SYSTEM_PROMPT)]]
     else [])
    ++ [VDict [("role", VStr "user"); ("content", VStr prompt)]] in
  (* Try DeepSeek first *)
  let result := _call_deepseek messages 2000 in
  if truthy result then
    VDict [
      ("success", VBool true);
      ("interpretation", match result with Some r => r | None => VNone end);
      ("model", VStr "deepseek-reasoner") ]
  else
    (* Fallback to Gemini *)
    let full_prompt :=
      if use_system_prompt then INTERPRETATION_SYSTEM_PROMPT +:+ "

" +:+ prompt
      else prompt in
    let result := _call_gemini full_prompt 2000 in
    if truthy result then
      VDict [
        ("success", VBool true);
        ("interpretation", match result with Some r => r | None => VNone end);
        ("model", VStr "gemini-flash") ]
    else
      (* Both failed - return template response *)
      VDict [
        ("success", VBool false);
        ("interpretation", VStr _generate_fallback_interpretation);
        ("model", VStr "fallback-template");
        ("error", VStr "Both AI services unavailable. Using template response.") ].

End AIInterpreter.

End Interpreter.

(** ** The quantities the properties speak of *)

(** The rows of [df] that keep a value in both the grouping and the outcome
    column, as pairs (group, outcome). *)
Definition complete_pairs (df : DataFrame) (group_var outcome_var : string)
  : list (cell * cell) :=
  match index_of group_var (columns df), index_of outcome_var (columns df) with
  | Some i, Some j =>
      List.filter (fun p => negb (isna (fst p)) && negb (isna (snd p)))
             (map (fun r => (cell_at r i, cell_at r j)) (rows df))
  | _, _ => []
  end.

(** The distinct values of the grouping column over those rows. *)
Definition group_values (df : DataFrame) (group_var outcome_var : string) : list cell :=
  unique (map fst (complete_pairs df group_var outcome_var)).

(** The outcome values of the group [g]: those of the rows that have [g] in
    the grouping column. *)
Definition group_outcomes (df : DataFrame) (group_var outcome_var : string) (g : cell)
  : list cell :=
  map snd (List.filter (fun p => cell_eqb (fst p) g)
                       (complete_pairs df group_var outcome_var)).

(** The size of the group [g] *)
Definition group_size (df : DataFrame) (group_var outcome_var : string) (g : cell) : Z :=
  len (group_outcomes df group_var outcome_var g).

(** The float under [r[k1][k2]...] *)
Definition float_at (ks : list string) (r : value) : option float :=
  match field_path ks r with
  | Some v => float_of v
  | None => None
  end.

(** The contingency table of two columns of [df], over the rows that are
    complete. *)
Definition contingency_counts (df : DataFrame) (var1 var2 : string) : list (list Z) :=
  let ps := complete_pairs df var1 var2 in
  ct_counts (crosstab (map fst ps) (map snd ps)).

(** A result record is either an error and nothing else, or a dictionary
    without the key ['error']. *)
Definition error_only (r : value) : Prop := exists msg, r = error_record msg.

Definition complete (r : value) : Prop :=
  exists kvs, r = VDict kvs /\ has_key "error" r = false.

Definition well_formed (r : value) : Prop := error_only r \/ complete r.

(** What [try: body except Exception as e: return {'error': str(e)}]
    returns: an exception of the body becomes the error-only record of its
    message, a returned record is passed on and is well formed. *)
Definition handled `{L : Lib} (body : result value) (r : value) : Prop :=
  match body with
  | Raise e => r = error_record (str_exn e)
  | Ok v => r = v /\ well_formed v
  end.

(** A property of every leaf of a record, given the keys that lead to it. *)
Fixpoint all_leaves (ok : list string -> value -> bool) (path : list string) (v : value)
  : bool :=
  match v with
  | VTuple vs => forallb (all_leaves ok path) vs
  | VList vs => forallb (all_leaves ok path) vs
  | VDict kvs =>
      forallb (fun kv => match kv with (k, w) => all_leaves ok (path ++ [k]) w end) kvs
  | _ => ok path v
  end.

(** A float leaf that was rounded to four decimal places when the record was
    built. *)
Definition rounded_to_4 (path : list string) (v : value) : bool :=
  match v with
  | VRound _ n => (n =? 4)%Z
  | VFloat _ => false
  | _ => true
  end.

Fixpoint starts_with (prefix path : list string) : bool :=
  match prefix, path with
  | [], _ => true
  | p :: prefix', q :: path' => String.eqb p q && starts_with prefix' path'
  | _ :: _, [] => false
  end.

(** The expected cell counts of the chi-square record *)
Definition expected_count_path (path : list string) : bool :=
  starts_with ["contingency_table"; "expected"] path
  || starts_with ["assumptions"; "expected_cell_counts"; "min_expected"] path.

(** What the code does: a computed float is rounded to four places, the
    expected counts of the chi-square record to two, and the threshold
    ['alpha'] is stored as given. *)
Definition rounded_as_built (path : list string) (v : value) : bool :=
  match v with
  | VRound _ n => if expected_count_path path then (n =? 2)%Z else (n =? 4)%Z
  | VFloat _ => starts_with ["alpha"] path && (len path =? 1)%Z
  | _ => true
  end.

(** The row [[g, o]] of a frame with a grouping and an outcome column *)
Definition pair_row (p : cell * cell) : list cell := [fst p; snd p].

(** What is known when a branch of [run_ttest] goes on to the report. *)
Definition branch_facts `{L : Lib} (alpha : float) (paired : bool) (ps : list (cell * cell)) (loc : ttest_locals)
  : Prop :=
  exists a b x1 x2,
    unique (map fst ps) = [a; b]
    /\ as_floats (map snd (List.filter (fun p => cell_eqb (fst p) a) ps)) = Ok x1
    /\ as_floats (map snd (List.filter (fun p => cell_eqb (fst p) b) ps)) = Ok x2
    /\ tt_groups loc = (a, b)
    /\ tt_group1_data loc = x1
    /\ tt_group2_data loc = x2
    /\ (if paired then tt_levene loc = None
        else exists levene_stat levene_p,
            levene [x1; x2] = Ok (levene_stat, levene_p)
            /\ ttest_ind x1 x2 (Float.gtb levene_p alpha)
               = Ok (tt_t_stat loc, tt_p_value loc)
            /\ tt_levene loc = Some (levene_stat, levene_p, Float.gtb levene_p alpha)
            /\ tt_test_type loc
               = if Float.gtb levene_p alpha then "Independent Samples t-test"
                 else "Independent Samples t-test (Welch's)").

(** The two properties of a record that the handler returns *)
Definition sound (v : value) : Prop :=
  well_formed v /\ all_leaves rounded_as_built [] v = true.

(** [post P m]: when [m] returns, its value satisfies [P]. *)
Definition post {A} (P : A -> Prop) (m : result A) : Prop :=
  match m with
  | Ok a => P a
  | Raise _ => True
  end.

(** ** A library with fixed answers, and sample frames, to run the model *)

Module Sample.

Definition half : result (float * float) := Ok (0.5, 0.5)%float.

Definition sample_fit : fit :=
  {| params := [1; 2]%float; bse := [0.5; 0.5]%float;
     tvalues := [2; 4]%float; pvalues := [0.5; 0.01]%float;
     conf_int := [(0, 2); (1, 3)]%float;
     resid := [0; 0; 0]%float; fittedvalues := [1; 2; 3]%float;
     rsquared := 0.5; rsquared_adj := 0.5; fvalue := 4; f_pvalue := 0.01;
     aic := 10; bic := 12; prsquared := 0.5; llf := -3; llr_pvalue := 0.01;
     predict := [0.25; 0.75; 0.75]%float |}.

(** Python's [repr] of a text: in single quotes, or in double quotes when
    the text has a single quote and no double quote; the quote, the
    backslash and the control characters are escaped.  (Characters beyond
    ASCII are copied, as Python copies the printable ones.) *)
Definition double_quote : Ascii.ascii := Ascii.ascii_of_nat 34.

Definition single_quote : Ascii.ascii := Ascii.ascii_of_nat 39.

Definition backslash : Ascii.ascii := Ascii.ascii_of_nat 92.

Definition hex_digit (n : nat) : Ascii.ascii :=
  nth n (String.list_ascii_of_string "0123456789abcdef") (Ascii.ascii_of_nat 48).

Definition escaped (quote c : Ascii.ascii) : string :=
  let n := Ascii.nat_of_ascii c in
  if Ascii.eqb c quote || Ascii.eqb c backslash then String backslash (String c "")
  else if (n =? 9)%nat then "\t"
  else if (n =? 10)%nat then "\n"
  else if (n =? 13)%nat then "\r"
  else if (n <? 32)%nat || (n =? 127)%nat then
    "\x" +:+ String (hex_digit (n / 16)) (String (hex_digit (n mod 16)) "")
  else String c "".

Definition py_repr (s : string) : string :=
  let cs := String.list_ascii_of_string s in
  let quote :=
    if existsb (Ascii.eqb single_quote) cs && negb (existsb (Ascii.eqb double_quote) cs)
    then double_quote else single_quote in
  String quote (String.concat "" (map (escaped quote) cs)) +:+ String quote "".

(** The message of pandas 2 for labels that are no columns *)
Definition not_in_index (names columns : list string) : string :=
  let missing :=
    List.filter (fun n => negb (existsb (String.eqb n) columns)) names in
  if (length missing =? length names)%nat then
    "None of [Index([" +:+ String.concat ", " (map py_repr names)
    +:+ "], dtype='object')] are in the [columns]"
  else
    "[" +:+ String.concat ", " (map py_repr (remove_dups missing)) +:+ "] not in index".

(** The message of the [ValueError] of [float(text)] and of [astype] *)
Definition could_not_convert (text : string) : string :=
  "could not convert string to float: " +:+ py_repr text.

Definition lib : Lib :=
  {| levene := fun _ => half;
     bartlett := fun _ => half;
     ttest_ind := fun _ _ _ => half;
     ttest_rel := fun _ _ => half;
     shapiro := fun _ => half;
     normaltest := fun _ => half;
     f_oneway := fun _ => half;
     pearsonr := fun _ _ => half;
     spearmanr := fun _ _ => half;
     mannwhitneyu := fun _ _ => half;
     kruskal := fun _ => half;
     fisher_exact := fun _ => half;
     chi2_sf := fun _ _ => 0.5%float;
     norm_ppf := fun _ => 1.96%float;
     t_ppf := fun _ _ => 2%float;
     arctanh := fun x => x;
     tanh := fun x => x;
     exp := fun x => x;
     median := fun _ => 0.5%float;
     quantile := fun _ q => q;
     skew := fun _ => Float.nan;
     kurtosis := fun _ => Float.nan;
     str_float := fun _ => "float";
     repr_str := py_repr;
     labels_not_found := not_in_index;
     not_a_number := could_not_convert;
     pairwise_tukeyhsd := fun _ _ _ => Ok [];
     OLS_fit := fun _ _ => Ok sample_fit;
     Logit_fit := fun _ _ => Ok sample_fit;
     variance_inflation_factor := fun _ _ => Ok 1%float;
     het_breuschpagan := fun _ _ => half;
     durbin_watson := fun _ => Ok 2%float;
     confusion_matrix := fun _ _ => Ok [[1; 0]; [0; 2]]%Z |}.

(** Two groups of five, [1..5] and [6..10] *)
Definition two_groups : DataFrame :=
  {| columns := ["group"; "score"];
     rows := map (fun x => [Str "a"; Num x]) [1; 2; 3; 4; 5]%float
             ++ map (fun x => [Str "b"; Num x]) [6; 7; 8; 9; 10]%float |}.

(** Three groups of two, a predictor [x], and one row without its group *)
Definition three_groups : DataFrame :=
  {| columns := ["group"; "score"; "x"];
     rows := [ [Str "a"; Num 1; Num 0]; [Str "a"; Num 2; Num 1];
               [Str "b"; Num 3; Num 0]; [Str "b"; Num 5; Num 1];
               [Str "c"; Num 4; Num 1]; [Str "c"; Num 6; Num 0];
               [Null; Num 6; Num 1] ]%float |}.

(** Twenty rows whose contingency table is [[10, 0], [0, 10]] *)
Definition diagonal_20 : DataFrame :=
  {| columns := ["exposure"; "outcome"];
     rows := repeat [Str "no"; Str "healthy"] 10 ++ repeat [Str "yes"; Str "ill"] 10 |}.

(** Three rows whose contingency table is [[1, 0], [0, 2]] *)
Definition diagonal_3 : DataFrame :=
  {| columns := ["exposure"; "outcome"];
     rows := [[Str "no"; Str "healthy"]; [Str "yes"; Str "ill"]; [Str "yes"; Str "ill"]] |}.

(** An HTTP layer that would answer every request with a well-formed
    completion: without keys it is never asked. *)
Definition always_answers : Interpreter.Requests :=
  {| Interpreter.post := fun _ _ _ =>
       Ok {| Interpreter.status_code := 200;
             Interpreter.json :=
               Ok (VDict [
                 ("choices",
                   VList [ VDict [("message", VDict [("content", VStr "text")])] ]);
                 ("candidates",
                   VList [ VDict [("content",
                     VDict [("parts", VList [ VDict [("text", VStr "text")] ])])] ]) ]) |} |}.

End Sample.

(** ** assumptions.py: the other checks of [AssumptionChecker] *)

(** [df.corr()]: the matrix of pairwise correlations, in the order of the
    columns *)
Class Pandas : Type := {
  corr : list (string * list float) -> result (list (list float))
}.

Section AssumptionChecks.

Context `{L : Lib} `{P : Pandas}.

(** [self.alpha] *)
Variable alpha : float.

(** [max(l)] and [min(l)] on a list of floats that is not empty *)
Definition list_max (l : list float) : float :=
  match l with
  | [] => Float.nan
  | x :: l' => fold_left (fun m y => if PrimFloat.ltb m y then y else m) l' x
  end.

Definition list_min (l : list float) : float :=
  match l with
  | [] => Float.nan
  | x :: l' => fold_left (fun m y => if PrimFloat.ltb y m then y else m) l' x
  end.

Definition variance_test_block (stat p : float) : value :=
  VDict [
    ("statistic", VRound stat 4);
    ("p_value", VRound p 4);
    ("equal_variance", VBool (Float.gtb p alpha)) ].

(** [group_names[i] if group_names and i < len(group_names) else f'Group {i+1}'] *)
Definition group_name (group_names : option (list string)) (i : nat) : string :=
  match group_names with
  | Some names =>
      match nth_error names i with
      | Some name => name
      | None => "Group " +:+ pretty (Z.of_nat i + 1)
      end
  | None => "Group " +:+ pretty (Z.of_nat i + 1)
  end.

Definition variance_entry (group_names : option (list string)) (ig : nat * list float)
  : value :=
  let '(i, g) := ig in
  VDict [
    ("group", VStr (group_name group_names i));
    ("n", VInt (len g));
    ("variance", VRound (var g) 4);
    ("std", VRound (std g) 4) ].

Definition check_homogeneity_of_variance_body (groups : list (list cell))
    (group_names : option (list string)) : result value :=
  let results := [("n_groups", VInt (len groups)); ("tests", VDict [])] in
  (* Filter out NaN values from each group *)
  let clean_cells := map (List.filter (fun c => negb (isna c))) groups in
  let* clean_groups := mapM as_floats clean_cells in
  (* Levene's test (robust to non-normality) *)
  let* '(levene_stat, levene_p) := levene clean_groups in
  let tests := dict_set [] "levene" (variance_test_block levene_stat levene_p) in
  (* Bartlett's test (assumes normality); [try: ... except: pass] *)
  let tests :=
    match bartlett clean_groups with
    | Ok (bartlett_stat, bartlett_p) =>
        dict_set tests "bartlett" (variance_test_block bartlett_stat bartlett_p)
    | Raise _ => tests
    end in
  let results := dict_set results "tests" (VDict tests) in
  (* Group variances *)
  let group_variances := map (variance_entry group_names) (enumerate clean_groups) in
  let results := dict_set results "group_variances" (VList group_variances) in
  (* Variance ratio (Hartley's F-max), on the rounded variances *)
  let variances :=
    List.filter (fun v => Float.gtb v 0)
                (map (fun g => Float.round_nd (var g) 4) clean_groups) in
  let results :=
    match variances with
    | [] => results
    | _ :: _ =>
        let ratio := (list_max variances / list_min variances)%float in
        dict_set (dict_set results "variance_ratio" (VRound ratio 4))
                 "variance_ratio_concern" (VBool (Float.gtb (Float.round_nd ratio 4) 3))
    end in
  (* Overall conclusion *)
  let equal := Float.gtb levene_p alpha in
  ret (VDict (dict_set results "conclusion" (VDict [
    ("equal_variance", VBool equal);
    ("recommendation",
      VStr (if equal then "proceed" else "use_welch_or_nonparametric")) ]))).

Definition check_homogeneity_of_variance (groups : list (list cell))
    (group_names : option (list string)) : value :=
  try_except (check_homogeneity_of_variance_body groups group_names).

(** The pairs [(i, var1), (j, var2)] with [i < j], in the order of the two
    loops.  The predictors are a list of distinct labels, so that
    [corr_df.loc[var1, var2]] is the entry at the two positions. *)
Definition upper_pairs (predictors : list string)
  : list ((nat * string) * (nat * string)) :=
  flat_map (fun iv =>
              map (fun jv => (iv, jv))
                  (List.filter (fun jv => (fst iv <? fst jv)%nat) (enumerate predictors)))
           (enumerate predictors).

(** [any(v[key] for v in entries)] *)
Definition any_field (key : string) (entries : list value) : bool :=
  existsb (fun v => match field key v with Some w => truthy_value w | None => false end)
          entries.

Definition check_multicollinearity_body (df : DataFrame) (predictors : list string)
  : result value :=
  (* Clean data *)
  let* sel := getitems df predictors in
  let df_clean := dropna sel in
  if (len predictors <? 2)%Z then
    ret (VDict [("message", VStr "VIF requires at least 2 predictors")])
  else
    (* Calculate VIF for each predictor *)
    let* Xf := frame_floats df_clean in
    let* vif_results := mapM (vif_entry Xf) (enumerate predictors) in
    (* Correlation matrix *)
    let* corr_rounded := corr Xf in
    let corr_matrix :=
      table_to_dict (map Str predictors) (map Str predictors) corr_rounded
                    (fun r => VRound r 4) Float.nan in
    (* Find problematic pairs (|r| > 0.8) *)
    let* corr_df := corr Xf in
    let* pairs :=
      mapM (fun ij =>
              let '((i, var1), (j, var2)) := ij in
              let* row := getitem_list corr_df i in
              let* r := getitem_list row j in
              ret (if Float.gtb (PrimFloat.abs r) 0.8 then
                     [VDict [
                        ("variable1", VStr var1);
                        ("variable2", VStr var2);
                        ("correlation", VRound r 4) ]]
                   else []))
           (upper_pairs predictors) in
    let high_correlations := concat pairs in
    ret (VDict [
      ("vif", VList vif_results);
      ("correlation_matrix", corr_matrix);
      ("high_correlations", VList high_correlations);
      ("conclusion", VDict [
         ("multicollinearity_present", VBool (any_field "concern" vif_results));
         ("severe_multicollinearity", VBool (any_field "severe" vif_results));
         ("recommendation",
           VStr (if any_field "severe" vif_results then "consider_removing"
                 else "proceed")) ]) ]).

Definition check_multicollinearity (df : DataFrame) (predictors : list string) : value :=
  try_except (check_multicollinearity_body df predictors).

Definition check_independence_body (residuals_in : list cell) : result value :=
  let residuals := List.filter (fun c => negb (isna c)) residuals_in in
  (* Durbin-Watson test *)
  let* xs := as_floats residuals in
  let* dw := durbin_watson xs in
  (* Interpretation *)
  let '(interpretation, concern) :=
    if PrimFloat.ltb dw 1.5 then ("positive autocorrelation", true)
    else if Float.gtb dw 2.5 then ("negative autocorrelation", true)
    else ("no significant autocorrelation", false) in
  ret (VDict [
    ("durbin_watson", VRound dw 4);
    ("interpretation", VStr interpretation);
    ("concern", VBool concern);
    ("recommendation",
      VStr (if concern then "consider_time_series_methods" else "proceed")) ]).

Definition check_independence (residuals : list cell) : value :=
  try_except (check_independence_body residuals).

(** [run_all_checks] has no handler of its own: [df[outcome]] is evaluated
    in its body, so a missing column is an exception of the call. *)
Definition run_all_checks (df : DataFrame) (outcome : string) (predictors : list string)
    (test_type : string) : result value :=
  let results := [("test_type", VStr test_type)] in
  if String.eqb test_type "regression" then
    (* Normality of outcome *)
    let* ocol := getitem df outcome in
    let results := dict_set results "normality" (check_normality alpha ocol (Some outcome)) in
    (* Multicollinearity *)
    let results :=
      if (1 <? len predictors)%Z then
        dict_set results "multicollinearity" (check_multicollinearity df predictors)
      else results in
    (* Note: linearity and homoscedasticity need model residuals *)
    ret (VDict (dict_set results "note"
      (VStr "Run regression first, then check residuals for linearity and homoscedasticity")))
  else
    (* 'ttest', 'anova' and anything else: no check *)
    ret (VDict results).

End AssumptionChecks.

(** ** audit.py: the queries of [DataVersionManager], and its clients *)

Module VersionQueries.
Import Versions.

(** [list_versions()].  A Python dictionary keeps the order of insertion,
    the map does not: the list is the one of the code up to the order of its
    entries. *)
Definition version_entry (self : DataVersionManager) (name_info : string * version)
  : value :=
  let '(name, info) := name_info in
  VDict [
    ("version", VStr name);
    ("timestamp", VStr (timestamp info));
    ("description", Audit.opt_str (description info));
    ("shape", VTuple [VInt (fst (shape info)); VInt (snd (shape info))]);
    ("is_current", VBool (bool_decide (current_version self = Some name))) ].

Definition list_versions (self : DataVersionManager) : list value :=
  map (version_entry self) (map_to_list (versions self)).

(** [list(set(a) - set(b))]: the labels of [a] that are not in [b], once
    each (Python gives them in no particular order). *)
Definition set_minus (a b : list string) : list string :=
  remove_dups (list_difference a b).

Definition version_summary (name : string) (v : version) : value :=
  VDict [
    ("name", VStr name);
    ("shape", VTuple [VInt (fst (shape v)); VInt (snd (shape v))]);
    ("columns", VList (map VStr (version_columns v))) ].

Definition compare_versions (self : DataVersionManager) (version1 version2 : string)
  : value :=
  match versions self !! version1, versions self !! version2 with
  | Some v1, Some v2 =>
      VDict [
        ("version1", version_summary version1 v1);
        ("version2", version_summary version2 v2);
        ("differences", VDict [
           ("row_diff", VInt (fst (shape v2) - fst (shape v1)));
           ("col_diff", VInt (snd (shape v2) - snd (shape v1)));
           ("columns_added",
             VList (map VStr (set_minus (version_columns v2) (version_columns v1))));
           ("columns_removed",
             VList (map VStr (set_minus (version_columns v1) (version_columns v2)))) ]) ]
  | _, _ => error_record "One or both versions not found"
  end.

(** A program that uses a manager through its methods.  It holds the
    addresses of the frames it made or was given ([held]); the snapshots
    are reachable through the manager only. *)
Record world : Type := {
  frames : heap;
  manager : DataVersionManager;
  held : gset loc
}.

Inductive call : Type :=
| NewFrame (contents : DataFrame)
| Change (df : loc) (f : DataFrame -> DataFrame)
| SaveVersion (df : loc) (version_name : string) (description : option string)
              (now : string)
| GetVersion (version_name : string)
| ListVersions
| CompareVersions (version1 version2 : string).

Definition act (w : world) (c : call) : world :=
  match c with
  | NewFrame contents =>
      let l := fresh (dom (frames w)) in
      {| frames := <[l := contents]> (frames w); manager := manager w;
         held := {[l]} ∪ held w |}
  | Change df f =>
      if bool_decide (df ∈ held w) then
        {| frames := mutate (frames w) df f; manager := manager w; held := held w |}
      else w
  | SaveVersion df version_name description now =>
      if bool_decide (df ∈ held w) then
        match save_version (frames w) (manager w) df version_name description now with
        | Ok (h, m, _) => {| frames := h; manager := m; held := held w |}
        | Raise _ => w
        end
      else w
  | GetVersion version_name =>
      match get_version (frames w) (manager w) version_name with
      | Ok (h, Some l) => {| frames := h; manager := manager w; held := {[l]} ∪ held w |}
      | Ok (h, None) => {| frames := h; manager := manager w; held := held w |}
      | Raise _ => w
      end
  | ListVersions | CompareVersions _ _ => w
  end.

Definition run (w : world) (calls : list call) : world := fold_left act calls w.

(** The call stores a version under [name] *)
Definition saves (name : string) (c : call) : bool :=
  match c with
  | SaveVersion _ version_name _ _ => String.eqb version_name name
  | _ => false
  end.

(** The call stores a version, under whatever name *)
Definition is_save (c : call) : bool :=
  match c with
  | SaveVersion _ _ _ _ => true
  | _ => false
  end.

(** What holds of every state of such a program: the held frames exist, and
    each snapshot is a frame of its own that the program does not hold and
    that has the shape and the labels recorded with it. *)
Definition consistent (w : world) : Prop :=
  (forall l, l ∈ held w -> is_Some (frames w !! l))
  /\ forall name v, versions (manager w) !! name = Some v ->
       (data v ∉ held w)
       /\ exists contents, frames w !! data v = Some contents
            /\ shape v = df_shape contents
            /\ version_columns v = columns contents.

End VersionQueries.

(** ** file_handlers.py: [DataStorage] *)

Module Storage.
Import Versions.

(** One stored data set: [{'data', 'name', 'version', 'versions',
    'created_at'}]; ['data'] and the values of ['versions'] are frames, held
    by their address. *)
Record dataset : Type := {
  ds_data : loc;
  ds_name : string;
  ds_version : string;
  ds_versions : gmap string loc;
  ds_created_at : string
}.

Record DataStorage : Type := {
  datasets : gmap string dataset;
  counter : Z
}.

Definition init : DataStorage := {| datasets := ∅; counter := 0 |}.

Definition dataset_id_of (counter : Z) : string := "dataset_" +:+ pretty counter.

(** [store(df, name, version)], at the time [now].  The counter is
    incremented first, so it stays incremented when [df.copy()] raises. *)
Definition store (h : heap) (self : DataStorage) (df : loc) (name : option string)
    (version : string) (now : string) : heap * DataStorage * result string :=
  let counter' := counter self + 1 in
  let dataset_id := dataset_id_of counter' in
  match copy h df with
  | Ok (h', snapshot) =>
      let info :=
        {| ds_data := df;
           ds_name := match name with
                      | Some n => if String.eqb n "" then "Dataset " +:+ pretty counter' else n
                      | None => "Dataset " +:+ pretty counter'
                      end;
           ds_version := version;
           ds_versions := {[ version := snapshot ]};
           ds_created_at := now |} in
      (h', {| datasets := <[dataset_id := info]> (datasets self); counter := counter' |},
       Ok dataset_id)
  | Raise e => (h, {| datasets := datasets self; counter := counter' |}, Raise e)
  end.

(** [get(dataset_id)]: the stored frame itself *)
Definition get (self : DataStorage) (dataset_id : string) : option loc :=
  option_map ds_data (datasets self !! dataset_id).

(** [update(dataset_id, df, version)]; [if version:] holds of a text that is
    not empty.  The frame is put in place before [df.copy()] is evaluated. *)
Definition update (h : heap) (self : DataStorage) (dataset_id : string) (df : loc)
    (version : option string) : heap * DataStorage * result bool :=
  match datasets self !! dataset_id with
  | None => (h, self, Ok false)
  | Some info =>
      let with_data :=
        {| ds_data := df; ds_name := ds_name info; ds_version := ds_version info;
           ds_versions := ds_versions info; ds_created_at := ds_created_at info |} in
      match version with
      | Some v =>
          if String.eqb v "" then
            (h, {| datasets := <[dataset_id := with_data]> (datasets self);
                   counter := counter self |}, Ok true)
          else
            let with_version :=
              {| ds_data := df; ds_name := ds_name info; ds_version := v;
                 ds_versions := ds_versions info; ds_created_at := ds_created_at info |} in
            match copy h df with
            | Ok (h', snapshot) =>
                (h', {| datasets :=
                          <[dataset_id :=
                              {| ds_data := df; ds_name := ds_name info; ds_version := v;
                                 ds_versions := <[v := snapshot]> (ds_versions info);
                                 ds_created_at := ds_created_at info |}]> (datasets self);
                        counter := counter self |}, Ok true)
            | Raise e =>
                (h, {| datasets := <[dataset_id := with_version]> (datasets self);
                       counter := counter self |}, Raise e)
            end
      | None =>
          (h, {| datasets := <[dataset_id := with_data]> (datasets self);
                 counter := counter self |}, Ok true)
      end
  end.

(** [get_version(dataset_id, version)]: the stored snapshot itself, not a
    copy of it *)
Definition get_version (self : DataStorage) (dataset_id version : string) : option loc :=
  match datasets self !! dataset_id with
  | Some info => ds_versions info !! version
  | None => None
  end.

(** [delete(dataset_id)] *)
Definition delete (self : DataStorage) (dataset_id : string) : DataStorage * bool :=
  match datasets self !! dataset_id with
  | Some _ =>
      ({| datasets := base.delete dataset_id (datasets self); counter := counter self |},
       true)
  | None => (self, false)
  end.

(** The methods as operations on the heap and the storage *)
Inductive op : Type :=
| Store (df : loc) (name : option string) (version : string) (now : string)
| Get (dataset_id : string)
| Update (dataset_id : string) (df : loc) (version : option string)
| GetVersion (dataset_id version : string)
| Delete (dataset_id : string).

Definition step (st : heap * DataStorage) (o : op) : heap * DataStorage :=
  let '(h, self) := st in
  match o with
  | Store df name version now => fst (store h self df name version now)
  | Get _ | GetVersion _ _ => (h, self)
  | Update dataset_id df version => fst (update h self dataset_id df version)
  | Delete dataset_id => (h, fst (delete self dataset_id))
  end.

Definition run (st : heap * DataStorage) (ops : list op) : heap * DataStorage :=
  fold_left step ops st.

End Storage.

(** ** interpreter.py and prompts.py: the interpreter of each test *)

Module Narratives.
Import Interpreter.

(** A template of prompts.py, cut at its replacement fields: [{name}] is
    [Field name], the text between two fields is a [Lit]. *)
Inductive piece : Type :=
| Lit (text : string)
| Field (name : string).

Definition ttest_template : list piece :=
  [ Lit "
Interpret these t-test results for a thesis:

Test: ";
    Field "test_type";
    Lit "
Groups: ";
    Field "group1";
    Lit " (n=";
    Field "n1";
    Lit ", M=";
    Field "mean1";
    Lit ", SD=";
    Field "sd1";
    Lit ") vs ";
    Field "group2";
    Lit " (n=";
    Field "n2";
    Lit ", M=";
    Field "mean2";
    Lit ", SD=";
    Field "sd2";
    Lit ")
t(";
    Field "df";
    Lit ") = ";
    Field "t_stat";
    Lit ", p = ";
    Field "p_value";
    Lit "
Cohen's d = ";
    Field "cohens_d";
    Lit " [";
    Field "ci_lower";
    Lit ", ";
    Field "ci_upper";
    Lit "]
Effect size: ";
    Field "effect_interpretation";
    Lit "

Research objective: ";
    Field "objective";
    Lit "

Provide:
1. Plain English explanation (what does this mean?)
2. Statistical significance statement
3. Practical significance (is the effect meaningful in real life?)
4. APA-formatted paragraph for Chapter 4
5. Answer to the research objective
" ].

Definition anova_template : list piece :=
  [ Lit "
Interpret these ANOVA results for a thesis:

Test: One-way ANOVA
Groups: ";
    Field "groups";
    Lit "
F(";
    Field "df_between";
    Lit ", ";
    Field "df_within";
    Lit ") = ";
    Field "f_stat";
    Lit ", p = ";
    Field "p_value";
    Lit "
η² = ";
    Field "eta_squared";
    Lit " (";
    Field "effect_interpretation";
    Lit ")

Group means:
";
    Field "group_means";
    Lit "

Significant post-hoc comparisons:
";
    Field "posthoc";
    Lit "

Research objective: ";
    Field "objective";
    Lit "

Provide:
1. Plain English explanation
2. Which groups differ significantly
3. Practical meaning of the effect size
4. APA-formatted paragraph for Chapter 4
5. Answer to the research objective
" ].

Definition chisquare_template : list piece :=
  [ Lit "
Interpret these Chi-square results for a thesis:

Test: ";
    Field "test_type";
    Lit "
χ²(";
    Field "df";
    Lit ") = ";
    Field "chi_stat";
    Lit ", p = ";
    Field "p_value";
    Lit "
Cramér's V = ";
    Field "cramers_v";
    Lit " (";
    Field "effect_interpretation";
    Lit ")
N = ";
    Field "sample_size";
    Lit "

Contingency table:
";
    Field "contingency_table";
    Lit "

Research objective: ";
    Field "objective";
    Lit "

Provide:
1. Plain English explanation (is there an association?)
2. Strength of the association
3. Which categories show the strongest relationship
4. APA-formatted paragraph for Chapter 4
5. Answer to the research objective
" ].

Definition correlation_template : list piece :=
  [ Lit "
Interpret these correlation results for a thesis:

Test: ";
    Field "test_type";
    Lit "
Variables: ";
    Field "var1";
    Lit " and ";
    Field "var2";
    Lit "
r = ";
    Field "r";
    Lit ", p = ";
    Field "p_value";
    Lit "
95% CI [";
    Field "ci_lower";
    Lit ", ";
    Field "ci_upper";
    Lit "]
r² = ";
    Field "r_squared";
    Lit "
Interpretation: ";
    Field "strength";
    Lit " ";
    Field "direction";
    Lit " correlation

Research objective: ";
    Field "objective";
    Lit "

Provide:
1. Plain English explanation
2. Strength and direction of relationship
3. How much variance is explained (r²)
4. APA-formatted paragraph for Chapter 4
5. Answer to the research objective
" ].

Definition regression_linear_template : list piece :=
  [ Lit "
Interpret these linear regression results for a thesis:

Model: ";
    Field "outcome";
    Lit " predicted by ";
    Field "predictors";
    Lit "
R² = ";
    Field "r_squared";
    Lit ", Adjusted R² = ";
    Field "r_squared_adj";
    Lit "
F(";
    Field "df1";
    Lit ", ";
    Field "df2";
    Lit ") = ";
    Field "f_stat";
    Lit ", p = ";
    Field "f_p";
    Lit "
N = ";
    Field "sample_size";
    Lit "

Coefficients:
";
    Field "coefficients_table";
    Lit "

Research objective: ";
    Field "objective";
    Lit "

Provide:
1. Overall model interpretation (does it predict the outcome?)
2. Which predictors are significant and their effects
3. Practical meaning (for every unit increase in X, Y changes by...)
4. APA-formatted paragraph for Chapter 4
5. Answer to the research objective
" ].

Definition regression_logistic_template : list piece :=
  [ Lit "
Interpret these logistic regression results for a thesis:

Model: ";
    Field "outcome";
    Lit " predicted by ";
    Field "predictors";
    Lit "
Pseudo R² = ";
    Field "pseudo_r2";
    Lit "
Model χ² p = ";
    Field "model_p";
    Lit "
Classification accuracy = ";
    Field "accuracy";
    Lit "%
N = ";
    Field "sample_size";
    Lit "

Coefficients:
";
    Field "coefficients_table";
    Lit "

Research objective: ";
    Field "objective";
    Lit "

Provide:
1. Overall model interpretation
2. Significant predictors and their odds ratios
3. Practical meaning (odds of outcome increase/decrease by X times when...)
4. APA-formatted paragraph for Chapter 4
5. Answer to the research objective
" ].

(** [INTERPRETATION_PROMPTS] *)
Definition INTERPRETATION_PROMPTS : list (string * list piece) :=
  [ ("ttest", ttest_template);
    ("anova", anova_template);
    ("chisquare", chisquare_template);
    ("correlation", correlation_template);
    ("regression_linear", regression_linear_template);
    ("regression_logistic", regression_logistic_template) ].

(** [INTERPRETATION_PROMPTS[key]] *)
Definition prompt_template (key : string) : result (list piece) :=
  match List.find (fun kt => String.eqb key (fst kt)) INTERPRETATION_PROMPTS with
  | Some (_, t) => Ok t
  | None => Raise (KeyError key)
  end.

(** What Python prints of a list, a tuple or a dictionary, and
    [json.dumps(v, indent=2)] *)
Class Printing : Type := {
  repr : value -> string;
  json_dumps : value -> string
}.

Definition newline : string := "
".

Section Interpreters.

Context `{L : Lib} `{R : Requests} `{P : Printing}.

(** [INTERPRETATION_SYSTEM_PROMPT] of prompts.py *)
Variable INTERPRETATION_SYSTEM_PROMPT : string.

Variable self : AIInterpreter.

(** [str(v)], which is what a replacement field without a format
    specification prints *)
Definition str_value (v : value) : string :=
  match v with
  | VNone => "None"
  | VBool b => if b then "True" else "False"
  | VInt n => pretty n
  | VFloat x => str_float x
  | VRound x ndigits => str_float (Float.round_nd x ndigits)
  | VStr s => s
  | _ => repr v
  end.

(** [template.format(...)] with keyword arguments: a field that is not
    among them is a [KeyError] *)
Definition format (template : list piece) (kwargs : list (string * value))
  : result string :=
  let* parts :=
    mapM (fun p =>
            match p with
            | Lit text => ret text
            | Field name =>
                match dict_get kwargs name with
                | Some v => ret (str_value v)
                | None => Raise (KeyError name)
                end
            end) template in
  ret (String.concat "" parts).

(** [v[i]], [i] a position: an entry of a list or a tuple, a character of
    a text; a dictionary of the records has no number among its keys. *)
Definition item (v : value) (i : nat) : result value :=
  match v with
  | VList vs | VTuple vs =>
      match nth_error vs i with
      | Some w => Ok w
      | None => Raise (Exception "IndexError" (type_name v +:+ " index out of range"))
      end
  | VStr s =>
      match String.get i s with
      | Some c => Ok (VStr (String c ""))
      | None => Raise (Exception "IndexError" "string index out of range")
      end
  | VDict kvs => Raise (Exception "KeyError" (pretty (Z.of_nat i)))
  | _ => Raise (Exception "TypeError" ("'" +:+ type_name v +:+ "' object is not subscriptable"))
  end.

(** [d[k]], the key [k] a value of the record *)
Definition subscript_by (d : value) (k : value) : result value :=
  match k with
  | VStr s => subscript d s
  | _ => Raise (Exception "KeyError" (str_value k))
  end.

(** [d.items()] *)
Definition items (d : value) : result (list (string * value)) :=
  match d with
  | VDict kvs => Ok kvs
  | _ => Raise (Exception "AttributeError"
                  ("'" +:+ type_name d +:+ "' object has no attribute 'items'"))
  end.

(** [for c in v] *)
Definition iter (v : value) : result (list value) :=
  match v with
  | VList vs | VTuple vs => Ok vs
  | VDict kvs => Ok (map (fun kv => VStr (fst kv)) kvs)
  | _ => Raise (Exception "TypeError" ("'" +:+ type_name v +:+ "' object is not iterable"))
  end.


(** [len(v)] *)
Definition length_of (v : value) : result Z :=
  match v with
  | VList vs | VTuple vs => Ok (len vs)
  | VDict kvs => Ok (len kvs)
  | VStr s => Ok (Z.of_nat (String.length s))
  | _ => Raise (Exception "TypeError" ("object of type '" +:+ type_name v +:+ "' has no len()"))
  end.

(** [v - k], [k] an [int] *)
Definition minus_int (v : value) (k : Z) : result value :=
  match v with
  | VInt n => Ok (VInt (n - k))
  | VBool b => Ok (VInt ((if b then 1 else 0) - k))
  | VFloat x => Ok (VFloat (x - Float.of_Z k))
  | VRound x ndigits => Ok (VFloat (Float.round_nd x ndigits - Float.of_Z k))
  | _ => Raise (Exception "TypeError"
                  ("unsupported operand type(s) for -: '" +:+ type_name v +:+ "' and 'int'"))
  end.


(** [if 'error' in results: return {'error': results['error']}] *)
Definition error_passed_on (results : value) : result value :=
  let* e := subscript results "error" in
  ret (VDict [("error", e)]).

Definition interpret_ttest (results : value) (objective : string) : result value :=
  if has_key "error" results then error_passed_on results
  else
    (* Build prompt from template *)
    let* variables := subscript results "variables" in
    let* groups := subscript variables "groups" in
    let* group_stats := subscript results "group_statistics" in
    let* template := prompt_template "ttest" in
    let* test_type := subscript results "test_type" in
    let* group1 := item groups 0 in
    let* stats1 := subscript_by group_stats group1 in
    let* n1 := subscript stats1 "n" in
    let* mean1 := subscript stats1 "mean" in
    let* sd1 := subscript stats1 "std" in
    let* group2 := item groups 1 in
    let* stats2 := subscript_by group_stats group2 in
    let* n2 := subscript stats2 "n" in
    let* mean2 := subscript stats2 "mean" in
    let* sd2 := subscript stats2 "std" in
    let* df := subscript results "degrees_of_freedom" in
    let* t_stat := subscript results "test_statistic" in
    let* p_value := subscript results "p_value" in
    let* effect_size := subscript results "effect_size" in
    let* cohens_d := subscript effect_size "cohens_d" in
    let* ci_95 := subscript effect_size "ci_95" in
    let* ci_lower := item ci_95 0 in
    let* ci_upper := item ci_95 1 in
    let* effect_interpretation := subscript effect_size "interpretation" in
    let* prompt :=
      format template [
        ("test_type", test_type);
        ("group1", group1); ("n1", n1); ("mean1", mean1); ("sd1", sd1);
        ("group2", group2); ("n2", n2); ("mean2", mean2); ("sd2", sd2);
        ("df", df); ("t_stat", t_stat); ("p_value", p_value);
        ("cohens_d", cohens_d); ("ci_lower", ci_lower); ("ci_upper", ci_upper);
        ("effect_interpretation", effect_interpretation);
        ("objective", VStr objective) ] in
    ret (interpret INTERPRETATION_SYSTEM_PROMPT self prompt true).










End Interpreters.

End Narratives.

(** ** tables.py: [APATableGenerator] *)

Module Tables.
Import Interpreter Narratives.

(** [f'{x:.{decimals}f}'] on a float *)
Class NumberFormat : Type := {
  fixed : float -> Z -> string
}.

Section APATableGenerator.

Context `{L : Lib} `{P : Printing} `{F : NumberFormat}.

(** [f'{v:.{decimals}f}'] on an entry of a record *)
Definition format_fixed (v : value) (decimals : Z) : result string :=
  match v with
  | VFloat x => Ok (fixed x decimals)
  | VRound x ndigits => Ok (fixed (Float.round_nd x ndigits) decimals)
  | VInt n => Ok (fixed (Float.of_Z n) decimals)
  | VBool b => Ok (fixed (if b then 1 else 0)%float decimals)
  | VStr _ => Raise (Exception "ValueError" "Unknown format code 'f' for object of type 'str'")
  | _ => Raise (Exception "TypeError"
                  ("unsupported format string passed to " +:+ type_name v +:+ ".__format__"))
  end.

(** The number an entry stands for in a comparison with a float *)
Definition as_number (v : value) : result float :=
  match v with
  | VFloat x => Ok x
  | VRound x ndigits => Ok (Float.round_nd x ndigits)
  | VInt n => Ok (Float.of_Z n)
  | VBool b => Ok (if b then 1 else 0)%float
  | _ => Raise (Exception "TypeError"
                  ("'<' not supported between instances of '" +:+ type_name v
                   +:+ "' and 'float'"))
  end.

(** [s[1:]] *)
Definition drop_first (s : string) : string :=
  match s with
  | EmptyString => EmptyString
  | String _ rest => rest
  end.

Definition _format_p_value (p : value) : result string :=
  let* x := as_number p in
  if PrimFloat.ltb x 0.001 then ret "< .001"
  else if PrimFloat.ltb x 0.01 then
    let* s := format_fixed p 3 in ret (drop_first s) (* Remove leading 0 *)
  else
    let* s := format_fixed p 3 in ret (drop_first s).

(** [a + b] *)
Definition plus (a b : value) : result value :=
  match a, b with
  | VInt x, VInt y => Ok (VInt (x + y))
  | VStr s, VStr t => Ok (VStr (s +:+ t))
  | VList l, VList m => Ok (VList (l ++ m))
  | VTuple l, VTuple m => Ok (VTuple (l ++ m))
  | (VStr _ | VList _ | VTuple _), _ =>
      Raise (Exception "TypeError"
               ("can only concatenate " +:+ type_name a +:+ " (not " +:+ double_quote
                +:+ type_name b +:+ double_quote +:+ ") to " +:+ type_name a))
  | (VDict _ | VNone), _
  | _, (VStr _ | VList _ | VTuple _ | VDict _ | VNone) =>
      Raise (Exception "TypeError"
               ("unsupported operand type(s) for +: '" +:+ type_name a +:+ "' and '"
                +:+ type_name b +:+ "'"))
  | VBool x, VBool y => Ok (VInt ((if x then 1 else 0) + (if y then 1 else 0)))
  | VBool x, VInt y => Ok (VInt ((if x then 1 else 0) + y))
  | VInt x, VBool y => Ok (VInt (x + (if y then 1 else 0)))
  | _, _ =>
      let* x := as_number a in
      let* y := as_number b in
      ret (VFloat (x + y))
  end.

(** [pd.DataFrame(rows)] on a list of dictionaries: the columns are the
    keys in the order of their first appearance, and a row without a key has
    NaN in that column. *)
Definition frame_columns (rows : list (list (string * value))) : list string :=
  fold_left
    (fun cols row =>
       fold_left (fun cols kv =>
                    if existsb (String.eqb (fst kv)) cols then cols else cols ++ [fst kv])
                 row cols)
    rows [].

Definition frame_cell (row : list (string * value)) (column : string) : value :=
  match dict_get row column with
  | Some v => v
  | None => VFloat Float.nan
  end.

(** [df.to_dict('records')] *)
Definition to_records (rows : list (list (string * value))) : value :=
  VList (map (fun row => VDict (map (fun c => (c, frame_cell row c)) (frame_columns rows)))
             rows).

Definition _df_to_markdown (rows : list (list (string * value))) (title : option string)
  : string :=
  let cols := frame_columns rows in
  let title_lines :=
    match title with
    | Some t => if String.eqb t "" then [] else ["**" +:+ t +:+ "**" +:+ newline]
    | None => []
    end in
  (* Header *)
  let header := "| " +:+ String.concat " | " cols +:+ " |" in
  let separator := "|" +:+ String.concat "|" (map (fun _ => "---") cols) +:+ "|" in
  (* Rows *)
  let lines :=
    map (fun row =>
           "| " +:+ String.concat " | " (map (fun c => str_value (frame_cell row c)) cols)
           +:+ " |") rows in
  String.concat newline (title_lines ++ [header; separator] ++ lines).

(** [title or default] *)
Definition title_or (title : option string) (default : string) : string :=
  match title with
  | Some t => if String.eqb t "" then default else t
  | None => default
  end.

(** [list(d.keys())] *)
Definition keys (d : value) : result (list value) :=
  let* kvs := items d in
  ret (map (fun kv => VStr (fst kv)) kvs).

Definition generate_ttest_table (ttest_results : value) (title : option string)
  : result value :=
  if has_key "error" ttest_results then error_passed_on ttest_results
  else
    let* group_stats := subscript ttest_results "group_statistics" in
    let* group_keys := keys group_stats in
    let groups := VList group_keys in
    let* variables := subscript ttest_results "variables" in
    let* outcome := subscript variables "outcome" in
    let* group1 := item groups 0 in
    let* stats1 := subscript_by group_stats group1 in
    let* mean1 := subscript stats1 "mean" in
    let* m1 := format_fixed mean1 2 in
    let* std1 := subscript stats1 "std" in
    let* s1 := format_fixed std1 2 in
    let* group2 := item groups 1 in
    let* stats2 := subscript_by group_stats group2 in
    let* mean2 := subscript stats2 "mean" in
    let* m2 := format_fixed mean2 2 in
    let* std2 := subscript stats2 "std" in
    let* s2 := format_fixed std2 2 in
    let* test_statistic := subscript ttest_results "test_statistic" in
    let* t := format_fixed test_statistic 2 in
    let* df := subscript ttest_results "degrees_of_freedom" in
    let* p_value := subscript ttest_results "p_value" in
    let* p := _format_p_value p_value in
    let* effect_size := subscript ttest_results "effect_size" in
    let* cohens_d := subscript effect_size "cohens_d" in
    let* d := format_fixed cohens_d 2 in
    let* ci_95 := subscript effect_size "ci_95" in
    let* ci_lower := item ci_95 0 in
    let* lo := format_fixed ci_lower 2 in
    let* ci_upper := item ci_95 1 in
    let* hi := format_fixed ci_upper 2 in
    let rows := [ mkdict [
      ("Variable", outcome);
      (str_value group1 +:+ " M (SD)", VStr (m1 +:+ " (" +:+ s1 +:+ ")"));
      (str_value group2 +:+ " M (SD)", VStr (m2 +:+ " (" +:+ s2 +:+ ")"));
      ("t", VStr t);
      ("df", VStr (str_value df));
      ("p", VStr p);
      ("Cohen's d [95% CI]", VStr (d +:+ " [" +:+ lo +:+ ", " +:+ hi +:+ "]")) ] ] in
    let table_md :=
      _df_to_markdown rows
        (Some (title_or title ("Table" +:+ newline
                               +:+ "Independent Samples t-test Results for "
                               +:+ str_value outcome))) in
    let* n1 := subscript stats1 "n" in
    let* n2 := subscript stats2 "n" in
    let* n := plus n1 n2 in
    let* interpretation := subscript effect_size "interpretation" in
    ret (VDict [
      ("dataframe", to_records rows);
      ("markdown", VStr table_md);
      ("apa_note", VStr ("Note. N = " +:+ str_value n +:+ ". "
                         +:+ "Effect size interpretation: " +:+ str_value interpretation
                         +:+ ".")) ]).




(** [coef['variable'] if coef['variable'] != 'const' else '(Constant)'] *)
Definition variable_label (coef : value) : result value :=
  let* variable := subscript coef "variable" in
  match variable with
  | VStr s => if String.eqb s "const" then ret (VStr "(Constant)") else subscript coef "variable"
  | _ => subscript coef "variable"
  end.


(** [d.get(k)] *)
Definition get_or_none (d : value) (k : string) : value :=
  match field k d with
  | Some v => v
  | None => VNone
  end.



(** [f'{v * 100:.1f}'] *)
Definition percent_fixed (v : value) : result string :=
  let* x := as_number v in
  match v with
  | VInt n => ret (fixed (Float.of_Z (n * 100)) 1)
  | VBool b => ret (fixed (Float.of_Z (if b then 100 else 0)) 1)
  | _ => ret (fixed (x * 100) 1)
  end.


End APATableGenerator.

End Tables.

(** ** assumptions.py: [check_linearity] *)

(** [np.corrcoef(a, b)[0, 1]] and [linear_rainbow(model)] *)
Class Diagnostics : Type := {
  corrcoef : list float -> list float -> result float;
  linear_rainbow : fit -> result (float * float)
}.

Section Linearity.

Context `{L : Lib} `{D : Diagnostics}.

(** [self.alpha] *)
Variable alpha : float.

(** [pd.DataFrame({'x': x, 'y': y}).dropna()] on two series with the default
    index: the positions where both have a value.  (Series with other
    indexes are aligned by their labels.) *)
Definition aligned (x y : list cell) : list (cell * cell) :=
  List.filter (fun p => negb (isna (fst p)) && negb (isna (snd p))) (combine x y).

Definition check_linearity_body (x_in y_in : list cell) : result value :=
  (* Align data *)
  let df := aligned x_in y_in in
  let* x := as_floats (map fst df) in
  let* y := as_floats (map snd df) in
  (* Fit linear model *)
  let* model := OLS_fit y [("x", x)] in
  (* Residuals *)
  let residuals := resid model in
  let fitted := fittedvalues model in
  (* Correlation between fitted values and residuals (should be near 0) *)
  let* resid_corr := corrcoef fitted residuals in
  (* Rainbow test for linearity; [try: ... except: rainbow_result = None] *)
  let rainbow_result :=
    match linear_rainbow model with
    | Ok (rainbow_stat, rainbow_p) =>
        VDict [
          ("statistic", VRound rainbow_stat 4);
          ("p_value", VRound rainbow_p 4);
          ("linear", VBool (Float.gtb rainbow_p alpha)) ]
    | Raise _ => VNone
    end in
  ret (VDict [
    ("residual_fitted_correlation", VRound resid_corr 4);
    ("correlation_concern", VBool (Float.gtb (PrimFloat.abs resid_corr) 0.3));
    ("rainbow_test", rainbow_result);
    ("conclusion", VDict [
       ("linear", VBool (PrimFloat.ltb (PrimFloat.abs resid_corr) 0.3));
       ("recommendation",
         VStr (if PrimFloat.ltb (PrimFloat.abs resid_corr) 0.3 then "proceed"
               else "consider_transformation")) ]) ]).

Definition check_linearity (x y : list cell) : value :=
  try_except (check_linearity_body x y).

End Linearity.

(** ** More of the quantities the properties speak of *)

(** The labels of an effect size, in their order *)
Definition tier_rank (tier : string) : nat :=
  if String.eqb tier "negligible" then 0
  else if String.eqb tier "small" then 1
  else if String.eqb tier "medium" then 2
  else if String.eqb tier "large" then 3
  else 4.

(** [unique] from a list of values already seen *)
Definition unique_from (seen s : list cell) : list cell :=
  fold_left (fun seen c => if existsb (cell_eqb c) seen then seen else seen ++ [c]) s seen.

(** The number of values of [l] that the value [x] equals *)
Definition hits (x : cell) (l : list cell) : nat :=
  length (List.filter (fun g => cell_eqb x g) l).

(** The shape of the contingency table of two columns *)
Definition contingency_shape (df : DataFrame) (var1 var2 : string) : Z * Z :=
  let ps := complete_pairs df var1 var2 in
  shape (crosstab (map fst ps) (map snd ps)).

(** The number of entries of a trail with the action [a] *)
Definition occurrences (a : string) (l : list Audit.entry) : Z :=
  len (List.filter (fun e => String.eqb (Audit.action e) a) l).

(** The entries of a trail are numbered by their position *)
Definition numbered (l : list Audit.entry) : Prop :=
  forall i e, nth_error l i = Some e -> Audit.entry_number e = Z.of_nat i + 1.

(** The count that a dictionary of counts has for the action [a] *)
Definition counted (d : list (string * value)) (a : string) : Z :=
  match dict_get d a with Some (VInt n) => n | _ => 0 end.

(** A dictionary of counts has no entry for a count of zero *)
Definition counts_ok (d : list (string * value)) : Prop :=
  forall a, dict_get d a = if counted d a =? 0 then None else Some (VInt (counted d a)).

(** The entries of [list_versions] that are marked as the current one *)
Definition current_entries (self : Versions.DataVersionManager) : list value :=
  List.filter (fun e => match field "is_current" e with
                        | Some (VBool true) => true
                        | _ => false
                        end)
              (VersionQueries.list_versions self).

(** The identifiers [store] has given out so far: [dataset_1] to
    [dataset_<counter>] *)
Definition issued (self : Storage.DataStorage) (dataset_id : string) : Prop :=
  exists k, dataset_id = Storage.dataset_id_of k /\ 1 <= k <= Storage.counter self.

(** Every identifier in use was given out by [store] *)
Definition ids_issued (self : Storage.DataStorage) : Prop :=
  0 <= Storage.counter self
  /\ forall dataset_id, is_Some (Storage.datasets self !! dataset_id) ->
                        issued self dataset_id.

(** Whether a computation returns *)
Definition is_ok {A} (m : result A) : bool :=
  match m with Ok _ => true | Raise _ => false end.




(** ** More sample data *)

Module Fixtures.

(** Two groups of three and of two *)
Definition unequal_groups : DataFrame :=
  {| columns := ["group"; "score"];
     rows := [ [Str "a"; Num 1]; [Str "a"; Num 2]; [Str "a"; Num 3];
               [Str "b"; Num 4]; [Str "b"; Num 5] ]%float |}.

(** Two groups of three and two complete rows, and two rows that are left
    out: one without its score, one without its group *)
Definition gapped_groups : DataFrame :=
  {| columns := ["group"; "score"];
     rows := [ [Str "a"; Num 1]; [Str "a"; Null]; [Str "a"; Num 2]; [Str "a"; Num 3];
               [Str "b"; Num 4]; [Null; Num 6]; [Str "b"; Num 5] ]%float |}.

(** Two groups whose values print the same with [Sample.lib]: a number and
    the text that [str] gives for it *)
Definition mixed_labels : DataFrame :=
  {| columns := ["group"; "score"];
     rows := [ [Num 1; Num 1]; [Num 1; Num 2];
               [Str "float"; Num 4]; [Str "float"; Num 5] ]%float |}.

(** Two predictors and an outcome *)
Definition two_predictors : DataFrame :=
  {| columns := ["y"; "x1"; "x2"];
     rows := [ [Num 1; Num 1; Num 2]; [Num 2; Num 2; Num 4];
               [Num 3; Num 3; Num 7]; [Num 5; Num 4; Num 8] ]%float |}.

(** The library of [Sample.lib] with a variance inflation factor of 12 *)
Definition collinear_lib : Lib :=
  {| levene := levene (Lib := Sample.lib);
     bartlett := bartlett (Lib := Sample.lib);
     ttest_ind := ttest_ind (Lib := Sample.lib);
     ttest_rel := ttest_rel (Lib := Sample.lib);
     shapiro := shapiro (Lib := Sample.lib);
     normaltest := normaltest (Lib := Sample.lib);
     f_oneway := f_oneway (Lib := Sample.lib);
     pearsonr := pearsonr (Lib := Sample.lib);
     spearmanr := spearmanr (Lib := Sample.lib);
     mannwhitneyu := mannwhitneyu (Lib := Sample.lib);
     kruskal := kruskal (Lib := Sample.lib);
     fisher_exact := fisher_exact (Lib := Sample.lib);
     chi2_sf := chi2_sf (Lib := Sample.lib);
     norm_ppf := norm_ppf (Lib := Sample.lib);
     t_ppf := t_ppf (Lib := Sample.lib);
     arctanh := arctanh (Lib := Sample.lib);
     tanh := tanh (Lib := Sample.lib);
     exp := exp (Lib := Sample.lib);
     median := median (Lib := Sample.lib);
     quantile := quantile (Lib := Sample.lib);
     skew := skew (Lib := Sample.lib);
     kurtosis := kurtosis (Lib := Sample.lib);
     str_float := str_float (Lib := Sample.lib);
     repr_str := repr_str (Lib := Sample.lib);
     labels_not_found := labels_not_found (Lib := Sample.lib);
     not_a_number := not_a_number (Lib := Sample.lib);
     pairwise_tukeyhsd := pairwise_tukeyhsd (Lib := Sample.lib);
     OLS_fit := OLS_fit (Lib := Sample.lib);
     Logit_fit := Logit_fit (Lib := Sample.lib);
     variance_inflation_factor := fun _ _ => Ok 12%float;
     het_breuschpagan := het_breuschpagan (Lib := Sample.lib);
     durbin_watson := durbin_watson (Lib := Sample.lib);
     confusion_matrix := confusion_matrix (Lib := Sample.lib) |}.

(** The sample library with three facts of SciPy: [shapiro] rejects fewer
    than three values, [fisher_exact] any table that is not two by two, and
    the chi-square distribution with one degree of freedom has the
    probability 5.7e-5 beyond 16.2. *)
Definition guarded_lib : Lib :=
  {| levene := levene (Lib := Sample.lib);
     bartlett := bartlett (Lib := Sample.lib);
     ttest_ind := ttest_ind (Lib := Sample.lib);
     ttest_rel := ttest_rel (Lib := Sample.lib);
     shapiro := fun x =>
       if (len x <? 3)%Z
       then Raise (Exception "ValueError" "Data must be at least length 3.")
       else Sample.half;
     normaltest := normaltest (Lib := Sample.lib);
     f_oneway := f_oneway (Lib := Sample.lib);
     pearsonr := pearsonr (Lib := Sample.lib);
     spearmanr := spearmanr (Lib := Sample.lib);
     mannwhitneyu := mannwhitneyu (Lib := Sample.lib);
     kruskal := kruskal (Lib := Sample.lib);
     fisher_exact := fun table =>
       match table with
       | [[_; _]; [_; _]] => Sample.half
       | _ => Raise (Exception "ValueError" "The input `table` must be of shape (2, 2).")
       end;
     chi2_sf := fun x dof =>
       if PrimFloat.eqb x 16.2 && (dof =? 1)%Z then 5.69941162333184e-05%float
       else chi2_sf (Lib := Sample.lib) x dof;
     norm_ppf := norm_ppf (Lib := Sample.lib);
     t_ppf := t_ppf (Lib := Sample.lib);
     arctanh := arctanh (Lib := Sample.lib);
     tanh := tanh (Lib := Sample.lib);
     exp := exp (Lib := Sample.lib);
     median := median (Lib := Sample.lib);
     quantile := quantile (Lib := Sample.lib);
     skew := skew (Lib := Sample.lib);
     kurtosis := kurtosis (Lib := Sample.lib);
     str_float := str_float (Lib := Sample.lib);
     repr_str := repr_str (Lib := Sample.lib);
     labels_not_found := labels_not_found (Lib := Sample.lib);
     not_a_number := not_a_number (Lib := Sample.lib);
     pairwise_tukeyhsd := pairwise_tukeyhsd (Lib := Sample.lib);
     OLS_fit := OLS_fit (Lib := Sample.lib);
     Logit_fit := Logit_fit (Lib := Sample.lib);
     variance_inflation_factor := variance_inflation_factor (Lib := Sample.lib);
     het_breuschpagan := het_breuschpagan (Lib := Sample.lib);
     durbin_watson := durbin_watson (Lib := Sample.lib);
     confusion_matrix := confusion_matrix (Lib := Sample.lib) |}.

Definition pandas : Pandas :=
  {| corr := fun cols => Ok (map (fun i => map (fun j => if Nat.eqb i j then 1 else 0.9)%float
                                                (seq 0 (length cols)))
                                 (seq 0 (length cols))) |}.

Definition printing : Narratives.Printing :=
  {| Narratives.repr := fun _ => "..."; Narratives.json_dumps := fun _ => "{}" |}.

Definition number_format : Tables.NumberFormat :=
  {| Tables.fixed := fun _ _ => "0.00" |}.

(** A correlation that is not a number, and a rainbow test that fails *)
Definition constant_residuals : Diagnostics :=
  {| corrcoef := fun _ _ => Ok Float.nan;
     linear_rainbow := fun _ => Raise (Exception "ValueError" "too few observations") |}.

End Fixtures.

(** * Properties *)

(** ** The error monad *)

Lemma post_ret {A} (P : A -> Prop) (a : A) : P a -> post P (ret a).
Proof. intros H. exact H. Qed.

Lemma post_raise {A} (P : A -> Prop) (e : exn) : post P (Raise e).
Proof. exact I. Qed.

Lemma post_bind {A B} (P : B -> Prop) (m : result A) (k : A -> result B) :
  (forall a, m = Ok a -> post P (k a)) -> post P (bind m k).
Proof.
  intros H. destruct m as [a|e]; simpl.
  - apply H. reflexivity.
  - exact I.
Qed.

Lemma post_weaken {A} (P Q : A -> Prop) (m : result A) :
  (forall a, P a -> Q a) -> post P m -> post Q m.
Proof. intros H. destruct m; simpl; auto. Qed.

Lemma bind_ok {A B} (m : result A) (k : A -> result B) (b : B) :
  bind m k = Ok b -> exists a, m = Ok a /\ k a = Ok b.
Proof.
  destruct m as [a|e]; simpl; intros H.
  - exists a. split; [reflexivity | exact H].
  - discriminate H.
Qed.

Lemma mapM_ok {A B} (f : A -> result B) (l : list A) (bs : list B) :
  mapM f l = Ok bs -> Forall2 (fun a b => f a = Ok b) l bs.
Proof.
  revert bs. induction l as [|a l IH]; simpl; intros bs H.
  - injection H as <-. constructor.
  - apply bind_ok in H as (b & Hb & H).
    apply bind_ok in H as (bs' & Hbs & H).
    injection H as <-. constructor; [exact Hb | apply IH; exact Hbs].
Qed.

Lemma mapM_length {A B} (f : A -> result B) (l : list A) (bs : list B) :
  mapM f l = Ok bs -> length bs = length l.
Proof. intros H. apply mapM_ok in H. symmetry. eapply Forall2_length; eassumption. Qed.

Lemma mapM_post {A B} (P : B -> Prop) (f : A -> result B) (l : list A) (bs : list B) :
  (forall a, post P (f a)) -> mapM f l = Ok bs -> Forall P bs.
Proof.
  intros Hf H. apply mapM_ok in H.
  induction H as [|a b l bs Hab _ IH]; constructor; [|exact IH].
  specialize (Hf a). rewrite Hab in Hf. exact Hf.
Qed.

(** ** Floats and frames, on examples *)

Example rint_ties_to_even :
  map Float.rint [0.5; 1.5; 2.5; -2.5; 2.4; 2.6]%float = [0; 2; 2; -2; 2; 3]%float.
Proof. vm_compute. reflexivity. Qed.

Example round_nd_examples :
  Float.round_nd 3.14159 4 = 3.1416%float
  /\ Float.round_nd (-5) 4 = (-5)%float
  /\ Float.round_nd (1 / 3) 2 = 0.33%float
  /\ Float.is_nan (Float.round_nd Float.nan 4) = true.
Proof. repeat split; vm_compute; reflexivity. Qed.

(** NumPy's sum: the depth allowed to [pairwise_sum_upto] does not matter
    once it covers the length, so a sum over more than 128 values is the sum
    of the sums of its two parts, and a shorter one is a block sum. *)
Lemma cut_inside (n : nat) : (128 < n)%nat -> (0 < Float.cut n < n)%nat.
Proof.
  intros Hn. unfold Float.cut.
  pose proof (Nat.mod_upper_bound (n / 2) 8).
  pose proof (Nat.div_mod_eq n 2).
  pose proof (Nat.mod_upper_bound n 2).
  lia.
Qed.

Lemma pairwise_sum_upto_enough (d1 d2 : nat) (a : list float) :
  (length a <= d1)%nat -> (length a <= d2)%nat ->
  Float.pairwise_sum_upto d1 a = Float.pairwise_sum_upto d2 a.
Proof.
  revert d2 a. induction d1 as [|d1 IH]; intros d2 a H1 H2.
  - destruct a; [|simpl in H1; lia]. destruct d2; reflexivity.
  - destruct d2 as [|d2].
    + destruct a; [reflexivity | simpl in H2; lia].
    + cbn [Float.pairwise_sum_upto].
      destruct (length a <=? 128)%nat eqn:E; [reflexivity|].
      apply Nat.leb_gt in E. pose proof (cut_inside _ E) as Hc.
      f_equal; apply IH; rewrite ?length_firstn, ?length_skipn; lia.
Qed.

Lemma pairwise_sum_short (a : list float) :
  (length a <= 128)%nat -> Float.pairwise_sum a = Float.block_sum a.
Proof.
  intros Hn. unfold Float.pairwise_sum. destruct (length a) eqn:E; [reflexivity|].
  cbn [Float.pairwise_sum_upto]. rewrite E.
  apply Nat.leb_le in Hn. rewrite Hn. reflexivity.
Qed.

Lemma pairwise_sum_cut (a : list float) :
  (128 < length a)%nat ->
  Float.pairwise_sum a
  = (Float.pairwise_sum (firstn (Float.cut (length a)) a)
     + Float.pairwise_sum (skipn (Float.cut (length a)) a))%float.
Proof.
  intros Hn. pose proof (cut_inside _ Hn) as Hc.
  unfold Float.pairwise_sum at 1. destruct (length a) as [|d] eqn:E; [lia|].
  cbn [Float.pairwise_sum_upto]. rewrite E.
  apply Nat.leb_gt in Hn. rewrite Hn.
  unfold Float.pairwise_sum.
  f_equal; apply pairwise_sum_upto_enough;
    rewrite ?length_firstn, ?length_skipn; lia.
Qed.

(** Ten times 7.10115: added from left to right the sum is not ten times
    the value, added as NumPy adds it is; and 300 values are summed in two
    parts of 144 and 156. *)
Example np_sum_examples :
  Float.fsum (repeat 7.10115%float 10) = 71.011499999999987%float
  /\ Float.np_sum (repeat 7.10115%float 10) = 71.0115%float
  /\ Float.np_sum [1; 2; 3]%float = 6%float
  /\ Float.cut 300 = 144%nat
  /\ Float.np_sum (repeat 0.1%float 300)
     = (Float.np_sum (repeat 0.1%float 144) + Float.np_sum (repeat 0.1%float 156))%float.
Proof. repeat split; vm_compute; reflexivity. Qed.

Example mean_var_examples :
  mean [1; 2; 3; 4; 5]%float = 3%float
  /\ var [1; 2; 3; 4; 5]%float = 2.5%float
  /\ Float.is_nan (var [7]%float) = true
  /\ Float.is_nan (mean []) = true
  /\ mean (repeat 7.10115%float 10) = 7.10115%float
  /\ var (repeat 7.10115%float 10) = 0%float
  /\ mean [1; Float.nan; 3]%float = 2%float
  /\ var [1; Float.nan; 3]%float = 2%float.
Proof. repeat split; vm_compute; reflexivity. Qed.

Example dropna_unique_example :
  option_map rows
    (match getitems Sample.three_groups ["group"; "score"] with
     | Ok sel => Some (dropna sel)
     | Raise _ => None
     end)
  = Some [ [Str "a"; Num 1]; [Str "a"; Num 2]; [Str "b"; Num 3];
           [Str "b"; Num 5]; [Str "c"; Num 4]; [Str "c"; Num 6] ]%float
  /\ group_values Sample.three_groups "group" "score" = [Str "a"; Str "b"; Str "c"]
  /\ group_size Sample.three_groups "group" "score" (Str "b") = 2.
Proof. repeat split; vm_compute; reflexivity. Qed.

Example crosstab_example :
  crosstab [Str "yes"; Str "no"; Str "yes"] [Str "ill"; Str "healthy"; Str "ill"]
  = {| ct_index := [Str "no"; Str "yes"];
       ct_columns := [Str "healthy"; Str "ill"];
       ct_counts := [[1; 0]; [0; 2]] |}.
Proof. vm_compute. reflexivity. Qed.

(** ** Cohen's d *)

Lemma cohens_d_no_zero_divisor (group1 group2 : list float) :
  2 < len group1 + len group2 -> snd (_cohens_d group1 group2) = false.
Proof.
  intros Hn. unfold _cohens_d, wbind, np_div_int, wret, np_div. cbn [fst snd].
  replace (len group1 + len group2 - 2 =? 0) with false by (symmetry; apply Z.eqb_neq; lia).
  destruct (PrimFloat.eqb _ 0) eqn:E; cbn [fst snd]; reflexivity.
Qed.

(** C9: for two groups with [n1 + n2 > 2], no division in [_cohens_d] has a
    zero divisor (the computation is total, with nothing to warn about), and
    when the pooled standard deviation is zero the function returns exactly
    0.0 instead of dividing by it. *)
Theorem cohens_d_zero_pooled_std (group1 group2 : list float) :
  2 < len group1 + len group2 ->
  snd (_cohens_d group1 group2) = false
  /\ (PrimFloat.eqb (pooled_std group1 group2) 0 = true ->
      _cohens_d group1 group2 = (0%float, false)).
Proof.
  intros Hn. split; [apply cohens_d_no_zero_divisor; exact Hn|].
  intros Hz. unfold _cohens_d, wbind, np_div_int, wret.
  unfold pooled_std in Hz. cbn [fst snd]. rewrite Hz. cbn [fst snd].
  replace (len group1 + len group2 - 2 =? 0) with false by (symmetry; apply Z.eqb_neq; lia).
  reflexivity.
Qed.

Lemma cohens_d_zero_pooled_std_witness :
  snd (_cohens_d (repeat 7.10115%float 10) [1; 1; 1]%float) = false
  /\ _cohens_d (repeat 7.10115%float 10) [1; 1; 1]%float = (0%float, false).
Proof.
  destruct (cohens_d_zero_pooled_std (repeat 7.10115%float 10) [1; 1; 1]%float) as [H1 H2].
  - vm_compute. reflexivity.
  - split; [exact H1 | apply H2; vm_compute; reflexivity].
Defined.

(** Without the guard two constant groups would be divided by zero: the
    means differ and the pooled standard deviation is 0, for short groups
    and for a group of ten alike. *)
Example constant_groups_have_zero_pooled_std :
  pooled_std [1; 1]%float [2; 2]%float = 0%float
  /\ np_div (mean [1; 1] - mean [2; 2])%float (pooled_std [1; 1]%float [2; 2]%float)
     = (neg_infinity, true)
  /\ pooled_std (repeat 7.10115%float 10) [1; 1; 1]%float = 0%float
  /\ _cohens_d [1; 1]%float [2; 2]%float = (0%float, false).
Proof. repeat split; vm_compute; reflexivity. Qed.

(** One group of one value has no variance: the pooled standard deviation is
    NaN, which is not equal to zero, and d is NaN. *)
Example single_value_group_gives_nan :
  Float.is_nan (fst (_cohens_d [1]%float [2; 3]%float)) = true
  /\ snd (_cohens_d [1]%float [2; 3]%float) = false.
Proof. split; vm_compute; reflexivity. Qed.

(** ** The audit trail *)

Module AuditFacts.
Import Audit.

Lemma step_entries (s : AuditLogger) (o : op) :
  (exists e, entries (step s o) = entries s ++ [e])
  \/ entries (step s o) = []
  \/ (o = UndoLast /\ entries (step s o) = removelast (entries s))
  \/ entries (step s o) = entries s.
Proof.
  destruct o; simpl.
  - left. eexists. reflexivity.
  - right; right; right; reflexivity.
  - right; right; right; reflexivity.
  - right; right; right; reflexivity.
  - right; right; right; reflexivity.
  - right; left; reflexivity.
  - unfold undo_last. destruct (entries s) eqn:E.
    + right; right; right. simpl. exact E.
    + right; right; left. split; reflexivity.
Qed.

Lemma nth_error_removelast {A} (l : list A) (i : nat) :
  (i < length (removelast l))%nat -> nth_error (removelast l) i = nth_error l i.
Proof.
  revert i. induction l as [|a l IH]; intros i H; [reflexivity|].
  destruct l as [|b l]; [simpl in H; lia|].
  destruct i as [|i]; [reflexivity|].
  change (removelast (a :: b :: l)) with (a :: removelast (b :: l)) in *.
  simpl in H. simpl. apply IH. simpl. lia.
Qed.

(** C6 (as the code has it): over every sequence of operations, an
    operation leaves the entries as they are, appends one entry, clears them
    all, or -- [undo_last] -- removes the last one; an entry that stays keeps
    its position and its contents. *)
Theorem audit_trail_changes (s : AuditLogger) (before : list op) (o : op) :
  let old := entries (run s before) in
  let new := entries (run s (before ++ [o])) in
  ((exists e, new = old ++ [e])
   \/ new = []
   \/ (o = UndoLast /\ new = removelast old)
   \/ new = old)
  /\ (forall i : nat, (i < length new)%nat -> (i < length old)%nat ->
      nth_error new i = nth_error old i).
Proof.
  intros old new.
  assert (Hnew : new = entries (step (run s before) o)).
  { unfold new, run. rewrite fold_left_app. reflexivity. }
  rewrite Hnew. fold old.
  pose proof (step_entries (run s before) o) as H. fold old in H.
  split; [exact H|].
  intros i Hi Ho.
  destruct H as [[e H] | [H | [[_ H] | H]]]; rewrite H in *.
  - rewrite nth_error_app1 by exact Ho. reflexivity.
  - simpl in Hi. lia.
  - apply nth_error_removelast. exact Hi.
  - reflexivity.
Qed.

(** C6 as stated fails: after two entries are logged, [undo_last] leaves
    the first and removes the second, which is neither an append nor a bulk
    clear. *)
Lemma undo_last_removes_one_entry :
  let s2 := run (init None "09:00")
              [Log "09:01" "impute" [] "system"; Log "09:02" "recode" [] "system"] in
  let s3 := step s2 UndoLast in
  map action (entries s2) = ["impute"; "recode"]
  /\ map action (entries s3) = ["impute"]
  /\ entries s3 <> []
  /\ entries s3 <> entries s2
  /\ (forall e, entries s3 <> entries s2 ++ [e]).
Proof.
  cbv zeta. repeat split; try discriminate.
Qed.

End AuditFacts.

(** ** The narrative requestor *)

(** C7: with both API keys empty, [interpret] returns the record with
    [success = False] and the fixed template text, whatever the prompt and
    whatever the HTTP layer would do: no request is attempted, and
    [interpret] is a total function, the handlers around the two provider
    calls leave no exception to the caller. *)
Theorem interpret_without_keys_is_fallback (R : Interpreter.Requests)
    (system_prompt : string) (self : Interpreter.AIInterpreter)
    (prompt : string) (use_system_prompt : bool) :
  Interpreter.deepseek_api_key self = "" ->
  Interpreter.gemini_api_key self = "" ->
  Interpreter.interpret system_prompt self prompt use_system_prompt
  = VDict [
      ("success", VBool false);
      ("interpretation", VStr Interpreter._generate_fallback_interpretation);
      ("model", VStr "fallback-template");
      ("error", VStr "Both AI services unavailable. Using template response.") ].
Proof.
  intros Hd Hg.
  unfold Interpreter.interpret, Interpreter._call_deepseek, Interpreter._call_gemini.
  rewrite Hd, Hg. reflexivity.
Qed.

Lemma interpret_without_keys_is_fallback_witness :
  Interpreter.interpret (R := Sample.always_answers) "system" (Interpreter.init "" "") "prompt" true
  = VDict [
      ("success", VBool false);
      ("interpretation", VStr Interpreter._generate_fallback_interpretation);
      ("model", VStr "fallback-template");
      ("error", VStr "Both AI services unavailable. Using template response.") ].
Proof.
  apply (interpret_without_keys_is_fallback Sample.always_answers "system"
           (Interpreter.init "" "") "prompt" true); reflexivity.
Defined.

(** With a key the same layer is asked, DeepSeek first, Gemini when only its
    key is set. *)
Example interpret_with_a_key :
  field "model" (Interpreter.interpret (R := Sample.always_answers) "system"
                   (Interpreter.init "key" "") "prompt" true)
  = Some (VStr "deepseek-reasoner")
  /\ field "model" (Interpreter.interpret (R := Sample.always_answers) "system"
                      (Interpreter.init "" "key") "prompt" true)
     = Some (VStr "gemini-flash").
Proof. split; vm_compute; reflexivity. Qed.

(** ** The version store *)

Module VersionFacts.
Import Versions.

Lemma fresh_not_allocated (h : heap) : h !! fresh (dom h) = None.
Proof. apply not_elem_of_dom. apply is_fresh. Qed.

Lemma copy_spec (h : heap) (l : loc) (c : DataFrame) :
  h !! l = Some c ->
  exists l', copy h l = Ok (<[l' := c]> h, l') /\ h !! l' = None /\ l' <> l.
Proof.
  intros H. exists (fresh (dom h)). unfold copy, deref. rewrite H. simpl.
  split; [reflexivity|]. split; [apply fresh_not_allocated|].
  intros E. pose proof (fresh_not_allocated h) as F. rewrite E, H in F. discriminate F.
Qed.

Lemma mutate_other (h : heap) (l l' : loc) (f : DataFrame -> DataFrame) :
  l <> l' -> mutate h l f !! l' = h !! l'.
Proof.
  intros Hne. unfold mutate. destruct (h !! l); [|reflexivity].
  apply lookup_insert_ne. exact Hne.
Qed.

(** C10: [save_version] stores the address of a copy of the frame it is
    given, so changing that frame in place afterwards leaves the stored
    snapshot as it was; [get_version] hands out the address of a copy of the
    snapshot, so changing what it returned leaves the snapshot as it was;
    and [get_version] of a name that was never saved is [None], with the
    heap untouched. *)
Theorem version_store_isolated (h : heap) (self : DataVersionManager) (df : loc)
    (contents : DataFrame) (name : string) (description : option string) (now : string) :
  h !! df = Some contents ->
  exists h1 self1 summary snapshot,
    save_version h self df name description now = Ok (h1, self1, summary)
    /\ data <$> (versions self1 !! name) = Some snapshot
    /\ snapshot <> df
    /\ h1 !! snapshot = Some contents
    /\ (forall f, mutate h1 df f !! snapshot = Some contents)
    /\ (forall (h' : heap) (self' : DataVersionManager) (v : version) (c : DataFrame)
               (version_name : string),
          versions self' !! version_name = Some v ->
          h' !! data v = Some c ->
          exists h2 got,
            get_version h' self' version_name = Ok (h2, Some got)
            /\ got <> data v
            /\ h2 !! got = Some c
            /\ (forall f, mutate h2 got f !! data v = Some c))
    /\ (forall (h' : heap) (self' : DataVersionManager) (version_name : string),
          versions self' !! version_name = None ->
          get_version h' self' version_name = Ok (h', None)).
Proof.
  intros Hdf.
  destruct (copy_spec h df contents Hdf) as (snap & Hcopy & Hfresh & Hne).
  assert (Hdf1 : (<[snap := contents]> h) !! df = Some contents).
  { rewrite lookup_insert_ne by exact Hne. exact Hdf. }
  eexists _, _, _, snap. split.
  { unfold save_version. rewrite Hcopy. simpl. unfold deref. rewrite Hdf1. simpl.
    reflexivity. }
  split. { simpl. rewrite lookup_insert_eq. reflexivity. }
  split. { exact Hne. }
  split. { apply lookup_insert_eq. }
  split.
  { intros f. rewrite mutate_other by (intros E; apply Hne; symmetry; exact E).
    apply lookup_insert_eq. }
  split.
  - intros h' self' v c version_name Hv Hc.
    destruct (copy_spec h' (data v) c Hc) as (got & Hcopy' & Hfresh' & Hne').
    exists (<[got := c]> h'), got. split.
    { unfold get_version. rewrite Hv, Hcopy'. reflexivity. }
    split. { exact Hne'. }
    split. { apply lookup_insert_eq. }
    intros f. rewrite mutate_other by exact Hne'.
    rewrite lookup_insert_ne by exact Hne'. exact Hc.
  - intros h' self' version_name Hv. unfold get_version. rewrite Hv. reflexivity.
Qed.

Lemma version_store_isolated_witness :
  exists h1 self1 summary snapshot,
    save_version {[1%positive := Sample.two_groups]} init 1%positive "raw" None "09:00"
      = Ok (h1, self1, summary)
    /\ data <$> (versions self1 !! "raw") = Some snapshot
    /\ snapshot <> 1%positive
    /\ h1 !! snapshot = Some Sample.two_groups
    /\ (forall f, mutate h1 1%positive f !! snapshot = Some Sample.two_groups)
    /\ (forall (h' : heap) (self' : DataVersionManager) (v : version) (c : DataFrame)
               (version_name : string),
          versions self' !! version_name = Some v ->
          h' !! data v = Some c ->
          exists h2 got,
            get_version h' self' version_name = Ok (h2, Some got)
            /\ got <> data v
            /\ h2 !! got = Some c
            /\ (forall f, mutate h2 got f !! data v = Some c))
    /\ (forall (h' : heap) (self' : DataVersionManager) (version_name : string),
          versions self' !! version_name = None ->
          get_version h' self' version_name = Ok (h', None)).
Proof.
  apply (version_store_isolated {[1%positive := Sample.two_groups]} init 1%positive
           Sample.two_groups "raw" None "09:00").
  apply lookup_singleton_eq.
Defined.

End VersionFacts.

(** ** The normality check *)

(** C8 (amended): on a series of numbers with exactly two values that are not missing,
    [check_normality] runs neither test (Shapiro-Wilk needs 3 to 5000 values,
    D'Agostino-Pearson at least 20): the record it returns is not an error,
    its ['tests'] dictionary is empty, and the ['normal'] conclusion is
    [None]. *)
Theorem check_normality_two_values (L : Lib) (alpha : float) (data : list cell)
    (variable_name : option string) :
  forallb (fun c => negb (is_str c)) data = true ->
  len (List.filter (fun c => negb (isna c)) data) = 2 ->
  let r := check_normality alpha data variable_name in
  has_key "error" r = false
  /\ field "sample_size" r = Some (VInt 2)
  /\ field "tests" r = Some (VDict [])
  /\ field_path ["conclusion"; "normal"] r = Some VNone.
Proof.
  intros Hnum Hn r. unfold r, check_normality, check_normality_body.
  rewrite Hn. cbn [Z.leb Z.compare Pos.compare Pos.compare_cont andb].
  cbn [bind ret].
  assert (Hfl : exists xs, as_floats (List.filter (fun c => negb (isna c)) data) = Ok xs).
  { clear Hn r. induction data as [|c data IH]; [exists []; reflexivity|].
    simpl in Hnum. apply andb_true_iff in Hnum as [Hc Hrest].
    destruct (IH Hrest) as [xs Hxs]. simpl.
    destruct (negb (isna c)); [|exists xs; exact Hxs].
    unfold as_floats in *. simpl. rewrite Hxs.
    destruct c as [x | s |]; simpl in *; try discriminate; eexists; reflexivity. }
  destruct Hfl as [xs Hxs]. rewrite Hxs. cbn.
  repeat split.
Qed.

(** C8, as stated, fails on a series of two texts: both are values that
    are not missing, yet pandas cannot take the skewness of text
    ([data.skew()] converts to float), and the handler answers with an error
    record, which has no ['tests'] and no ['conclusion']. *)
Lemma check_normality_of_two_texts :
  let data := [Str "low"; Str "high"] in
  let r := check_normality (L := Sample.lib) 0.05%float data None in
  len (List.filter (fun c => negb (isna c)) data) = 2
  /\ r = error_record "could not convert string to float: 'low'"
  /\ has_key "error" r = true
  /\ field "tests" r = None
  /\ field_path ["conclusion"; "normal"] r = None.
Proof. cbv zeta. repeat split; vm_compute; reflexivity. Qed.

(** With twenty values both tests run and the conclusion is their
    conjunction. *)
Example check_normality_of_twenty :
  let r := check_normality (L := Sample.lib) 0.05%float
             (map (fun n => Num (Float.of_Z (Z.of_nat n))) (seq 1 20)) None in
  field "sample_size" r = Some (VInt 20)
  /\ option_map (fun t => has_key "shapiro_wilk" t && has_key "dagostino_pearson" t)
       (field "tests" r) = Some true
  /\ field_path ["conclusion"; "normal"] r = Some (VBool true).
Proof. cbv zeta. repeat split; vm_compute; reflexivity. Qed.

Lemma check_normality_two_values_witness :
  let r := check_normality (L := Sample.lib) 0.05%float
             [Num 1.5%float; Null; Num 2.5%float] (Some "score") in
  has_key "error" r = false
  /\ field "sample_size" r = Some (VInt 2)
  /\ field "tests" r = Some (VDict [])
  /\ field_path ["conclusion"; "normal"] r = Some VNone.
Proof.
  apply (check_normality_two_values Sample.lib 0.05%float
           [Num 1.5%float; Null; Num 2.5%float] (Some "score")).
  - vm_compute. reflexivity.
  - vm_compute. reflexivity.
Defined.

(** ** Frames with a grouping and an outcome column *)

Ltac inv_bind H :=
  repeat match type of H with
         | bind _ _ = Ok _ =>
             let a := fresh "a" in
             let Ha := fresh "Ha" in
             apply bind_ok in H as (a & Ha & H)
         end.

Lemma getitems_two (df : DataFrame) (g o : string) (sel : DataFrame) :
  getitems df [g; o] = Ok sel ->
  exists i j,
    index_of g (columns df) = Some i /\ index_of o (columns df) = Some j
    /\ sel = {| columns := [g; o];
                rows := map (fun r => [cell_at r i; cell_at r j]) (rows df) |}.
Proof.
  unfold getitems, column_index. simpl.
  destruct (index_of g (columns df)) as [i|]; [|discriminate].
  destruct (index_of o (columns df)) as [j|]; [|discriminate].
  simpl. intros H. injection H as <-. exists i, j. repeat split.
Qed.

Lemma dropna_two (df : DataFrame) (g o : string) (i j : nat) :
  index_of g (columns df) = Some i -> index_of o (columns df) = Some j ->
  dropna {| columns := [g; o];
            rows := map (fun r => [cell_at r i; cell_at r j]) (rows df) |}
  = {| columns := [g; o]; rows := map pair_row (complete_pairs df g o) |}.
Proof.
  intros Hi Hj. unfold dropna, complete_pairs. rewrite Hi, Hj. simpl. f_equal.
  induction (rows df) as [|r rs IH]; [reflexivity|].
  simpl. rewrite andb_true_r.
  destruct (negb (isna (cell_at r i)) && negb (isna (cell_at r j))); simpl; rewrite IH;
    reflexivity.
Qed.

Lemma getitem_group (g o : string) (ps : list (cell * cell)) (s : list cell) :
  getitem {| columns := [g; o]; rows := map pair_row ps |} g = Ok s ->
  String.eqb g o = false /\ s = map fst ps.
Proof.
  unfold getitem, column_index. simpl. rewrite String.eqb_refl.
  destruct (String.eqb g o) eqn:E; [discriminate|].
  simpl. intros H. injection H as <-. split; [reflexivity|].
  rewrite map_map. reflexivity.
Qed.

Lemma filter_pair_rows (k : cell) (ps : list (cell * cell)) :
  map (fun r => cell_at r 1) (List.filter (fun r => cell_eqb (cell_at r 0) k) (map pair_row ps))
  = map snd (List.filter (fun p => cell_eqb (fst p) k) ps).
Proof.
  induction ps as [|p ps IH]; [reflexivity|].
  cbn [map List.filter]. change (cell_at (pair_row p) 0) with (fst p).
  destruct (cell_eqb (fst p) k); cbn [map]; rewrite <- IH; reflexivity.
Qed.

Lemma group_series_two (g o : string) (ps : list (cell * cell)) (k : cell) :
  String.eqb g o = false ->
  group_series {| columns := [g; o]; rows := map pair_row ps |} g o k
  = Ok (map snd (List.filter (fun p => cell_eqb (fst p) k) ps)).
Proof.
  intros E. rewrite <- filter_pair_rows.
  assert (E' : String.eqb o g = false) by (rewrite String.eqb_sym; exact E).
  unfold group_series, where_eq, getitem, column_index.
  cbn [columns rows List.filter index_of bind ret option_map].
  rewrite !String.eqb_refl, ?E, ?E'.
  cbn [columns rows List.filter index_of bind ret option_map].
  rewrite !String.eqb_refl, ?E, ?E'.
  cbn [columns rows List.filter index_of bind ret option_map].
  reflexivity.
Qed.

Lemma as_floats_length (s : list cell) (xs : list float) :
  as_floats s = Ok xs -> len xs = len s.
Proof. intros H. unfold len. f_equal. eapply mapM_length. exact H. Qed.

(** ** The two-sample test *)

Section TTestFacts.

Context (L : Lib) (alpha : float).

Lemma ttest_independent_continue (g o : string) (ps : list (cell * cell))
    (loc : ttest_locals) :
  ttest_independent alpha {| columns := [g; o]; rows := map pair_row ps |} g o
  = Ok (Continue loc) ->
  branch_facts alpha false ps loc.
Proof.
  unfold ttest_independent. intros H.
  apply bind_ok in H as (gcol & Hg & H).
  apply getitem_group in Hg as [E ->].
  destruct (unique (map fst ps)) as [|a [|b [|c l]]] eqn:U;
    try (unfold ret in H; discriminate H).
  rewrite !group_series_two in H by exact E.
  cbn [bind] in H.
  apply bind_ok in H as (x1 & H1 & H).
  apply bind_ok in H as (x2 & H2 & H).
  apply bind_ok in H as ([ls lp] & Hlev & H).
  apply bind_ok in H as ([t p] & Ht & H).
  injection H as <-.
  exists a, b, x1, x2. cbn [tt_groups tt_group1_data tt_group2_data tt_levene tt_test_type
                             tt_t_stat tt_p_value].
  repeat (split; [first [reflexivity | assumption]|]).
  exists ls, lp. repeat (split; [first [reflexivity | assumption]|]).
  destruct (Float.gtb lp alpha); reflexivity.
Qed.

Lemma ttest_paired_continue (g o : string) (ps : list (cell * cell))
    (loc : ttest_locals) :
  ttest_paired {| columns := [g; o]; rows := map pair_row ps |} g o = Ok (Continue loc) ->
  branch_facts alpha true ps loc.
Proof.
  unfold ttest_paired. intros H.
  apply bind_ok in H as (gcol & Hg & H).
  apply getitem_group in Hg as [E ->].
  destruct (unique (map fst ps)) as [|a [|b [|c l]]] eqn:U;
    try (unfold ret in H; discriminate H).
  rewrite !group_series_two in H by exact E.
  cbn [bind] in H.
  destruct (negb _) in H; [unfold ret in H; discriminate H|].
  apply bind_ok in H as (x1 & H1 & H).
  apply bind_ok in H as (x2 & H2 & H).
  apply bind_ok in H as ([t p] & Ht & H).
  injection H as <-.
  exists a, b, x1, x2. cbn [tt_groups tt_group1_data tt_group2_data tt_levene].
  repeat (split; [first [reflexivity | assumption]|]). reflexivity.
Qed.

Lemma ttest_branch_return_is_error (paired : bool) (df_clean : DataFrame) (g o : string)
    (v : value) :
  (if paired then ttest_paired df_clean g o else ttest_independent alpha df_clean g o)
  = Ok (Return v) ->
  exists msg, v = error_record msg.
Proof.
  destruct paired; unfold ttest_paired, ttest_independent; intros H;
    apply bind_ok in H as (gcol & Hg & H);
    destruct (unique gcol) as [|a [|b [|c l]]];
    try (injection H as <-; eexists; reflexivity).
  - apply bind_ok in H as (c1 & H1 & H).
    apply bind_ok in H as (c2 & H2 & H).
    destruct (negb _) in H; [injection H as <-; eexists; reflexivity|].
    apply bind_ok in H as (x1 & Hx1 & H).
    apply bind_ok in H as (x2 & Hx2 & H).
    apply bind_ok in H as ([t p] & Ht & H). discriminate H.
  - apply bind_ok in H as (c1 & H1 & H).
    apply bind_ok in H as (c2 & H2 & H).
    apply bind_ok in H as (x1 & Hx1 & H).
    apply bind_ok in H as (x2 & Hx2 & H).
    apply bind_ok in H as ([ls lp] & Hl & H).
    apply bind_ok in H as ([t p] & Ht & H). discriminate H.
Qed.

(** A run of [run_ttest] that does not end in an error record went through
    one branch and the report. *)
Lemma run_ttest_success (df : DataFrame) (g o : string) (paired : bool) :
  has_key "error" (run_ttest alpha df g o paired) = false ->
  exists loc,
    branch_facts alpha paired (complete_pairs df g o) loc
    /\ ttest_report alpha g o paired loc = Ok (run_ttest alpha df g o paired).
Proof.
  unfold run_ttest. intros Hk.
  destruct (run_ttest_body alpha df g o paired) as [r|e] eqn:Hbody;
    [|discriminate Hk].
  cbn [try_except] in *.
  unfold run_ttest_body in Hbody.
  apply bind_ok in Hbody as (sel & Hsel & Hbody).
  apply getitems_two in Hsel as (i & j & Hi & Hj & ->).
  rewrite (dropna_two df g o i j Hi Hj) in Hbody.
  apply bind_ok in Hbody as ([v|loc] & Hbranch & Hbody).
  - injection Hbody as <-.
    apply ttest_branch_return_is_error in Hbranch as [msg ->]. discriminate Hk.
  - exists loc. split; [|exact Hbody].
    destruct paired.
    + apply ttest_paired_continue in Hbranch. exact Hbranch.
    + apply ttest_independent_continue in Hbranch. exact Hbranch.
Qed.

Lemma ttest_report_fields (g o : string) (paired : bool) (loc : ttest_locals) (r : value) :
  ttest_report alpha g o paired loc = Ok r ->
  field "test_type" r = Some (VStr (tt_test_type loc))
  /\ field "test_statistic" r = Some (VRound (tt_t_stat loc) 4)
  /\ field "p_value" r = Some (VRound (tt_p_value loc) 4)
  /\ field "degrees_of_freedom" r
     = Some (VInt (len (tt_group1_data loc) + len (tt_group2_data loc) - 2))
  /\ field_path ["assumptions"; "equal_variance"] r
     = Some (VDict [
         ("levene_stat",
           if negb paired then
             match tt_levene loc with Some (s, _, _) => VRound s 4 | None => VNone end
           else VNone);
         ("p_value",
           if negb paired then
             match tt_levene loc with Some (_, p, _) => VRound p 4 | None => VNone end
           else VNone);
         ("equal",
           if negb paired then
             match tt_levene loc with Some (_, _, e) => VBool e | None => VNone end
           else VNone) ]).
Proof.
  unfold ttest_report. destruct (tt_groups loc) as [g0 g1]. intros H.
  apply bind_ok in H as (d_ci & Hci & H).
  apply bind_ok in H as (n1 & Hn1 & H).
  apply bind_ok in H as (n2 & Hn2 & H).
  injection H as <-. repeat split.
Qed.

End TTestFacts.

(** C2: in the independent two-sample test the variant is chosen by
    Levene's test on the two groups: the statistic is computed with pooled
    variances exactly when Levene's p-value exceeds alpha, and Welch's
    variant otherwise; the record names the variant in ['test_type'] and
    carries Levene's statistic, its p-value and the verdict in
    ['assumptions']['equal_variance']. *)
Theorem ttest_variant_chosen_by_levene (L : Lib) (alpha : float) (df : DataFrame)
    (group_var outcome_var : string) :
  has_key "error" (run_ttest alpha df group_var outcome_var false) = false ->
  exists a b x1 x2 levene_stat levene_p t_stat p_value,
    group_values df group_var outcome_var = [a; b]
    /\ as_floats (group_outcomes df group_var outcome_var a) = Ok x1
    /\ as_floats (group_outcomes df group_var outcome_var b) = Ok x2
    /\ levene [x1; x2] = Ok (levene_stat, levene_p)
    /\ ttest_ind x1 x2 (Float.gtb levene_p alpha) = Ok (t_stat, p_value)
    /\ let r := run_ttest alpha df group_var outcome_var false in
       field "test_type" r
       = Some (VStr (if Float.gtb levene_p alpha then "Independent Samples t-test"
                     else "Independent Samples t-test (Welch's)"))
       /\ field "test_statistic" r = Some (VRound t_stat 4)
       /\ field "p_value" r = Some (VRound p_value 4)
       /\ field_path ["assumptions"; "equal_variance"] r
          = Some (VDict [
              ("levene_stat", VRound levene_stat 4);
              ("p_value", VRound levene_p 4);
              ("equal", VBool (Float.gtb levene_p alpha)) ]).
Proof.
  intros Hk.
  apply run_ttest_success in Hk as (loc & Hb & Hr).
  destruct Hb as (a & b & x1 & x2 & U & H1 & H2 & _ & Hg1 & Hg2 & ls & lp & Hl & Ht & Hlev & Hty).
  apply ttest_report_fields in Hr as (F1 & F2 & F3 & _ & F5).
  exists a, b, x1, x2, ls, lp, (tt_t_stat loc), (tt_p_value loc).
  repeat (split; [assumption|]). cbv zeta.
  rewrite F1, F2, F3, F5, Hty, Hlev. repeat split.
Qed.

Lemma ttest_variant_chosen_by_levene_witness :
  exists a b x1 x2 levene_stat levene_p t_stat p_value,
    group_values Sample.two_groups "group" "score" = [a; b]
    /\ as_floats (group_outcomes Sample.two_groups "group" "score" a) = Ok x1
    /\ as_floats (group_outcomes Sample.two_groups "group" "score" b) = Ok x2
    /\ levene (Lib := Sample.lib) [x1; x2] = Ok (levene_stat, levene_p)
    /\ ttest_ind (Lib := Sample.lib) x1 x2 (Float.gtb levene_p 0.05) = Ok (t_stat, p_value)
    /\ let r := run_ttest (L := Sample.lib) 0.05 Sample.two_groups "group" "score" false in
       field "test_type" r
       = Some (VStr (if Float.gtb levene_p 0.05 then "Independent Samples t-test"
                     else "Independent Samples t-test (Welch's)"))
       /\ field "test_statistic" r = Some (VRound t_stat 4)
       /\ field "p_value" r = Some (VRound p_value 4)
       /\ field_path ["assumptions"; "equal_variance"] r
          = Some (VDict [
              ("levene_stat", VRound levene_stat 4);
              ("p_value", VRound levene_p 4);
              ("equal", VBool (Float.gtb levene_p 0.05)) ]).
Proof.
  apply (ttest_variant_chosen_by_levene Sample.lib 0.05 Sample.two_groups "group" "score").
  vm_compute. reflexivity.
Defined.

(** Whenever [run_ttest] returns a result (independent or paired, with
    pooled variances or Welch's variant), the grouping column has exactly
    two values [a] and [b] over the rows that are complete, and the record
    reports [n1 + n2 - 2] degrees of freedom, [n1] and [n2] being the numbers
    of complete rows in group [a] and in group [b]. *)
Lemma ttest_degrees_when_returned (L : Lib) (alpha : float) (df : DataFrame)
    (group_var outcome_var : string) (paired : bool) :
  has_key "error" (run_ttest alpha df group_var outcome_var paired) = false ->
  exists a b,
    group_values df group_var outcome_var = [a; b]
    /\ field "degrees_of_freedom" (run_ttest alpha df group_var outcome_var paired)
       = Some (VInt (group_size df group_var outcome_var a
                     + group_size df group_var outcome_var b - 2)).
Proof.
  intros Hk.
  apply run_ttest_success in Hk as (loc & Hb & Hr).
  destruct Hb as (a & b & x1 & x2 & U & H1 & H2 & _ & Hg1 & Hg2 & _).
  apply ttest_report_fields in Hr as (_ & _ & _ & F4 & _).
  exists a, b. split; [exact U|].
  rewrite F4, Hg1, Hg2.
  rewrite (as_floats_length _ _ H1), (as_floats_length _ _ H2). reflexivity.
Qed.

(** ** The association test *)

Lemma getitem_outcome (g o : string) (ps : list (cell * cell)) :
  String.eqb g o = false ->
  getitem {| columns := [g; o]; rows := map pair_row ps |} o = Ok (map snd ps).
Proof.
  intros E.
  assert (E' : String.eqb o g = false) by (rewrite String.eqb_sym; exact E).
  unfold getitem, column_index. simpl. rewrite String.eqb_refl, E'. simpl.
  rewrite map_map. reflexivity.
Qed.

Lemma run_chisquare_body_table (L : Lib) (alpha : float) (df : DataFrame)
    (var1 var2 : string) (i j : nat) :
  String.eqb var1 var2 = false ->
  index_of var1 (columns df) = Some i ->
  index_of var2 (columns df) = Some j ->
  run_chisquare_body alpha df var1 var2
  = chisquare_report alpha var1 var2
      (crosstab (map fst (complete_pairs df var1 var2))
                (map snd (complete_pairs df var1 var2))).
Proof.
  intros E Hi Hj. unfold run_chisquare_body, getitems, column_index.
  cbn [mapM bind ret]. rewrite Hi, Hj. cbn [mapM bind ret].
  change (map (fun r : list cell => map (cell_at r) [i; j]) (rows df))
    with (map (fun r => [cell_at r i; cell_at r j]) (rows df)).
  rewrite (dropna_two df var1 var2 i j Hi Hj).
  rewrite getitem_outcome by exact E.
  destruct (getitem _ var1) as [s|e] eqn:Hg.
  - apply getitem_group in Hg as [_ ->]. reflexivity.
  - unfold getitem, column_index in Hg. simpl in Hg.
    rewrite String.eqb_refl, E in Hg. simpl in Hg. discriminate Hg.
Qed.

Lemma chisquare_report_diagonal (L : Lib) (alpha : float) (var1 var2 : string)
    (t : crosstab_t) :
  ct_counts t = [[10; 0]; [0; 10]] ->
  shape t = (2, 2) ->
  exists r,
    chisquare_report alpha var1 var2 t = Ok r
    /\ field "test_type" r = Some (VStr "Chi-square Test of Independence")
    /\ field "degrees_of_freedom" r = Some (VInt 1)
    /\ float_at ["test_statistic"] r = Some 16.2%float
    /\ field "p_value" r = Some (VRound (chi2_sf 16.2%float 1) 4)
    /\ float_at ["effect_size"; "cramers_v"] r = Some 0.9%float
    /\ field_path ["effect_size"; "interpretation"] r = Some (VStr "large")
    /\ field_path ["effect_size"; "odds_ratio"] r = Some VNone
    /\ float_at ["assumptions"; "expected_cell_counts"; "min_expected"] r = Some 5%float
    /\ field_path ["assumptions"; "expected_cell_counts"; "cells_below_5"] r
       = Some (VInt 0)
    /\ field_path ["assumptions"; "expected_cell_counts"; "fisher_recommended"] r
       = Some (VBool false).
Proof.
  intros Hc Hs. unfold chisquare_report. rewrite Hc, Hs.
  assert (Hchi : chi2_contingency [[10; 0]; [0; 10]]
                 = Ok (16.2%float, chi2_sf 16.2%float 1, 1, [[5; 5]; [5; 5]]%float)).
  { vm_compute. reflexivity. }
  rewrite Hchi. cbn [bind]. eexists. split; [reflexivity|].
  repeat split; vm_compute; reflexivity.
Qed.

Lemma crosstab_shape (a b : list cell) (n m : nat) (c : list (list Z)) :
  ct_counts (crosstab a b) = c ->
  length c = n -> Forall (fun r => length r = m) c -> (0 < n)%nat ->
  shape (crosstab a b) = (Z.of_nat n, Z.of_nat m).
Proof.
  unfold crosstab, shape, len. cbn [ct_counts ct_index ct_columns].
  intros <- Hn Hm Hpos. rewrite length_map in Hn. rewrite Hn. f_equal. f_equal.
  destruct (sort_cells (unique a)) as [|x xs]; [simpl in Hn; lia|].
  cbn [map] in Hm. apply Forall_cons_iff in Hm as [Hm _].
  rewrite length_map in Hm. exact Hm.
Qed.

(** C4 (amended): on the contingency table [[10, 0], [0, 10]] every
    expected count is exactly 5, so none is below 5 and Fisher's test is not
    substituted: the record reports the chi-square test of independence.
    Its p-value is the chi-square probability beyond the statistic of this
    table, 16.2 at one degree of freedom, which is extremely small (5.7e-5:
    below 0.0001 in every library that has the distribution right), and the
    effect size reads 'large'. *)
Theorem chisquare_diagonal_table (L : Lib) (alpha : float) (df : DataFrame)
    (var1 var2 : string) :
  String.eqb var1 var2 = false ->
  is_Some (index_of var1 (columns df)) ->
  is_Some (index_of var2 (columns df)) ->
  contingency_counts df var1 var2 = [[10; 0]; [0; 10]] ->
  PrimFloat.ltb (chi2_sf 16.2%float 1) 0.0001 = true ->
  let r := run_chisquare alpha df var1 var2 in
  field "test_type" r = Some (VStr "Chi-square Test of Independence")
  /\ float_at ["assumptions"; "expected_cell_counts"; "min_expected"] r = Some 5%float
  /\ field_path ["assumptions"; "expected_cell_counts"; "cells_below_5"] r = Some (VInt 0)
  /\ field_path ["assumptions"; "expected_cell_counts"; "fisher_recommended"] r
     = Some (VBool false)
  /\ (exists p, field "p_value" r = Some (VRound p 4) /\ PrimFloat.ltb p 0.0001 = true)
  /\ field_path ["effect_size"; "interpretation"] r = Some (VStr "large").
Proof.
  intros E [i Hi] [j Hj] Hc Hp r. unfold r, run_chisquare.
  rewrite (run_chisquare_body_table L alpha df var1 var2 i j E Hi Hj).
  unfold contingency_counts in Hc. cbv zeta in Hc.
  destruct (chisquare_report_diagonal L alpha var1 var2 _ Hc)
    as (r' & Hr & T & _ & _ & P & _ & I & _ & M & B & F).
  { apply (crosstab_shape _ _ 2 2 _ Hc); [reflexivity | repeat constructor | lia]. }
  rewrite Hr. cbn [try_except].
  split; [exact T|]. split; [exact M|]. split; [exact B|]. split; [exact F|].
  split; [|exact I]. eexists. split; [exact P|exact Hp].
Qed.

Lemma chisquare_diagonal_table_witness :
  let r := run_chisquare (L := Fixtures.guarded_lib) 0.05 Sample.diagonal_20
             "exposure" "outcome" in
  (field "test_type" r = Some (VStr "Chi-square Test of Independence")
   /\ float_at ["assumptions"; "expected_cell_counts"; "min_expected"] r = Some 5%float
   /\ field_path ["assumptions"; "expected_cell_counts"; "cells_below_5"] r = Some (VInt 0)
   /\ field_path ["assumptions"; "expected_cell_counts"; "fisher_recommended"] r
      = Some (VBool false)
   /\ (exists p, field "p_value" r = Some (VRound p 4) /\ PrimFloat.ltb p 0.0001 = true)
   /\ field_path ["effect_size"; "interpretation"] r = Some (VStr "large"))
  /\ float_at ["p_value"] r = Some 0.0001%float
  /\ field "significant" r = Some (VBool true).
Proof.
  cbv zeta. split; [|split; vm_compute; reflexivity].
  apply (chisquare_diagonal_table Fixtures.guarded_lib 0.05 Sample.diagonal_20
           "exposure" "outcome").
  - reflexivity.
  - eexists. reflexivity.
  - eexists. reflexivity.
  - vm_compute. reflexivity.
  - vm_compute. reflexivity.
Defined.

(** C4 as stated fails: on the frame whose contingency table is
    [[10, 0], [0, 10]] the test reported is not Fisher's exact test, and
    Cramer's V is 0.9, not 1.0. *)
Lemma chisquare_diagonal_not_fisher :
  let r := run_chisquare (L := Sample.lib) 0.05 Sample.diagonal_20 "exposure" "outcome" in
  contingency_counts Sample.diagonal_20 "exposure" "outcome" = [[10; 0]; [0; 10]]
  /\ field "test_type" r = Some (VStr "Chi-square Test of Independence")
  /\ field "test_type" r <> Some (VStr "Fisher's Exact Test")
  /\ float_at ["effect_size"; "cramers_v"] r = Some 0.9%float
  /\ float_at ["effect_size"; "cramers_v"] r <> Some 1%float.
Proof.
  cbv zeta. repeat split; try (vm_compute; reflexivity).
  - vm_compute. intros H. discriminate H.
  - intros H.
    apply (f_equal (fun o => match o with
                             | Some x => PrimFloat.eqb x 1
                             | None => false
                             end)) in H.
    vm_compute in H. discriminate H.
Qed.

(** ** The shape of every result record *)

Lemma forallb_dict_set (Q : string * value -> bool) (d : list (string * value))
    (k : string) (v : value) :
  forallb Q d = true -> Q (k, v) = true -> forallb Q (dict_set d k v) = true.
Proof.
  intros Hd Hkv. induction d as [|[k' v'] d IH]; simpl.
  - rewrite Hkv. reflexivity.
  - simpl in Hd. apply andb_true_iff in Hd as [H1 H2].
    destruct (String.eqb k k') eqn:E; simpl.
    + apply String.eqb_eq in E. subst k'. rewrite Hkv. exact H2.
    + rewrite H1. apply IH. exact H2.
Qed.

Lemma forallb_mkdict (Q : string * value -> bool) (kvs : list (string * value)) :
  forallb Q kvs = true -> forallb Q (mkdict kvs) = true.
Proof.
  unfold mkdict. intros H.
  assert (G : forall d, forallb Q d = true ->
                        forallb Q (fold_left (fun d kv => dict_set d (fst kv) (snd kv)) kvs d)
                        = true).
  { induction kvs as [|[k v] kvs IH]; intros d Hd; [exact Hd|].
    simpl in H. apply andb_true_iff in H as [H1 H2]. simpl.
    apply IH; [exact H2|]. apply forallb_dict_set; assumption. }
  apply G. reflexivity.
Qed.

Lemma forallb_map_true {A B} (Q : B -> bool) (f : A -> B) (l : list A) :
  (forall a, Q (f a) = true) -> forallb Q (map f l) = true.
Proof.
  intros H. induction l as [|a l IH]; [reflexivity|].
  simpl. rewrite H, IH. reflexivity.
Qed.

Lemma mapM_forallb {A B} (Q : B -> bool) (f : A -> result B) (l : list A) (bs : list B) :
  (forall a, post (fun b => Q b = true) (f a)) -> mapM f l = Ok bs -> forallb Q bs = true.
Proof.
  intros Hf H. apply (mapM_post _ _ _ _ Hf) in H.
  induction H as [|b bs Hb _ IH]; [reflexivity|].
  simpl. rewrite Hb, IH. reflexivity.
Qed.

Lemma table_to_dict_leaves {A} (ok : list string -> value -> bool) (path : list string)
    (index cols : list cell) (L : Lib) (m : list (list A)) (leaf : A -> value) (dflt : A) :
  (forall c r a, all_leaves ok ((path ++ [c]) ++ [r]) (leaf a) = true) ->
  all_leaves ok path (table_to_dict index cols m leaf dflt) = true.
Proof.
  intros H. unfold table_to_dict. cbn [all_leaves].
  apply forallb_mkdict. apply forallb_map_true. intros [j c]. cbn [fst snd all_leaves].
  apply forallb_mkdict. apply forallb_map_true. intros [row r]. cbn [fst snd].
  apply H.
Qed.

Lemma sound_error (msg : string) : sound (error_record msg).
Proof. split; [left; exists msg; reflexivity | reflexivity]. Qed.

Ltac post_step :=
  lazymatch goal with
  | |- post _ (bind _ _) =>
      let a := fresh "a" in
      let Ha := fresh "Ha" in
      apply post_bind; intros a Ha
  | |- post _ (ret (error_record _)) => apply post_ret; apply sound_error
  | |- post _ (Raise _) => exact I
  | |- post _ (match ?x with _ => _ end) => destruct x
  end.

Ltac post_steps := repeat post_step.

Ltac leaves_step :=
  match goal with
  | |- true = true => reflexivity
  | |- (_ && _)%bool = true => apply andb_true_intro; split
  | |- forallb _ (mkdict _) = true => apply forallb_mkdict
  | |- forallb _ (map _ _) = true => apply forallb_map_true; intros ?
  | |- all_leaves _ _ (table_to_dict _ _ _ _ _) = true =>
      apply table_to_dict_leaves; intros; reflexivity
  | H : forallb ?Q ?l = true |- forallb ?Q ?l = true => exact H
  | H : forallb (all_leaves ?ok ?p) ?l = true |- all_leaves ?ok ?p (VList ?l) = true =>
      exact H
  | |- all_leaves ?ok ?p (VList (map ?f ?l)) = true =>
      change (forallb (all_leaves ok p) (map f l) = true)
  | H : mapM _ _ = Ok ?l |- forallb _ ?l = true =>
      eapply mapM_forallb; [|exact H]; intros ?; cbv beta; post_steps; apply post_ret
  | |- all_leaves _ _ (match ?x with _ => _ end) = true => destruct x
  | |- all_leaves _ _ (if ?b then _ else _) = true => destruct b
  | |- _ = true => reflexivity
  end.

Ltac finish_leaves := cbn -[mkdict table_to_dict]; repeat leaves_step.

Ltac finish_record :=
  apply post_ret; split;
  [ right; eexists; split; reflexivity | finish_leaves ].

Section RecordShapes.

Context (L : Lib) (alpha : float).

Lemma run_ttest_body_sound (df : DataFrame) (g o : string) (paired : bool) :
  post sound (run_ttest_body alpha df g o paired).
Proof.
  unfold run_ttest_body. post_steps.
  - apply post_ret.
    destruct (ttest_branch_return_is_error L alpha paired _ _ _ _ Ha0) as [msg ->].
    apply sound_error.
  - unfold ttest_report. destruct (tt_groups _) as [g0 g1]. post_steps.
    finish_record.
Qed.

Lemma run_anova_body_sound (df : DataFrame) (g o : string) :
  post sound (run_anova_body alpha df g o).
Proof. unfold run_anova_body. post_steps. finish_record. Qed.

Lemma run_correlation_body_sound (df : DataFrame) (var1 var2 method : string) :
  post sound (run_correlation_body alpha df var1 var2 method).
Proof. unfold run_correlation_body. post_steps. finish_record. Qed.

Lemma run_mannwhitney_body_sound (df : DataFrame) (g o : string) :
  post sound (run_mannwhitney_body alpha df g o).
Proof. unfold run_mannwhitney_body. post_steps; finish_record. Qed.

Lemma run_kruskal_body_sound (df : DataFrame) (g o : string) :
  post sound (run_kruskal_body alpha df g o).
Proof. unfold run_kruskal_body. post_steps. finish_record. Qed.

Lemma linear_coefficient_leaves (model : fit) (X : DataFrame) (y : list float)
    (iv : nat * string) :
  post (fun v => all_leaves rounded_as_built ["coefficients"] v = true)
       (linear_coefficient alpha model X y iv).
Proof.
  unfold linear_coefficient. destruct iv as [i v]. post_steps.
  apply post_ret. finish_leaves.
Qed.

Lemma logistic_coefficient_leaves (model : fit) (iv : nat * string) :
  post (fun v => all_leaves rounded_as_built ["coefficients"] v = true)
       (logistic_coefficient alpha model iv).
Proof.
  unfold logistic_coefficient. destruct iv as [i v]. post_steps.
  apply post_ret. finish_leaves.
Qed.

Lemma vif_entry_leaves (Xf : list (string * list float)) (iv : nat * string) :
  post (fun v => all_leaves rounded_as_built ["multicollinearity"] v = true)
       (vif_entry Xf iv).
Proof.
  unfold vif_entry. destruct iv as [i v]. post_steps.
  apply post_ret. finish_leaves.
Qed.

Lemma run_linear_regression_body_sound (df : DataFrame) (outcome : string)
    (predictors : predictors_arg) :
  post sound (run_linear_regression_body alpha df outcome predictors).
Proof.
  unfold run_linear_regression_body. post_steps.
  match goal with
  | H : mapM (linear_coefficient _ _ _ _) _ = Ok ?l |- _ =>
      assert (Hcoef : forallb (all_leaves rounded_as_built ["coefficients"]) l = true)
        by (eapply mapM_forallb; [|exact H]; intros; apply linear_coefficient_leaves)
  end.
  match goal with
  | H : (if _ then mapM (vif_entry _) _ else ret []) = Ok ?l |- _ =>
      assert (Hvif : forallb (all_leaves rounded_as_built ["multicollinearity"]) l = true)
        by (destruct (1 <? _) in H;
            [ eapply mapM_forallb; [|exact H]; intros; apply vif_entry_leaves
            | injection H as <-; reflexivity ])
  end.
  finish_record.
Qed.

Lemma run_logistic_regression_body_sound (df : DataFrame) (outcome : string)
    (predictors : predictors_arg) :
  post sound (run_logistic_regression_body alpha df outcome predictors).
Proof.
  unfold run_logistic_regression_body. post_steps.
  match goal with
  | H : mapM (logistic_coefficient _ _) _ = Ok ?l |- _ =>
      assert (Hcoef : forallb (all_leaves rounded_as_built ["coefficients"]) l = true)
        by (eapply mapM_forallb; [|exact H]; intros; apply logistic_coefficient_leaves)
  end.
  finish_record.
Qed.

Lemma run_chisquare_body_sound (df : DataFrame) (var1 var2 : string) :
  post sound (run_chisquare_body alpha df var1 var2).
Proof.
  unfold run_chisquare_body, chisquare_report. post_steps; finish_record.
Qed.

End RecordShapes.

Lemma handled_try_except (L : Lib) (body : result value) :
  post sound body -> handled body (try_except body).
Proof.
  destruct body as [v|e]; simpl.
  - intros [Hw _]. split; [reflexivity | exact Hw].
  - intros _. reflexivity.
Qed.

Lemma rounded_try_except (L : Lib) (body : result value) :
  post sound body -> all_leaves rounded_as_built [] (try_except body) = true.
Proof.
  destruct body as [v|e]; simpl.
  - intros [_ Hr]. exact Hr.
  - intros _. reflexivity.
Qed.

(** C1: in each of the eight test functions an exception raised anywhere in
    the body is caught and the function returns the record whose only entry
    is ['error'] with the exception's message; a record the body returns is
    passed on, and it is either such an error-only record (a failed
    precondition) or a dictionary without the key ['error'].  The functions
    are total: no exception reaches the caller. *)
Theorem test_functions_catch_every_exception (L : Lib) (alpha : float) (df : DataFrame)
    (group_var outcome_var var1 var2 method outcome : string) (paired : bool)
    (predictors : predictors_arg) :
  handled (run_ttest_body alpha df group_var outcome_var paired)
          (run_ttest alpha df group_var outcome_var paired)
  /\ handled (run_anova_body alpha df group_var outcome_var)
             (run_anova alpha df group_var outcome_var)
  /\ handled (run_chisquare_body alpha df var1 var2)
             (run_chisquare alpha df var1 var2)
  /\ handled (run_correlation_body alpha df var1 var2 method)
             (run_correlation alpha df var1 var2 method)
  /\ handled (run_linear_regression_body alpha df outcome predictors)
             (run_linear_regression alpha df outcome predictors)
  /\ handled (run_logistic_regression_body alpha df outcome predictors)
             (run_logistic_regression alpha df outcome predictors)
  /\ handled (run_mannwhitney_body alpha df group_var outcome_var)
             (run_mannwhitney alpha df group_var outcome_var)
  /\ handled (run_kruskal_body alpha df group_var outcome_var)
             (run_kruskal alpha df group_var outcome_var).
Proof.
  repeat split; apply handled_try_except.
  - apply run_ttest_body_sound.
  - apply run_anova_body_sound.
  - apply run_chisquare_body_sound.
  - apply run_correlation_body_sound.
  - apply run_linear_regression_body_sound.
  - apply run_logistic_regression_body_sound.
  - apply run_mannwhitney_body_sound.
  - apply run_kruskal_body_sound.
Qed.

(** C5 (as the code has it): in every record of the eight test functions a
    computed float is rounded to four decimal places where the record is
    built, except the expected cell counts of the chi-square record (the
    ['expected'] table and ['min_expected']), which are rounded to two, and
    the threshold ['alpha'], which is stored as it was given; counts are
    integers. *)
Theorem numbers_rounded_as_built (L : Lib) (alpha : float) (df : DataFrame)
    (group_var outcome_var var1 var2 method outcome : string) (paired : bool)
    (predictors : predictors_arg) :
  all_leaves rounded_as_built [] (run_ttest alpha df group_var outcome_var paired) = true
  /\ all_leaves rounded_as_built [] (run_anova alpha df group_var outcome_var) = true
  /\ all_leaves rounded_as_built [] (run_chisquare alpha df var1 var2) = true
  /\ all_leaves rounded_as_built [] (run_correlation alpha df var1 var2 method) = true
  /\ all_leaves rounded_as_built [] (run_linear_regression alpha df outcome predictors) = true
  /\ all_leaves rounded_as_built [] (run_logistic_regression alpha df outcome predictors)
     = true
  /\ all_leaves rounded_as_built [] (run_mannwhitney alpha df group_var outcome_var) = true
  /\ all_leaves rounded_as_built [] (run_kruskal alpha df group_var outcome_var) = true.
Proof.
  repeat split; apply rounded_try_except.
  - apply run_ttest_body_sound.
  - apply run_anova_body_sound.
  - apply run_chisquare_body_sound.
  - apply run_correlation_body_sound.
  - apply run_linear_regression_body_sound.
  - apply run_logistic_regression_body_sound.
  - apply run_mannwhitney_body_sound.
  - apply run_kruskal_body_sound.
Qed.

(** C5 as stated fails: in the chi-square record of a table with the
    margins 1, 2 and 1, 2 the expected count 1/3 is stored rounded to two
    places, 0.33, where four places would give 0.3333; and ['alpha'] is
    stored without rounding. *)
Lemma expected_counts_have_two_places :
  let r := run_chisquare (L := Sample.lib) 0.05 Sample.diagonal_3 "exposure" "outcome" in
  all_leaves rounded_to_4 [] r = false
  /\ field_path ["contingency_table"; "expected"; "healthy"; "no"] r
     = Some (VRound (1 / 3)%float 2)
  /\ float_at ["contingency_table"; "expected"; "healthy"; "no"] r = Some 0.33%float
  /\ Float.round_nd (1 / 3)%float 4 = 0.3333%float
  /\ PrimFloat.eqb 0.33 0.3333 = false
  /\ field "alpha" r = Some (VFloat 0.05).
Proof.
  cbv zeta. repeat split; vm_compute; reflexivity.
Qed.

(** Each of the eight functions does return complete records: on the sample
    frames, with the fixed-answer library, none of them ends in an error. *)
Example every_test_can_succeed :
  forallb (fun r => negb (has_key "error" r))
    [ run_ttest (L := Sample.lib) 0.05 Sample.two_groups "group" "score" false;
      run_ttest (L := Sample.lib) 0.05 Sample.two_groups "group" "score" true;
      run_anova (L := Sample.lib) 0.05 Sample.three_groups "group" "score";
      run_chisquare (L := Sample.lib) 0.05 Sample.diagonal_3 "exposure" "outcome";
      run_correlation (L := Sample.lib) 0.05 Sample.three_groups "x" "score" "pearson";
      run_linear_regression (L := Sample.lib) 0.05 Sample.three_groups "score" (OneName "x");
      run_logistic_regression (L := Sample.lib) 0.05 Sample.three_groups "x"
        (Names ["score"]);
      run_mannwhitney (L := Sample.lib) 0.05 Sample.two_groups "group" "score";
      run_kruskal (L := Sample.lib) 0.05 Sample.three_groups "group" "score" ]
  = true.
Proof. vm_compute. reflexivity. Qed.

(** And each turns a failure into an error-only record: a column that does
    not exist, a single group, text where numbers are needed. *)
Example failures_become_error_records :
  run_ttest (L := Sample.lib) 0.05 Sample.two_groups "group" "weight" false
  = error_record (Sample.py_repr "['weight'] not in index")
  /\ run_anova (L := Sample.lib) 0.05 Sample.two_groups "group" "score"
     = error_record "ANOVA requires 3 or more groups. Use t-test for 2 groups."
  /\ run_ttest (L := Sample.lib) 0.05 Sample.three_groups "group" "score" false
     = error_record "T-test requires exactly 2 groups, found 3"
  /\ error_only
       (run_correlation (L := Sample.lib) 0.05 Sample.two_groups "group" "score" "pearson").
Proof. repeat split; try (vm_compute; reflexivity). eexists. vm_compute. reflexivity. Qed.

(** * More properties of the code *)

(** ** Floats in order, and the labels of an effect size *)

Lemma SF_leb_ltb_trans (a b c : spec_float) :
  SFleb a b = true -> SFltb b c = true -> SFltb a c = true.
Proof.
  unfold SFleb, SFltb.
  destruct a as [sa|sa| |sa ma ea], b as [sb|sb| |sb mb eb], c as [sc|sc| |sc mc ec];
    simpl; try discriminate; try reflexivity;
    repeat match goal with s : bool |- _ => destruct s end;
    simpl; try discriminate; try reflexivity;
    change (Pos.compare_cont Eq) with Pos.compare;
    destruct (Z.compare_spec ea eb), (Z.compare_spec eb ec), (Z.compare_spec ea ec);
    try discriminate; try reflexivity; try lia;
    destruct (Pos.compare_spec ma mb), (Pos.compare_spec mb mc), (Pos.compare_spec ma mc);
    simpl; try discriminate; try reflexivity; try lia.
Qed.

Lemma SF_ltb_ltb_trans (a b c : spec_float) :
  SFltb a b = true -> SFltb b c = true -> SFltb a c = true.
Proof.
  unfold SFltb.
  destruct a as [sa|sa| |sa ma ea], b as [sb|sb| |sb mb eb], c as [sc|sc| |sc mc ec];
    simpl; try discriminate; try reflexivity;
    repeat match goal with s : bool |- _ => destruct s end;
    simpl; try discriminate; try reflexivity;
    change (Pos.compare_cont Eq) with Pos.compare;
    destruct (Z.compare_spec ea eb), (Z.compare_spec eb ec), (Z.compare_spec ea ec);
    try discriminate; try reflexivity; try lia;
    destruct (Pos.compare_spec ma mb), (Pos.compare_spec mb mc), (Pos.compare_spec ma mc);
    simpl; try discriminate; try reflexivity; try lia.
Qed.

Lemma leb_ltb_trans (a b c : float) :
  PrimFloat.leb a b = true -> PrimFloat.ltb b c = true -> PrimFloat.ltb a c = true.
Proof. rewrite FloatAxioms.leb_spec, !FloatAxioms.ltb_spec. apply SF_leb_ltb_trans. Qed.

Lemma ltb_ltb_trans (a b c : float) :
  PrimFloat.ltb a b = true -> PrimFloat.ltb b c = true -> PrimFloat.ltb a c = true.
Proof. rewrite !FloatAxioms.ltb_spec. apply SF_ltb_ltb_trans. Qed.

Lemma abs_opp (x : float) : PrimFloat.abs (PrimFloat.opp x) = PrimFloat.abs x.
Proof. apply Prim2SF_inj. rewrite !FloatAxioms.abs_spec, FloatAxioms.opp_spec. destruct (Prim2SF x); reflexivity. Qed.

Lemma effect_size_ignores_sign (v : float) (metric : string) :
  _interpret_effect_size (PrimFloat.opp v) metric = _interpret_effect_size v metric.
Proof. unfold _interpret_effect_size. rewrite abs_opp. reflexivity. Qed.

Lemma thresholds_ordered (metric : string) (small medium large : float) :
  thresholds_get metric effect_size_thresholds = Some (small, medium, large) ->
  PrimFloat.ltb small medium = true /\ PrimFloat.ltb medium large = true.
Proof.
  unfold effect_size_thresholds. cbn [thresholds_get].
  repeat match goal with
         | |- context [String.eqb metric ?s] => destruct (String.eqb metric s)
         end;
    intros H; try discriminate H; injection H as <- <- <-; split; vm_compute; reflexivity.
Qed.

(** X1: the label of an effect size never goes down when the absolute value
    goes up: of two values, the one that is not smaller in absolute value is
    not given a lower label, whatever the metric. *)
Theorem effect_size_tier_monotone (metric : string) (v w : float) :
  PrimFloat.leb (PrimFloat.abs v) (PrimFloat.abs w) = true ->
  (tier_rank (_interpret_effect_size v metric)
   <= tier_rank (_interpret_effect_size w metric))%nat.
Proof.
  intros Hle. unfold _interpret_effect_size.
  destruct (thresholds_get metric effect_size_thresholds) as [[[s m] l]|] eqn:T;
    [|apply Nat.le_refl].
  apply thresholds_ordered in T as [Hsm Hml].
  cbv zeta.
  destruct (PrimFloat.ltb (PrimFloat.abs w) s) eqn:Ws.
  { rewrite (leb_ltb_trans _ _ _ Hle Ws). apply Nat.le_refl. }
  destruct (PrimFloat.ltb (PrimFloat.abs w) m) eqn:Wm.
  { destruct (PrimFloat.ltb (PrimFloat.abs v) s); [vm_compute; lia|].
    rewrite (leb_ltb_trans _ _ _ Hle Wm). apply Nat.le_refl. }
  destruct (PrimFloat.ltb (PrimFloat.abs w) l) eqn:Wl.
  { destruct (PrimFloat.ltb (PrimFloat.abs v) s); [vm_compute; lia|].
    destruct (PrimFloat.ltb (PrimFloat.abs v) m); [vm_compute; lia|].
    rewrite (leb_ltb_trans _ _ _ Hle Wl). apply Nat.le_refl. }
  destruct (PrimFloat.ltb (PrimFloat.abs v) s); [vm_compute; lia|].
  destruct (PrimFloat.ltb (PrimFloat.abs v) m); [vm_compute; lia|].
  destruct (PrimFloat.ltb (PrimFloat.abs v) l); vm_compute; lia.
Qed.

Lemma effect_size_tier_monotone_witness :
  PrimFloat.leb (PrimFloat.abs (-0.3)) (PrimFloat.abs 0.9) = true
  /\ (tier_rank (_interpret_effect_size (-0.3) "cohens_d")
      <= tier_rank (_interpret_effect_size 0.9 "cohens_d"))%nat.
Proof.
  split; [vm_compute; reflexivity|].
  apply (effect_size_tier_monotone "cohens_d" (-0.3) 0.9). vm_compute. reflexivity.
Defined.

(** ** Equality of cells, and the groups of a column *)

Lemma SF_eqb_euclid (x a b : spec_float) :
  SFeqb x a = true -> SFeqb x b = true -> SFeqb b a = true.
Proof.
  unfold SFeqb.
  destruct x as [sx|sx| |sx mx ex], a as [sa|sa| |sa ma ea], b as [sb|sb| |sb mb eb];
    simpl; try discriminate; try reflexivity;
    repeat match goal with s : bool |- _ => destruct s end;
    simpl; try discriminate; try reflexivity;
    change (Pos.compare_cont Eq) with Pos.compare;
    destruct (Z.compare_spec ex ea), (Z.compare_spec ex eb), (Z.compare_spec eb ea);
    simpl; try discriminate; try reflexivity; try lia;
    destruct (Pos.compare_spec mx ma), (Pos.compare_spec mx mb), (Pos.compare_spec mb ma);
    simpl; try discriminate; try reflexivity; try lia.
Qed.

Lemma float_eqb_euclid (x a b : float) :
  PrimFloat.eqb x a = true -> PrimFloat.eqb x b = true -> PrimFloat.eqb b a = true.
Proof. rewrite !FloatAxioms.eqb_spec. apply SF_eqb_euclid. Qed.

Lemma cell_eqb_euclid (x a b : cell) :
  cell_eqb x a = true -> cell_eqb x b = true -> cell_eqb b a = true.
Proof.
  destruct x, a, b; simpl; try discriminate.
  - apply float_eqb_euclid.
  - intros H1 H2. apply String.eqb_eq in H1, H2. subst. apply String.eqb_refl.
Qed.

Lemma cell_eqb_refl (c : cell) : isna c = false -> cell_eqb c c = true.
Proof.
  destruct c; simpl; [|intros _; apply String.eqb_refl|discriminate].
  unfold Float.is_nan. intros H. apply negb_false_iff in H. exact H.
Qed.

Lemma hits_app (x : cell) (l m : list cell) : hits x (l ++ m) = (hits x l + hits x m)%nat.
Proof. unfold hits. rewrite List.filter_app, length_app. reflexivity. Qed.

Lemma hits_existsb (x : cell) (l : list cell) :
  existsb (cell_eqb x) l = true <-> (1 <= hits x l)%nat.
Proof.
  unfold hits. induction l as [|g l IH]; simpl.
  - split; [discriminate|lia].
  - destruct (cell_eqb x g); simpl; [split; [lia|reflexivity]|exact IH].
Qed.

Lemma unique_from_hits (seen s : list cell) :
  (forall y, hits y seen <= 1)%nat ->
  Forall (fun c => isna c = false) s ->
  (forall y, hits y (unique_from seen s) <= 1)%nat
  /\ (forall y, hits y seen <= hits y (unique_from seen s))%nat
  /\ Forall (fun c => hits c (unique_from seen s) = 1%nat) s.
Proof.
  revert seen. induction s as [|c s IH]; intros seen A N.
  - repeat split; [exact A|intros; apply Nat.le_refl|constructor].
  - inversion N as [|? ? Nc Ns]; subst. cbn [unique_from fold_left].
    fold (unique_from (if existsb (cell_eqb c) seen then seen else seen ++ [c]) s).
    destruct (existsb (cell_eqb c) seen) eqn:E.
    + destruct (IH seen A Ns) as (A' & M & C). repeat split; [exact A'|exact M|].
      constructor; [|exact C].
      apply hits_existsb in E. specialize (M c). specialize (A' c). lia.
    + assert (A1 : forall y, (hits y (seen ++ [c]) <= 1)%nat).
      { intros y. rewrite hits_app. specialize (A y).
        unfold hits at 2. cbn [List.filter].
        destruct (cell_eqb y c) eqn:Eyc; cbn [length]; [|lia].
        destruct (hits y seen) eqn:Hy; [lia|].
        exfalso.
        assert (Hex : existsb (cell_eqb y) seen = true) by (apply hits_existsb; lia).
        apply existsb_exists in Hex as (g & Hg & Eyg).
        assert (Ecg : cell_eqb c g = true) by (eapply cell_eqb_euclid; eassumption).
        assert (existsb (cell_eqb c) seen = true)
          by (apply existsb_exists; exists g; split; assumption).
        congruence. }
      destruct (IH (seen ++ [c]) A1 Ns) as (A' & M & C).
      repeat split; [exact A'| |].
      * intros y. specialize (M y). rewrite hits_app in M. lia.
      * constructor; [|exact C].
        specialize (M c). specialize (A' c). rewrite hits_app in M.
        unfold hits at 2 in M. cbn [List.filter] in M.
        rewrite (cell_eqb_refl c Nc) in M. cbn [length] in M. lia.
Qed.

(** Counting the pairs (value, group) by groups, or by values *)
Lemma count_cons (x : cell) (l U : list cell) :
  fold_right (fun g acc => (length (List.filter (fun y => cell_eqb y g) (x :: l)) + acc)%nat)
             0%nat U
  = (hits x U
     + fold_right (fun g acc => (length (List.filter (fun y => cell_eqb y g) l) + acc)%nat)
                  0%nat U)%nat.
Proof.
  induction U as [|g U IHU]; [reflexivity|].
  cbn [fold_right]. rewrite IHU. unfold hits. cbn [List.filter].
  destruct (cell_eqb x g); cbn [length]; lia.
Qed.

Lemma count_swap (l U : list cell) :
  fold_right (fun g acc => (length (List.filter (fun x => cell_eqb x g) l) + acc)%nat) 0%nat U
  = fold_right (fun x acc => (hits x U + acc)%nat) 0%nat l.
Proof.
  induction l as [|x l IH].
  - simpl. induction U as [|g U IHU]; [reflexivity|]. simpl. exact IHU.
  - rewrite count_cons, IH. reflexivity.
Qed.

(** Every value of a column without missing cells is in exactly one of the
    groups of [unique]. *)
Lemma unique_partition (l : list cell) :
  Forall (fun c => isna c = false) l ->
  fold_right (fun g acc => (length (List.filter (fun x => cell_eqb x g) l) + acc)%nat)
             0%nat (unique l)
  = length l.
Proof.
  intros N. rewrite count_swap.
  destruct (unique_from_hits [] l) as (_ & _ & C); [intros y; cbn; lia|exact N|].
  change (unique_from [] l) with (unique l) in C.
  generalize (unique l) C. clear. intros U C.
  induction C as [|x l Hx C IH]; [reflexivity|].
  cbn [fold_right length]. rewrite Hx, IH. reflexivity.
Qed.

Lemma unique_from_incl (seen s : list cell) (c : cell) :
  In c (unique_from seen s) -> In c seen \/ In c s.
Proof.
  revert seen. induction s as [|d s IH]; intros seen H; [left; exact H|].
  cbn [unique_from fold_left] in H.
  fold (unique_from (if existsb (cell_eqb d) seen then seen else seen ++ [d]) s) in H.
  apply IH in H as [H|H]; [|right; right; exact H].
  destruct (existsb (cell_eqb d) seen); [left; exact H|].
  apply in_app_or in H as [H|[<-|[]]]; [left; exact H|right; left; reflexivity].
Qed.

Lemma unique_incl (s : list cell) (c : cell) : In c (unique s) -> In c s.
Proof.
  intros H. apply (unique_from_incl [] s c) in H as [[]|H]. exact H.
Qed.

Lemma complete_pairs_not_missing (df : DataFrame) (g o : string) :
  Forall (fun p => isna (fst p) = false /\ isna (snd p) = false) (complete_pairs df g o).
Proof.
  unfold complete_pairs.
  destruct (index_of g (columns df)), (index_of o (columns df)); try constructor.
  apply List.Forall_forall. intros p Hp. apply filter_In in Hp as [_ Hp].
  apply andb_true_iff in Hp as [H1 H2].
  apply negb_true_iff in H1, H2. split; assumption.
Qed.

Lemma group_size_filter (df : DataFrame) (g o : string) (k : cell) :
  group_size df g o k
  = len (List.filter (fun x => cell_eqb x k) (map fst (complete_pairs df g o))).
Proof.
  unfold group_size, group_outcomes, len. f_equal. rewrite length_map.
  induction (complete_pairs df g o) as [|p ps IH]; [reflexivity|].
  cbn [List.filter map]. destruct (cell_eqb (fst p) k); cbn [length]; rewrite IH; reflexivity.
Qed.

(** The sizes of the groups add up to the number of complete rows. *)
Lemma group_sizes_add_up (df : DataFrame) (g o : string) :
  fold_right (fun k acc => group_size df g o k + acc) 0 (group_values df g o)
  = len (complete_pairs df g o).
Proof.
  unfold group_values.
  assert (N : Forall (fun c => isna c = false) (map fst (complete_pairs df g o))).
  { apply List.Forall_map. eapply List.Forall_impl; [|apply complete_pairs_not_missing].
    intros p [H _]. exact H. }
  apply unique_partition in N. rewrite length_map in N.
  unfold len. rewrite <- N. clear N.
  induction (unique (map fst (complete_pairs df g o))) as [|k U IH]; [reflexivity|].
  cbn [fold_right]. rewrite IH, group_size_filter. unfold len. lia.
Qed.

Lemma group_not_empty (df : DataFrame) (g o : string) (k : cell) :
  In k (group_values df g o) -> 1 <= group_size df g o k.
Proof.
  intros H. apply unique_incl in H. rewrite group_size_filter.
  assert (N : isna k = false).
  { apply in_map_iff in H as (p & <- & Hp).
    pose proof (complete_pairs_not_missing df g o) as F.
    rewrite List.Forall_forall in F. apply F in Hp as [Hp _]. exact Hp. }
  induction (map fst (complete_pairs df g o)) as [|x l IH]; [destruct H|].
  cbn [List.filter]. destruct H as [->|H].
  - rewrite (cell_eqb_refl k N). unfold len. cbn [length]. lia.
  - specialize (IH H). destruct (cell_eqb x k); unfold len in *; cbn [length]; lia.
Qed.

(** ** What the tests on groups ask of the data *)

Lemma index_of_in (name : string) (cols : list string) :
  In name cols -> exists i, index_of name cols = Some i.
Proof.
  induction cols as [|c cols IH]; [intros []|].
  intros H. cbn [index_of]. destruct (String.eqb name c) eqn:E; [eexists; reflexivity|].
  destruct H as [->|H]; [rewrite String.eqb_refl in E; discriminate|].
  destruct (IH H) as [i ->]. eexists; reflexivity.
Qed.

Lemma getitems_two_ok (df : DataFrame) (g o : string) (i j : nat) :
  index_of g (columns df) = Some i -> index_of o (columns df) = Some j ->
  getitems df [g; o]
  = Ok {| columns := [g; o];
          rows := map (fun r => [cell_at r i; cell_at r j]) (rows df) |}.
Proof.
  intros Hi Hj. unfold getitems, column_index. cbn [mapM bind ret]. rewrite Hi, Hj.
  reflexivity.
Qed.

(** The first two steps of the tests on two columns: the selection and the
    removal of the incomplete rows *)
Ltac clean_two Hg Ho :=
  let i := fresh "i" in
  let j := fresh "j" in
  let Hi := fresh "Hi" in
  let Hj := fresh "Hj" in
  destruct (index_of_in _ _ Hg) as [i Hi];
  destruct (index_of_in _ _ Ho) as [j Hj];
  rewrite !(getitems_two_ok _ _ _ i j Hi Hj); cbn [bind];
  rewrite !(dropna_two _ _ _ i j Hi Hj).

Lemma getitem_group_ok (g o : string) (ps : list (cell * cell)) :
  g <> o ->
  getitem {| columns := [g; o]; rows := map pair_row ps |} g = Ok (map fst ps).
Proof.
  intros N. apply String.eqb_neq in N.
  unfold getitem, column_index. cbn [columns rows List.filter index_of].
  rewrite String.eqb_refl, N. cbn [bind ret]. rewrite map_map. reflexivity.
Qed.

Lemma length_two {A} (l : list A) : len l = 2 -> exists a b, l = [a; b].
Proof.
  destruct l as [|a [|b [|c l]]]; unfold len; cbn [length]; try lia.
  intros _. exists a, b. reflexivity.
Qed.

Section GroupTests.

Context (L : Lib) (alpha : float).

(** X2: the tests on two groups return their own message when the grouping
    column has another number of values over the complete rows. *)
Theorem two_group_tests_need_two_groups (df : DataFrame) (group_var outcome_var : string) :
  In group_var (columns df) -> In outcome_var (columns df) -> group_var <> outcome_var ->
  len (group_values df group_var outcome_var) <> 2 ->
  run_ttest alpha df group_var outcome_var false
  = error_record ("T-test requires exactly 2 groups, found "
                  +:+ pretty (len (group_values df group_var outcome_var)))
  /\ run_ttest alpha df group_var outcome_var true
     = error_record "Paired t-test requires exactly 2 groups"
  /\ run_mannwhitney alpha df group_var outcome_var
     = error_record ("Mann-Whitney U requires exactly 2 groups, found "
                     +:+ pretty (len (group_values df group_var outcome_var))).
Proof.
  intros Hg Ho N K.
  unfold run_ttest, run_ttest_body, run_mannwhitney, run_mannwhitney_body.
  clean_two Hg Ho.
  unfold ttest_independent, ttest_paired.
  rewrite !(getitem_group_ok _ _ _ N). cbn [bind].
  unfold group_values in K |- *.
  destruct (unique (map fst (complete_pairs df group_var outcome_var)))
    as [|a [|b [|c l]]]; try (repeat split; reflexivity).
  exfalso. apply K. reflexivity.
Qed.

(** X3: the tests on three or more groups return their own message below
    three. *)
Theorem many_group_tests_need_three_groups (df : DataFrame) (group_var outcome_var : string) :
  In group_var (columns df) -> In outcome_var (columns df) -> group_var <> outcome_var ->
  len (group_values df group_var outcome_var) < 3 ->
  run_anova alpha df group_var outcome_var
  = error_record "ANOVA requires 3 or more groups. Use t-test for 2 groups."
  /\ run_kruskal alpha df group_var outcome_var
     = error_record
         "Kruskal-Wallis requires 3 or more groups. Use Mann-Whitney U for 2 groups.".
Proof.
  intros Hg Ho N K.
  unfold run_anova, run_anova_body, run_kruskal, run_kruskal_body.
  clean_two Hg Ho.
  rewrite !(getitem_group_ok _ _ _ N). cbn [bind].
  unfold group_values in K. apply Z.ltb_lt in K. rewrite K. split; reflexivity.
Qed.

(** X4: the paired test on two groups with different numbers of complete
    rows returns its own message. *)
Theorem paired_ttest_needs_equal_sizes (df : DataFrame) (group_var outcome_var : string)
    (a b : cell) :
  In group_var (columns df) -> In outcome_var (columns df) -> group_var <> outcome_var ->
  group_values df group_var outcome_var = [a; b] ->
  group_size df group_var outcome_var a <> group_size df group_var outcome_var b ->
  run_ttest alpha df group_var outcome_var true
  = error_record "Paired t-test requires equal sample sizes".
Proof.
  intros Hg Ho N U K.
  unfold run_ttest, run_ttest_body.
  clean_two Hg Ho.
  unfold ttest_paired. rewrite (getitem_group_ok _ _ _ N). cbn [bind].
  unfold group_values in U. rewrite U.
  assert (E : String.eqb group_var outcome_var = false) by (apply String.eqb_neq; exact N).
  rewrite !group_series_two by exact E. cbn [bind].
  unfold group_size, group_outcomes in K. apply Z.eqb_neq in K. rewrite K. reflexivity.
Qed.

(** With two groups, numbers in the outcome column and library routines
    that answer where the code calls them, [run_ttest] goes through to its
    report. *)
Lemma run_ttest_complete (df : DataFrame) (group_var outcome_var : string) (paired : bool)
    (a b : cell) (x1 x2 : list float) :
  In group_var (columns df) -> In outcome_var (columns df) -> group_var <> outcome_var ->
  group_values df group_var outcome_var = [a; b] ->
  as_floats (group_outcomes df group_var outcome_var a) = Ok x1 ->
  as_floats (group_outcomes df group_var outcome_var b) = Ok x2 ->
  (if paired then len x1 = len x2 /\ exists r, ttest_rel x1 x2 = Ok r
   else exists levene_stat levene_p r,
       levene [x1; x2] = Ok (levene_stat, levene_p)
       /\ ttest_ind x1 x2 (Float.gtb levene_p alpha) = Ok r) ->
  (exists s1, shapiro_if_3 x1 = Ok s1) ->
  (exists s2, shapiro_if_3 x2 = Ok s2) ->
  complete (run_ttest alpha df group_var outcome_var paired).
Proof.
  intros Hg Ho N U H1 H2 Htest [s1 Hs1] [s2 Hs2].
  assert (E : String.eqb group_var outcome_var = false) by (apply String.eqb_neq; exact N).
  assert (Hn1 : 1 <= len x1).
  { rewrite (as_floats_length _ _ H1). apply (group_not_empty df group_var outcome_var a).
    rewrite U. left. reflexivity. }
  assert (Hn2 : 1 <= len x2).
  { rewrite (as_floats_length _ _ H2). apply (group_not_empty df group_var outcome_var b).
    rewrite U. right. left. reflexivity. }
  assert (Hci : forall d, exists ci, _cohens_d_ci d (len x1) (len x2) = Ok ci).
  { intros d. unfold _cohens_d_ci, int_truediv.
    destruct (len x1 * len x2 =? 0) eqn:Z; [apply Z.eqb_eq in Z; nia|].
    eexists. reflexivity. }
  unfold run_ttest, run_ttest_body.
  clean_two Hg Ho.
  unfold group_values in U. unfold group_outcomes in H1, H2.
  assert (Hreport : forall loc,
             tt_group1_data loc = x1 -> tt_group2_data loc = x2 ->
             exists kvs, ttest_report alpha group_var outcome_var paired loc = Ok (VDict kvs)
                         /\ has_key "error" (VDict kvs) = false).
  { intros loc E1 E2. unfold ttest_report. destruct (tt_groups loc) as [g0 g1].
    rewrite E1, E2.
    destruct (Hci (fst (_cohens_d x1 x2))) as [ci ->].
    rewrite Hs1, Hs2. cbn [bind ret]. eexists. split; reflexivity. }
  destruct paired.
  - destruct Htest as [Hlen [r Hr]].
    unfold ttest_paired. rewrite (getitem_group_ok _ _ _ N). cbn [bind]. rewrite U.
    rewrite !group_series_two by exact E. cbn [bind].
    rewrite <- (as_floats_length _ _ H1), <- (as_floats_length _ _ H2).
    apply Z.eqb_eq in Hlen. rewrite Hlen. cbn [negb].
    rewrite H1, H2. cbn [bind]. rewrite Hr. destruct r as [t p]. cbn [bind ret].
    edestruct Hreport as (kvs & -> & Hk); [reflexivity|reflexivity|].
    cbn [try_except]. exists kvs. split; [reflexivity|exact Hk].
  - destruct Htest as (ls & lp & r & Hl & Hr).
    unfold ttest_independent. rewrite (getitem_group_ok _ _ _ N). cbn [bind]. rewrite U.
    rewrite !group_series_two by exact E. cbn [bind].
    rewrite H1, H2. cbn [bind]. rewrite Hl. cbn [bind]. rewrite Hr.
    destruct r as [t p]. cbn [bind ret].
    edestruct Hreport as (kvs & -> & Hk); [reflexivity|reflexivity|].
    cbn [try_except]. exists kvs. split; [reflexivity|exact Hk].
Qed.

(** X5: with two groups, numbers in the outcome column and library routines
    that answer, the two-sample test returns a complete record: the
    quotients of the report have divisors that are not zero, since no
    group of [unique] is empty. *)
Theorem ttest_succeeds (df : DataFrame) (group_var outcome_var : string) (paired : bool)
    (a b : cell) (x1 x2 : list float) :
  In group_var (columns df) -> In outcome_var (columns df) -> group_var <> outcome_var ->
  group_values df group_var outcome_var = [a; b] ->
  as_floats (group_outcomes df group_var outcome_var a) = Ok x1 ->
  as_floats (group_outcomes df group_var outcome_var b) = Ok x2 ->
  (if paired then len x1 = len x2 /\ exists r, ttest_rel x1 x2 = Ok r
   else exists levene_stat levene_p r,
       levene [x1; x2] = Ok (levene_stat, levene_p)
       /\ ttest_ind x1 x2 (Float.gtb levene_p alpha) = Ok r) ->
  (exists s1, shapiro_if_3 x1 = Ok s1) ->
  (exists s2, shapiro_if_3 x2 = Ok s2) ->
  complete (run_ttest alpha df group_var outcome_var paired).
Proof.
  intros Hg Ho N U H1 H2 Htest [s1 Hs1] [s2 Hs2].
  assert (E : String.eqb group_var outcome_var = false) by (apply String.eqb_neq; exact N).
  assert (Hn1 : 1 <= len x1).
  { rewrite (as_floats_length _ _ H1). apply (group_not_empty df group_var outcome_var a).
    rewrite U. left. reflexivity. }
  assert (Hn2 : 1 <= len x2).
  { rewrite (as_floats_length _ _ H2). apply (group_not_empty df group_var outcome_var b).
    rewrite U. right. left. reflexivity. }
  assert (Hci : forall d, exists ci, _cohens_d_ci d (len x1) (len x2) = Ok ci).
  { intros d. unfold _cohens_d_ci, int_truediv.
    destruct (len x1 * len x2 =? 0) eqn:Z; [apply Z.eqb_eq in Z; nia|].
    eexists. reflexivity. }
  unfold run_ttest, run_ttest_body.
  clean_two Hg Ho.
  unfold group_values in U. unfold group_outcomes in H1, H2.
  assert (Hreport : forall loc,
             tt_group1_data loc = x1 -> tt_group2_data loc = x2 ->
             exists kvs, ttest_report alpha group_var outcome_var paired loc = Ok (VDict kvs)
                         /\ has_key "error" (VDict kvs) = false).
  { intros loc E1 E2. unfold ttest_report. destruct (tt_groups loc) as [g0 g1].
    rewrite E1, E2.
    destruct (Hci (fst (_cohens_d x1 x2))) as [ci ->].
    rewrite Hs1, Hs2. cbn [bind ret]. eexists. split; reflexivity. }
  destruct paired.
  - destruct Htest as [Hlen [r Hr]].
    unfold ttest_paired. rewrite (getitem_group_ok _ _ _ N). cbn [bind]. rewrite U.
    rewrite !group_series_two by exact E. cbn [bind].
    rewrite <- (as_floats_length _ _ H1), <- (as_floats_length _ _ H2).
    apply Z.eqb_eq in Hlen. rewrite Hlen. cbn [negb].
    rewrite H1, H2. cbn [bind]. rewrite Hr. destruct r as [t p]. cbn [bind ret].
    edestruct Hreport as (kvs & -> & Hk); [reflexivity|reflexivity|].
    cbn [try_except]. exists kvs. split; [reflexivity|exact Hk].
  - destruct Htest as (ls & lp & r & Hl & Hr).
    unfold ttest_independent. rewrite (getitem_group_ok _ _ _ N). cbn [bind]. rewrite U.
    rewrite !group_series_two by exact E. cbn [bind].
    rewrite H1, H2. cbn [bind]. rewrite Hl. cbn [bind]. rewrite Hr.
    destruct r as [t p]. cbn [bind ret].
    edestruct Hreport as (kvs & -> & Hk); [reflexivity|reflexivity|].
    cbn [try_except]. exists kvs. split; [reflexivity|exact Hk].
Qed.

(** C3: for every valid input of the two-sample test (two groups over the
    complete rows, numbers in the outcome column, and library routines that
    answer where the code calls them; equal sizes for the paired test) the
    test returns a complete record whose degrees of freedom are
    [n1 + n2 - 2], [n1] and [n2] being the numbers of complete rows of the
    two groups.  For the independent test that is so in both branches: the
    record is labelled as the pooled-variance test when Levene's p-value
    exceeds alpha and as Welch's test otherwise, with the same degrees of
    freedom. *)
Theorem ttest_degrees_of_freedom (df : DataFrame) (group_var outcome_var : string)
    (paired : bool) (a b : cell) (x1 x2 : list float) (levene_stat levene_p : float) :
  In group_var (columns df) -> In outcome_var (columns df) -> group_var <> outcome_var ->
  group_values df group_var outcome_var = [a; b] ->
  as_floats (group_outcomes df group_var outcome_var a) = Ok x1 ->
  as_floats (group_outcomes df group_var outcome_var b) = Ok x2 ->
  (if paired then len x1 = len x2 /\ exists r, ttest_rel x1 x2 = Ok r
   else levene [x1; x2] = Ok (levene_stat, levene_p)
        /\ exists r, ttest_ind x1 x2 (Float.gtb levene_p alpha) = Ok r) ->
  (exists s1, shapiro_if_3 x1 = Ok s1) ->
  (exists s2, shapiro_if_3 x2 = Ok s2) ->
  let r := run_ttest alpha df group_var outcome_var paired in
  complete r
  /\ field "degrees_of_freedom" r
     = Some (VInt (group_size df group_var outcome_var a
                   + group_size df group_var outcome_var b - 2))
  /\ (paired = false ->
      field "test_type" r
      = Some (VStr (if Float.gtb levene_p alpha then "Independent Samples t-test"
                    else "Independent Samples t-test (Welch's)"))).
Proof.
  intros Hg Ho N U H1 H2 Htest Hs1 Hs2 r. subst r.
  assert (C : complete (run_ttest alpha df group_var outcome_var paired)).
  { apply (run_ttest_complete df group_var outcome_var paired a b x1 x2); try assumption.
    destruct paired; [exact Htest|].
    destruct Htest as [Hl [r Hr]]. exists levene_stat, levene_p, r. split; assumption. }
  split; [exact C|].
  destruct C as (kvs & _ & Hk).
  split.
  - destruct (ttest_degrees_when_returned L alpha df group_var outcome_var paired Hk)
      as (a' & b' & U' & F).
    rewrite U in U'. injection U' as <- <-. exact F.
  - intros ->.
    apply run_ttest_success in Hk as (loc & Hb & Hr).
    destruct Hb as (a' & b' & y1 & y2 & U' & K1 & K2 & _ & _ & _ & Hlev).
    unfold group_values in U. rewrite U in U'. injection U' as <- <-.
    unfold group_outcomes in H1, H2. rewrite H1 in K1. rewrite H2 in K2.
    injection K1 as <-. injection K2 as <-.
    destruct Hlev as (ls & lp & Hl & _ & _ & Ht).
    destruct Htest as [Hl' _]. rewrite Hl' in Hl. injection Hl as <- <-.
    apply ttest_report_fields in Hr as (F1 & _). rewrite F1, Ht. reflexivity.
Qed.

(** X6: whenever the two-sample test returns a result, its degrees of freedom
    are the number of complete rows less two: every complete row is in one
    of the two groups, and in one only. *)
Theorem ttest_uses_every_complete_row (df : DataFrame) (group_var outcome_var : string)
    (paired : bool) :
  has_key "error" (run_ttest alpha df group_var outcome_var paired) = false ->
  field "degrees_of_freedom" (run_ttest alpha df group_var outcome_var paired)
  = Some (VInt (len (complete_pairs df group_var outcome_var) - 2)).
Proof.
  intros Hk.
  apply run_ttest_success in Hk as (loc & Hb & Hr).
  destruct Hb as (a & b & x1 & x2 & U & H1 & H2 & _ & Hg1 & Hg2 & _).
  apply ttest_report_fields in Hr as (_ & _ & _ & F4 & _).
  rewrite F4, Hg1, Hg2, (as_floats_length _ _ H1), (as_floats_length _ _ H2).
  rewrite <- group_sizes_add_up. unfold group_values. rewrite U. cbn [fold_right].
  unfold group_size, group_outcomes. do 2 f_equal. lia.
Qed.

End GroupTests.

Lemma two_group_tests_need_two_groups_witness :
  run_ttest (L := Sample.lib) 0.05 Sample.three_groups "group" "score" false
  = error_record "T-test requires exactly 2 groups, found 3"
  /\ run_ttest (L := Sample.lib) 0.05 Sample.three_groups "group" "score" true
     = error_record "Paired t-test requires exactly 2 groups"
  /\ run_mannwhitney (L := Sample.lib) 0.05 Sample.three_groups "group" "score"
     = error_record "Mann-Whitney U requires exactly 2 groups, found 3".
Proof.
  apply (two_group_tests_need_two_groups Sample.lib 0.05 Sample.three_groups "group" "score").
  - left. reflexivity.
  - right. left. reflexivity.
  - discriminate.
  - vm_compute. discriminate.
Defined.

Lemma many_group_tests_need_three_groups_witness :
  run_anova (L := Sample.lib) 0.05 Sample.two_groups "group" "score"
  = error_record "ANOVA requires 3 or more groups. Use t-test for 2 groups."
  /\ run_kruskal (L := Sample.lib) 0.05 Sample.two_groups "group" "score"
     = error_record
         "Kruskal-Wallis requires 3 or more groups. Use Mann-Whitney U for 2 groups.".
Proof.
  apply (many_group_tests_need_three_groups Sample.lib 0.05 Sample.two_groups "group" "score").
  - left. reflexivity.
  - right. left. reflexivity.
  - discriminate.
  - vm_compute. reflexivity.
Defined.

Lemma paired_ttest_needs_equal_sizes_witness :
  run_ttest (L := Sample.lib) 0.05 Fixtures.unequal_groups "group" "score" true
  = error_record "Paired t-test requires equal sample sizes".
Proof.
  apply (paired_ttest_needs_equal_sizes Sample.lib 0.05 Fixtures.unequal_groups
           "group" "score" (Str "a") (Str "b")).
  - left. reflexivity.
  - right. left. reflexivity.
  - discriminate.
  - vm_compute. reflexivity.
  - vm_compute. discriminate.
Defined.

Lemma ttest_degrees_of_freedom_witness :
  (* independent, Levene's p-value 0.5 above alpha: pooled variances *)
  (let r := run_ttest (L := Sample.lib) 0.05 Fixtures.gapped_groups "group" "score" false in
   complete r
   /\ field "degrees_of_freedom" r = Some (VInt 3)
   /\ field "test_type" r = Some (VStr "Independent Samples t-test"))
  (* independent, Levene's p-value 0.5 not above alpha: Welch *)
  /\ (let r := run_ttest (L := Sample.lib) 0.6 Fixtures.gapped_groups "group" "score" false in
      complete r
      /\ field "degrees_of_freedom" r = Some (VInt 3)
      /\ field "test_type" r = Some (VStr "Independent Samples t-test (Welch's)"))
  (* paired *)
  /\ (let r := run_ttest (L := Sample.lib) 0.05 Sample.two_groups "group" "score" true in
      complete r /\ field "degrees_of_freedom" r = Some (VInt 8)).
Proof.
  split; [|split].
  - destruct (ttest_degrees_of_freedom Sample.lib 0.05 Fixtures.gapped_groups
                "group" "score" false (Str "a") (Str "b") [1; 2; 3]%float [4; 5]%float
                0.5 0.5) as (C & D & T).
    + left. reflexivity.
    + right. left. reflexivity.
    + discriminate.
    + vm_compute. reflexivity.
    + vm_compute. reflexivity.
    + vm_compute. reflexivity.
    + split; [reflexivity|]. exists (0.5, 0.5)%float. reflexivity.
    + eexists. vm_compute. reflexivity.
    + eexists. vm_compute. reflexivity.
    + exact (conj C (conj D (T eq_refl))).
  - destruct (ttest_degrees_of_freedom Sample.lib 0.6 Fixtures.gapped_groups
                "group" "score" false (Str "a") (Str "b") [1; 2; 3]%float [4; 5]%float
                0.5 0.5) as (C & D & T).
    + left. reflexivity.
    + right. left. reflexivity.
    + discriminate.
    + vm_compute. reflexivity.
    + vm_compute. reflexivity.
    + vm_compute. reflexivity.
    + split; [reflexivity|]. exists (0.5, 0.5)%float. reflexivity.
    + eexists. vm_compute. reflexivity.
    + eexists. vm_compute. reflexivity.
    + exact (conj C (conj D (T eq_refl))).
  - destruct (ttest_degrees_of_freedom Sample.lib 0.05 Sample.two_groups
                "group" "score" true (Str "a") (Str "b")
                [1; 2; 3; 4; 5]%float [6; 7; 8; 9; 10]%float 0 0) as (C & D & _).
    + left. reflexivity.
    + right. left. reflexivity.
    + discriminate.
    + vm_compute. reflexivity.
    + vm_compute. reflexivity.
    + vm_compute. reflexivity.
    + split; [reflexivity|]. exists (0.5, 0.5)%float. reflexivity.
    + eexists. vm_compute. reflexivity.
    + eexists. vm_compute. reflexivity.
    + exact (conj C D).
Defined.

Lemma ttest_succeeds_witness :
  complete (run_ttest (L := Sample.lib) 0.05 Fixtures.unequal_groups "group" "score" false).
Proof.
  apply (ttest_succeeds Sample.lib 0.05 Fixtures.unequal_groups "group" "score" false
           (Str "a") (Str "b") [1; 2; 3]%float [4; 5]%float).
  - left. reflexivity.
  - right. left. reflexivity.
  - discriminate.
  - vm_compute. reflexivity.
  - vm_compute. reflexivity.
  - vm_compute. reflexivity.
  - exists 0.5%float, 0.5%float, (0.5, 0.5)%float. split; reflexivity.
  - eexists. vm_compute. reflexivity.
  - eexists. vm_compute. reflexivity.
Defined.

Lemma ttest_uses_every_complete_row_witness :
  field "degrees_of_freedom"
    (run_ttest (L := Sample.lib) 0.05 Fixtures.unequal_groups "group" "score" false)
  = Some (VInt (len (complete_pairs Fixtures.unequal_groups "group" "score") - 2)).
Proof.
  apply (ttest_uses_every_complete_row Sample.lib 0.05 Fixtures.unequal_groups
           "group" "score" false).
  vm_compute. reflexivity.
Defined.

Section ManyGroupFacts.

Context (L : Lib) (alpha : float).

(** X28: whenever the analysis of variance returns a result, there are [k >= 3]
    groups over the [N] complete rows, and the degrees of freedom reported
    are [k - 1] between and [N - k] within the groups. *)
Theorem anova_degrees_of_freedom (df : DataFrame) (group_var outcome_var : string) :
  has_key "error" (run_anova alpha df group_var outcome_var) = false ->
  let k := len (group_values df group_var outcome_var) in
  let N := len (complete_pairs df group_var outcome_var) in
  3 <= k
  /\ field "degrees_of_freedom" (run_anova alpha df group_var outcome_var)
     = Some (VDict [("between", VInt (k - 1)); ("within", VInt (N - k))]).
Proof.
  intros Hk k N. subst k N. unfold group_values. unfold run_anova in *.
  destruct (run_anova_body alpha df group_var outcome_var) as [r|e] eqn:Hbody;
    [|discriminate Hk].
  cbn [try_except] in *. unfold run_anova_body in Hbody.
  apply bind_ok in Hbody as (sel & Hsel & Hbody).
  apply getitems_two in Hsel as (i & j & Hi & Hj & ->).
  rewrite (dropna_two df group_var outcome_var i j Hi Hj) in Hbody.
  apply bind_ok in Hbody as (gcol & Hg & Hbody).
  apply getitem_group in Hg as [E ->].
  destruct (len (unique (map fst (complete_pairs df group_var outcome_var))) <? 3)
    eqn:K.
  { injection Hbody as <-. discriminate Hk. }
  apply Z.ltb_ge in K. split; [exact K|].
  apply bind_ok in Hbody as (group_cells & _ & Hbody).
  apply bind_ok in Hbody as (group_data & _ & Hbody).
  apply bind_ok in Hbody as ([f_stat p_value] & _ & Hbody).
  apply bind_ok in Hbody as (ocol & _ & Hbody).
  apply bind_ok in Hbody as (y & _ & Hbody).
  apply bind_ok in Hbody as (group_stats & _ & Hbody).
  apply bind_ok in Hbody as (tukey & _ & Hbody).
  apply bind_ok in Hbody as ([levene_stat levene_p] & _ & Hbody).
  injection Hbody as <-. cbn [field dict_get String.eqb Ascii.eqb Bool.eqb andb rows].
  unfold len. rewrite length_map. reflexivity.
Qed.

(** X29: whenever the Kruskal-Wallis test returns a result, there are [k >= 3]
    groups over the complete rows and it reports [k - 1] degrees of
    freedom. *)
Theorem kruskal_degrees_of_freedom (df : DataFrame) (group_var outcome_var : string) :
  has_key "error" (run_kruskal alpha df group_var outcome_var) = false ->
  let k := len (group_values df group_var outcome_var) in
  3 <= k
  /\ field "degrees_of_freedom" (run_kruskal alpha df group_var outcome_var)
     = Some (VInt (k - 1)).
Proof.
  intros Hk k. subst k. unfold group_values. unfold run_kruskal in *.
  destruct (run_kruskal_body alpha df group_var outcome_var) as [r|e] eqn:Hbody;
    [|discriminate Hk].
  cbn [try_except] in *. unfold run_kruskal_body in Hbody.
  apply bind_ok in Hbody as (sel & Hsel & Hbody).
  apply getitems_two in Hsel as (i & j & Hi & Hj & ->).
  rewrite (dropna_two df group_var outcome_var i j Hi Hj) in Hbody.
  apply bind_ok in Hbody as (gcol & Hg & Hbody).
  apply getitem_group in Hg as [E ->].
  destruct (len (unique (map fst (complete_pairs df group_var outcome_var))) <? 3)
    eqn:K.
  { injection Hbody as <-. discriminate Hk. }
  apply Z.ltb_ge in K. split; [exact K|].
  apply bind_ok in Hbody as (group_cells & _ & Hbody).
  apply bind_ok in Hbody as (group_data & _ & Hbody).
  apply bind_ok in Hbody as ([h_stat p_value] & _ & Hbody).
  apply bind_ok in Hbody as (group_stats & _ & Hbody).
  injection Hbody as <-. reflexivity.
Qed.

End ManyGroupFacts.

Lemma anova_degrees_of_freedom_witness :
  3 <= len (group_values Sample.three_groups "group" "score")
  /\ field "degrees_of_freedom"
       (run_anova (L := Sample.lib) 0.05 Sample.three_groups "group" "score")
     = Some (VDict [("between", VInt 2); ("within", VInt 3)]).
Proof.
  apply (anova_degrees_of_freedom Sample.lib 0.05 Sample.three_groups "group" "score").
  vm_compute. reflexivity.
Defined.

Lemma kruskal_degrees_of_freedom_witness :
  3 <= len (group_values Sample.three_groups "group" "score")
  /\ field "degrees_of_freedom"
       (run_kruskal (L := Sample.lib) 0.05 Sample.three_groups "group" "score")
     = Some (VInt 2).
Proof.
  apply (kruskal_degrees_of_freedom Sample.lib 0.05 Sample.three_groups "group" "score").
  vm_compute. reflexivity.
Defined.

(** ** The association test: what Fisher's test replaces *)

Section ChiSquareFacts.

Context (L : Lib) (alpha : float).

(** X7: Fisher's exact test is reported exactly when an expected count is below
    5 and the table is two by two, which is when the code calls it, and
    then it replaces the p-value (and the verdict on it) only: the
    statistic, the degrees of freedom and Cramer's V of the record stay
    those of the chi-square test.  On any other table the exact test is not
    called, and the record is that of the chi-square test whatever the
    library would have made of the table. *)
Theorem fisher_replaces_the_p_value_only (df : DataFrame) (var1 var2 : string)
    (chi2 p : float) (dof : Z) (expected : list (list float)) (odds pf : float) :
  In var1 (columns df) -> In var2 (columns df) -> var1 <> var2 ->
  chi2_contingency (contingency_counts df var1 var2) = Ok (chi2, p, dof, expected) ->
  let fisher :=
    existsb (existsb (fun e => PrimFloat.ltb e 5)) expected
    && bool_decide (contingency_shape df var1 var2 = (2, 2)) in
  (fisher = true -> fisher_exact (contingency_counts df var1 var2) = Ok (odds, pf)) ->
  let r := run_chisquare alpha df var1 var2 in
  field "test_type" r
  = Some (VStr (if fisher then "Fisher's Exact Test" else "Chi-square Test of Independence"))
  /\ field "p_value" r = Some (VRound (if fisher then pf else p) 4)
  /\ field "significant" r = Some (VBool (PrimFloat.ltb (if fisher then pf else p) alpha))
  /\ field "test_statistic" r = Some (VRound chi2 4)
  /\ field "degrees_of_freedom" r = Some (VInt dof)
  /\ field_path ["effect_size"; "cramers_v"] r
     = Some (VRound
               (let n := zsum (map zsum (contingency_counts df var1 var2)) in
                let min_dim := Z.min (fst (contingency_shape df var1 var2) - 1)
                                     (snd (contingency_shape df var1 var2) - 1) in
                if 0 <? min_dim then PrimFloat.sqrt (chi2 / Float.of_Z (n * min_dim))%float
                else 0%float) 4).
Proof.
  intros H1 H2 N Hchi fisher Hf r. subst r fisher. unfold run_chisquare.
  destruct (index_of_in _ _ H1) as [i Hi], (index_of_in _ _ H2) as [j Hj].
  apply String.eqb_neq in N.
  rewrite (run_chisquare_body_table L alpha df var1 var2 i j N Hi Hj).
  unfold contingency_shape, contingency_counts in *. cbv zeta in *.
  set (t := crosstab _ _) in *.
  unfold chisquare_report. rewrite Hchi. cbn [bind].
  destruct (shape t) as [rws cls] eqn:S. cbn [fst snd] in *.
  assert (B : bool_decide ((rws, cls) = (2, 2)) = ((rws =? 2) && (cls =? 2))%Z).
  { destruct (Z.eqb_spec rws 2) as [->|E1], (Z.eqb_spec cls 2) as [->|E2]; cbn [andb];
      [apply bool_decide_eq_true; reflexivity| | |];
      apply bool_decide_eq_false; intros H; inversion H; contradiction. }
  rewrite B in *.
  destruct (existsb (existsb (fun e => PrimFloat.ltb e 5)) expected && _) eqn:F.
  - rewrite (Hf eq_refl). cbn [bind ret]. repeat split; reflexivity.
  - cbn [bind ret]. repeat split; reflexivity.
Qed.

End ChiSquareFacts.

Lemma fisher_replaces_the_p_value_only_witness :
  (let r := run_chisquare (L := Fixtures.guarded_lib) 0.05 Sample.diagonal_3
              "exposure" "outcome" in
   field "test_type" r = Some (VStr "Fisher's Exact Test")
   /\ field "p_value" r = Some (VRound 0.5 4)
   /\ field "significant" r = Some (VBool false)
   /\ field "test_statistic" r = Some (VRound 0.1875 4)
   /\ field "degrees_of_freedom" r = Some (VInt 1)
   /\ field_path ["effect_size"; "cramers_v"] r = Some (VRound 0.25 4))
  /\ (let r := run_chisquare (L := Fixtures.guarded_lib) 0.05 Sample.three_groups
                 "group" "x" in
      contingency_counts Sample.three_groups "group" "x" = [[1; 1]; [1; 1]; [1; 1]]
      /\ is_ok (fisher_exact (Lib := Fixtures.guarded_lib)
                  (contingency_counts Sample.three_groups "group" "x")) = false
      /\ field "test_type" r = Some (VStr "Chi-square Test of Independence")
      /\ field "p_value" r = Some (VRound 0.5 4)
      /\ field "test_statistic" r = Some (VRound 0 4)
      /\ field "degrees_of_freedom" r = Some (VInt 2)).
Proof.
  split.
  - apply (fisher_replaces_the_p_value_only Fixtures.guarded_lib 0.05 Sample.diagonal_3
             "exposure" "outcome" 0.1875 0.5 1
             [[1 / 3; 2 / 3]; [2 / 3; 4 / 3]]%float 0.5 0.5).
    + left. reflexivity.
    + right. left. reflexivity.
    + discriminate.
    + vm_compute. reflexivity.
    + intros _. vm_compute. reflexivity.
  - cbv zeta. split; [vm_compute; reflexivity|]. split; [vm_compute; reflexivity|].
    destruct (fisher_replaces_the_p_value_only Fixtures.guarded_lib 0.05
                Sample.three_groups "group" "x" 0 0.5 2
                [[1; 1]; [1; 1]; [1; 1]]%float 0 0)
      as (T & P & _ & C & D & _).
    + left. reflexivity.
    + right. right. left. reflexivity.
    + discriminate.
    + vm_compute. reflexivity.
    + intros F. vm_compute in F. discriminate F.
    + exact (conj T (conj P (conj C D))).
Defined.

(** ** The regressions *)

Lemma enumerate_snd {A} (l : list A) : map snd (enumerate l) = l.
Proof.
  unfold enumerate. generalize 0%nat.
  induction l as [|a l IH]; intros n; [reflexivity|].
  cbn [length seq combine map snd]. rewrite IH. reflexivity.
Qed.

Lemma mapM_map {A B C} (f : A -> result B) (g : B -> C) (h : A -> C)
    (l : list A) (bs : list B) :
  (forall a b, f a = Ok b -> g b = h a) -> mapM f l = Ok bs -> map g bs = map h l.
Proof.
  intros Hf. revert bs. induction l as [|a l IH]; intros bs H.
  - injection H as <-. reflexivity.
  - cbn [mapM] in H. apply bind_ok in H as (b & Hb & H).
    apply bind_ok in H as (bs' & Hbs & H). injection H as <-.
    cbn [map]. rewrite (Hf a b Hb), (IH bs' Hbs). reflexivity.
Qed.

Lemma mapM_Forall {A B} (P : B -> Prop) (f : A -> result B) (l : list A) (bs : list B) :
  (forall a b, f a = Ok b -> P b) -> mapM f l = Ok bs -> List.Forall P bs.
Proof.
  intros Hf. revert bs. induction l as [|a l IH]; intros bs H.
  - injection H as <-. constructor.
  - cbn [mapM] in H. apply bind_ok in H as (b & Hb & H).
    apply bind_ok in H as (bs' & Hbs & H). injection H as <-.
    constructor; [exact (Hf a b Hb)|exact (IH bs' Hbs)].
Qed.

Section RegressionFacts.

Context (L : Lib) (alpha : float).

Lemma linear_coefficient_variable (model : fit) (X : DataFrame) (y : list float)
    (iv : nat * string) (b : value) :
  linear_coefficient alpha model X y iv = Ok b ->
  field "variable" b = Some (VStr (snd iv))
  /\ (field "beta" b = Some VNone <-> snd iv = "const").
Proof.
  destruct iv as [i var]. unfold linear_coefficient. intros H.
  apply bind_ok in H as (coef & _ & H).
  apply bind_ok in H as (se & _ & H).
  apply bind_ok in H as (t & _ & H).
  apply bind_ok in H as (p & _ & H).
  apply bind_ok in H as (ci & _ & H).
  apply bind_ok in H as (beta & Hbeta & H).
  injection H as <-. split; [reflexivity|]. cbn [snd field dict_get String.eqb].
  cbn. destruct (String.eqb_spec var "const") as [->|N].
  - injection Hbeta as <-. split; reflexivity.
  - apply bind_ok in Hbeta as (xc & _ & Hbeta).
    apply bind_ok in Hbeta as (xv & _ & Hbeta). injection Hbeta as <-.
    split; [discriminate|contradiction].
Qed.

Lemma vif_entry_flags (Xf : list (string * list float)) (iv : nat * string) (b : value) :
  vif_entry Xf iv = Ok b ->
  exists vif,
    b = VDict [ ("variable", VStr (snd iv)); ("VIF", VRound vif 4);
                ("concern", VBool (Float.gtb vif 5)); ("severe", VBool (Float.gtb vif 10)) ].
Proof.
  destruct iv as [i var]. unfold vif_entry. intros H.
  apply bind_ok in H as (vif & _ & H). injection H as <-. exists vif. reflexivity.
Qed.

Lemma vif_entry_shape (Xf : list (string * list float)) (iv : nat * string) (b : value) :
  vif_entry Xf iv = Ok b ->
  exists var vif,
    b = VDict [ ("variable", VStr var); ("VIF", VRound vif 4);
                ("concern", VBool (Float.gtb vif 5)); ("severe", VBool (Float.gtb vif 10)) ].
Proof.
  intros H. apply vif_entry_flags in H as [vif ->]. exists (snd iv), vif. reflexivity.
Qed.

(** A factor above 10 is above 5 *)
Lemma severe_is_concern (vif : float) :
  Float.gtb vif 10 = true -> Float.gtb vif 5 = true.
Proof.
  unfold Float.gtb. intros H. apply (ltb_ltb_trans 5 10 vif); [reflexivity|exact H].
Qed.

Lemma any_severe_any_concern (Xf : list (string * list float)) (ivs : list (nat * string))
    (entries : list value) :
  mapM (vif_entry Xf) ivs = Ok entries ->
  any_field "severe" entries = true -> any_field "concern" entries = true.
Proof.
  intros H. apply (mapM_Forall _ _ _ _ (vif_entry_shape Xf)) in H.
  induction H as [|b bs (var & vif & ->) _ IH]; [discriminate|].
  unfold any_field in *. cbn [existsb]. intros S.
  apply orb_true_iff in S as [S|S]; apply orb_true_iff.
  - left. cbn -[Float.gtb] in S |- *. apply severe_is_concern. exact S.
  - right. apply IH. exact S.
Qed.

(** X8: a linear model that was fitted has one row of coefficients for the
    constant and one for each predictor, in the order given; the
    standardised coefficient is left out for the constant only. *)
Theorem linear_regression_rows (df : DataFrame) (outcome : string)
    (predictors : predictors_arg) :
  has_key "error" (run_linear_regression alpha df outcome predictors) = false ->
  exists rows,
    field "coefficients" (run_linear_regression alpha df outcome predictors)
    = Some (VList rows)
    /\ map (field "variable") rows
       = map (fun v => Some (VStr v)) ("const" :: predictor_list predictors)
    /\ Forall2 (fun v row => field "beta" row = Some VNone <-> v = "const")
               ("const" :: predictor_list predictors) rows
    /\ forall entries,
         field "multicollinearity" (run_linear_regression alpha df outcome predictors)
         = Some (VList entries) ->
         1 < len (predictor_list predictors)
         /\ map (field "variable") entries
            = map (fun v => Some (VStr v)) (predictor_list predictors)
         /\ Forall (fun e => field "severe" e = Some (VBool true) ->
                             field "concern" e = Some (VBool true)) entries.
Proof.
  unfold run_linear_regression. intros Hk.
  destruct (run_linear_regression_body alpha df outcome predictors) as [r|e] eqn:Hbody;
    [|discriminate Hk].
  cbn [try_except] in *. clear Hk.
  unfold run_linear_regression_body in Hbody.
  apply bind_ok in Hbody as (sel & _ & Hbody).
  apply bind_ok in Hbody as (X & _ & Hbody).
  apply bind_ok in Hbody as (ycol & _ & Hbody).
  apply bind_ok in Hbody as (Xf & _ & Hbody).
  apply bind_ok in Hbody as (y & _ & Hbody).
  apply bind_ok in Hbody as (model & _ & Hbody).
  apply bind_ok in Hbody as (coefficients & Hcoef & Hbody).
  apply bind_ok in Hbody as (vif_data & Hvif & Hbody).
  apply bind_ok in Hbody as (normality & _ & Hbody).
  apply bind_ok in Hbody as ([bp_stat bp_p] & _ & Hbody).
  apply bind_ok in Hbody as (dw & _ & Hbody).
  injection Hbody as <-.
  exists coefficients. split; [reflexivity|]. split; [|split].
  - rewrite (mapM_map _ (field "variable") (fun iv => Some (VStr (snd iv))) _ _
               (fun a b Hb => proj1 (linear_coefficient_variable _ _ _ a b Hb)) Hcoef).
    rewrite <- (enumerate_snd ("const" :: predictor_list predictors)) at 2.
    rewrite map_map. reflexivity.
  - rewrite <- (enumerate_snd ("const" :: predictor_list predictors)).
    revert Hcoef. generalize (enumerate ("const" :: predictor_list predictors)).
    intros l. revert coefficients. induction l as [|a l IH]; intros bs H.
    + injection H as <-. constructor.
    + cbn [mapM] in H. apply bind_ok in H as (b & Hb & H).
      apply bind_ok in H as (bs' & Hbs & H). injection H as <-. cbn [map].
      constructor; [|exact (IH bs' Hbs)].
      exact (proj2 (linear_coefficient_variable _ _ _ a b Hb)).
  - intros entries. cbn [field dict_get String.eqb]. cbn.
    destruct (1 <? len (predictor_list predictors)) eqn:K.
    + destruct vif_data as [|e0 es]; [discriminate|].
      intros [= <-]. apply Z.ltb_lt in K. split; [exact K|]. split.
      * rewrite (mapM_map _ (field "variable") (fun iv => Some (VStr (snd iv))) _ _
                   (fun a b Hb => ltac:(destruct (vif_entry_flags Xf a b Hb) as [vif ->];
                                        reflexivity)) Hvif).
        rewrite <- (enumerate_snd (predictor_list predictors)) at 2.
        rewrite map_map. reflexivity.
      * apply (mapM_Forall _ _ _ _ (vif_entry_shape Xf)) in Hvif.
        eapply List.Forall_impl; [|exact Hvif].
        intros b (var & vif & ->). cbn -[Float.gtb]. intros [= S].
        rewrite (severe_is_concern vif S). reflexivity.
    + injection Hvif as <-. discriminate.
Qed.

End RegressionFacts.

Lemma linear_regression_rows_witness :
  exists rows,
    field "coefficients"
      (run_linear_regression (L := Sample.lib) 0.05 Sample.three_groups "score" (OneName "x"))
    = Some (VList rows)
    /\ map (field "variable") rows = [Some (VStr "const"); Some (VStr "x")].
Proof.
  destruct (linear_regression_rows Sample.lib 0.05 Sample.three_groups "score" (OneName "x"))
    as (rows & H1 & H2 & _).
  - vm_compute. reflexivity.
  - exists rows. split; [exact H1|exact H2].
Defined.

(** ** The assumption checks *)

Section AssumptionFacts.

Context (L : Lib) (P : Pandas) (alpha : float).

(** X9: the verdict of [check_homogeneity_of_variance] is Levene's alone:
    Bartlett's test is reported when it answers and left out when it
    raises, and in neither case does it change the conclusion. *)
Theorem homogeneity_verdict_is_levene (groups : list (list cell))
    (group_names : option (list string)) (clean : list (list float))
    (levene_stat levene_p : float) :
  mapM as_floats (map (List.filter (fun c => negb (isna c))) groups) = Ok clean ->
  levene clean = Ok (levene_stat, levene_p) ->
  let r := check_homogeneity_of_variance alpha groups group_names in
  has_key "error" r = false
  /\ field "n_groups" r = Some (VInt (len groups))
  /\ field_path ["tests"; "levene"] r
     = Some (variance_test_block alpha levene_stat levene_p)
  /\ field_path ["tests"; "bartlett"] r
     = match bartlett clean with
       | Ok (bartlett_stat, bartlett_p) =>
           Some (variance_test_block alpha bartlett_stat bartlett_p)
       | Raise _ => None
       end
  /\ field "conclusion" r
     = Some (VDict [
         ("equal_variance", VBool (Float.gtb levene_p alpha));
         ("recommendation",
           VStr (if Float.gtb levene_p alpha then "proceed"
                 else "use_welch_or_nonparametric")) ]).
Proof.
  intros Hc Hl r. subst r.
  unfold check_homogeneity_of_variance, check_homogeneity_of_variance_body.
  rewrite Hc. cbn [bind]. rewrite Hl. cbn [bind].
  destruct (bartlett clean) as [[bs bp]|e];
    destruct (List.filter _ (map (fun g => Float.round_nd (var g) 4) clean));
    cbn -[Float.gtb variance_test_block]; repeat split; reflexivity.
Qed.

(** X10: when [check_multicollinearity] reports severe multicollinearity it
    also reports multicollinearity, and recommends removing a predictor. *)
Theorem severe_multicollinearity_is_reported (df : DataFrame) (predictors : list string) :
  let r := check_multicollinearity df predictors in
  field_path ["conclusion"; "severe_multicollinearity"] r = Some (VBool true) ->
  field_path ["conclusion"; "multicollinearity_present"] r = Some (VBool true)
  /\ field_path ["conclusion"; "recommendation"] r = Some (VStr "consider_removing").
Proof.
  intros r. subst r. unfold check_multicollinearity.
  destruct (check_multicollinearity_body df predictors) as [r|e] eqn:Hbody;
    [|cbn; discriminate].
  cbn [try_except]. unfold check_multicollinearity_body in Hbody.
  apply bind_ok in Hbody as (sel & _ & Hbody).
  destruct (len predictors <? 2).
  { injection Hbody as <-. cbn. discriminate. }
  apply bind_ok in Hbody as (Xf & _ & Hbody).
  apply bind_ok in Hbody as (vif_results & Hvif & Hbody).
  apply bind_ok in Hbody as (c1 & _ & Hbody).
  apply bind_ok in Hbody as (c2 & _ & Hbody).
  apply bind_ok in Hbody as (pairs & _ & Hbody).
  injection Hbody as <-.
  cbn -[any_field]. intros [= S].
  assert (C : any_field "concern" vif_results = true)
    by (eapply any_severe_any_concern; eassumption).
  rewrite S, C. split; reflexivity.
Qed.

(** X11: [run_all_checks] checks regressions only; there it reads the outcome
    column outside of any handler, so a missing column is an exception of
    the call, the [KeyError] of pandas for that label (which prints as the
    label in quotes), while a check that fails stays inside its own
    entry. *)
Theorem run_all_checks_contract (df : DataFrame) (outcome : string)
    (predictors : list string) (test_type : string) :
  (test_type <> "regression" ->
   run_all_checks alpha df outcome predictors test_type
   = Ok (VDict [("test_type", VStr test_type)]))
  /\ (~ In outcome (columns df) ->
      run_all_checks alpha df outcome predictors "regression" = Raise (KeyError outcome)
      /\ str_exn (KeyError outcome) = repr_str outcome)
  /\ (forall column, getitem df outcome = Ok column ->
      exists r,
        run_all_checks alpha df outcome predictors "regression" = Ok r
        /\ has_key "error" r = false
        /\ field "normality" r = Some (check_normality alpha column (Some outcome))
        /\ field "multicollinearity" r
           = if 1 <? len predictors
             then Some (check_multicollinearity df predictors) else None).
Proof.
  unfold run_all_checks. split; [|split].
  - intros N. apply String.eqb_neq in N. rewrite N. reflexivity.
  - intros N. split; [|reflexivity]. cbn [String.eqb Ascii.eqb Bool.eqb andb].
    replace (getitem df outcome) with (@Raise (list cell) (key_error outcome));
      [reflexivity|].
    unfold getitem.
    assert (F : List.filter (String.eqb outcome) (columns df) = []).
    { induction (columns df) as [|c cs IH]; [reflexivity|].
      cbn [List.filter]. destruct (String.eqb_spec outcome c) as [->|_].
      - exfalso. apply N. left. reflexivity.
      - apply IH. intros H. apply N. right. exact H. }
    rewrite F. reflexivity.
  - intros column Hc. cbn [String.eqb Ascii.eqb Bool.eqb andb]. rewrite Hc. cbn [bind].
    destruct (1 <? len predictors); eexists; (split; [reflexivity|]);
      cbn -[check_normality check_multicollinearity]; repeat split; reflexivity.
Qed.

End AssumptionFacts.

Lemma homogeneity_verdict_is_levene_witness :
  field "conclusion"
    (check_homogeneity_of_variance (L := Sample.lib) 0.05
       [[Num 1; Num 2; Null; Num 3]; [Num 2; Num 4; Num 6]]%float None)
  = Some (VDict [ ("equal_variance", VBool true); ("recommendation", VStr "proceed") ]).
Proof.
  apply (homogeneity_verdict_is_levene Sample.lib 0.05
           [[Num 1; Num 2; Null; Num 3]; [Num 2; Num 4; Num 6]]%float None
           [[1; 2; 3]; [2; 4; 6]]%float 0.5 0.5).
  - vm_compute. reflexivity.
  - reflexivity.
Defined.

Lemma severe_multicollinearity_is_reported_witness :
  let r := check_multicollinearity (L := Fixtures.collinear_lib) (P := Fixtures.pandas)
             Fixtures.two_predictors ["x1"; "x2"] in
  field_path ["conclusion"; "multicollinearity_present"] r = Some (VBool true)
  /\ field_path ["conclusion"; "recommendation"] r = Some (VStr "consider_removing").
Proof.
  apply (severe_multicollinearity_is_reported Fixtures.collinear_lib Fixtures.pandas
           Fixtures.two_predictors ["x1"; "x2"]).
  vm_compute. reflexivity.
Defined.

(** [run_all_checks] on the sample frames *)
Example run_all_checks_examples :
  run_all_checks (L := Sample.lib) (P := Fixtures.pandas) 0.05 Sample.two_groups
    "score" [] "ttest"
  = Ok (VDict [("test_type", VStr "ttest")])
  /\ run_all_checks (L := Sample.lib) (P := Fixtures.pandas) 0.05 Sample.two_groups
       "weight" [] "regression"
     = Raise (KeyError "weight")
  /\ str_exn (L := Sample.lib) (KeyError "weight") = "'weight'"
  /\ option_map (has_key "multicollinearity")
       (match run_all_checks (L := Sample.lib) (P := Fixtures.pandas) 0.05
                Fixtures.two_predictors "y" ["x1"; "x2"] "regression" with
        | Ok r => Some r
        | Raise _ => None
        end) = Some true.
Proof. repeat split; vm_compute; reflexivity. Qed.

Section NormalityFacts.

Context (L : Lib) (alpha : float).

(** X12: the conclusion of [check_normality] on numbers: the tests that ran are
    Shapiro-Wilk between 3 and 5000 values, which is when the code calls it,
    and D'Agostino-Pearson from 20 values on when the library answers; a
    failure of the second is passed over in silence.  ['normal'] is their
    conjunction, [None] when neither ran, and the recommendation is
    'parametric' unless a test that ran rejects (so also when none ran). *)
Theorem normality_conclusion (data : list cell) (variable_name : option string)
    (xs : list float) (w p : float) :
  as_floats (List.filter (fun c => negb (isna c)) data) = Ok xs ->
  let shapiro_ran := (3 <=? len xs) && (len xs <=? 5000) in
  (shapiro_ran = true -> shapiro xs = Ok (w, p)) ->
  let r := check_normality alpha data variable_name in
  let dagostino :=
    if 20 <=? len xs then
      match normaltest xs with Ok (_, dp) => Some dp | Raise _ => None end
    else None in
  let verdict :=
    (negb shapiro_ran || Float.gtb p alpha)
    && match dagostino with Some dp => Float.gtb dp alpha | None => true end in
  has_key "error" r = false
  /\ option_map (has_key "shapiro_wilk") (field "tests" r) = Some shapiro_ran
  /\ option_map (has_key "dagostino_pearson") (field "tests" r)
     = Some (match dagostino with Some _ => true | None => false end)
  /\ field_path ["conclusion"; "normal"] r
     = Some (if negb shapiro_ran && match dagostino with Some _ => false | None => true end
             then VNone else VBool verdict)
  /\ field_path ["conclusion"; "recommendation"] r
     = Some (VStr (if verdict then "parametric" else "non-parametric")).
Proof.
  intros Hx shapiro_ran Hs r dagostino verdict.
  subst r dagostino verdict shapiro_ran.
  unfold check_normality, check_normality_body.
  rewrite <- (as_floats_length _ _ Hx), Hx. cbn [bind].
  destruct ((3 <=? len xs) && (len xs <=? 5000));
    [rewrite (Hs eq_refl)|]; cbn [bind ret];
    (destruct (20 <=? len xs);
     [destruct (normaltest xs) as [[ds dp]|e]|]);
    cbn -[Float.gtb]; try destruct (Float.gtb p alpha);
    try destruct (Float.gtb dp alpha); repeat split; reflexivity.
Qed.

End NormalityFacts.

Lemma normality_conclusion_witness :
  (let r := check_normality (L := Fixtures.guarded_lib) 0.05
              (map (fun n => Num (Float.of_Z (Z.of_nat n))) (seq 1 20)) None in
   option_map (has_key "shapiro_wilk") (field "tests" r) = Some true
   /\ option_map (has_key "dagostino_pearson") (field "tests" r) = Some true
   /\ field_path ["conclusion"; "normal"] r = Some (VBool true)
   /\ field_path ["conclusion"; "recommendation"] r = Some (VStr "parametric"))
  /\ (let r := check_normality (L := Fixtures.guarded_lib) 0.6
                 [Num 5; Num 1; Null; Num 2; Num 4]%float None in
      option_map (has_key "shapiro_wilk") (field "tests" r) = Some true
      /\ option_map (has_key "dagostino_pearson") (field "tests" r) = Some false
      /\ field_path ["conclusion"; "normal"] r = Some (VBool false)
      /\ field_path ["conclusion"; "recommendation"] r = Some (VStr "non-parametric"))
  /\ (let r := check_normality (L := Fixtures.guarded_lib) 0.05
                 [Num 1; Null; Num 2]%float None in
      is_ok (shapiro (Lib := Fixtures.guarded_lib) [1; 2]%float) = false
      /\ field_path ["conclusion"; "normal"] r = Some VNone
      /\ field_path ["conclusion"; "recommendation"] r = Some (VStr "parametric")).
Proof.
  split; [|split].
  - destruct (normality_conclusion Fixtures.guarded_lib 0.05
                (map (fun n => Num (Float.of_Z (Z.of_nat n))) (seq 1 20)) None
                (map (fun n => Float.of_Z (Z.of_nat n)) (seq 1 20)) 0.5 0.5)
      as (_ & H2 & H3 & H4 & H5).
    + vm_compute. reflexivity.
    + intros _. vm_compute. reflexivity.
    + exact (conj H2 (conj H3 (conj H4 H5))).
  - destruct (normality_conclusion Fixtures.guarded_lib 0.6
                [Num 5; Num 1; Null; Num 2; Num 4]%float None
                [5; 1; 2; 4]%float 0.5 0.5)
      as (_ & H2 & H3 & H4 & H5).
    + vm_compute. reflexivity.
    + intros _. vm_compute. reflexivity.
    + exact (conj H2 (conj H3 (conj H4 H5))).
  - destruct (normality_conclusion Fixtures.guarded_lib 0.05 [Num 1; Null; Num 2]%float None
                [1; 2]%float 0 0) as (_ & _ & _ & H4 & H5).
    + vm_compute. reflexivity.
    + intros F. vm_compute in F. discriminate F.
    + split; [vm_compute; reflexivity|]. exact (conj H4 H5).
Defined.

Section IndependenceFacts.

Context (L : Lib) (alpha : float).

Lemma dropna_numbers (xs : list float) :
  forallb (fun x => negb (Float.is_nan x)) xs = true ->
  List.filter (fun c => negb (isna c)) (map Num xs) = map Num xs
  /\ as_floats (map Num xs) = Ok xs.
Proof.
  induction xs as [|x xs IH]; [intros _; split; reflexivity|].
  cbn [forallb]. intros H. apply andb_true_iff in H as [Hx H].
  destruct (IH H) as [IH1 IH2]. cbn [map List.filter isna]. rewrite Hx, IH1.
  split; [reflexivity|]. unfold as_floats in *. cbn [mapM as_float bind]. rewrite IH2.
  reflexivity.
Qed.

(** X13: the regression and [check_independence] read the Durbin-Watson
    statistic of the same residuals in the same way: below 1.5 and above
    2.5 are the two kinds of autocorrelation for both. *)
Theorem independence_checks_agree (df : DataFrame) (outcome : string)
    (predictors : predictors_arg) :
  has_key "error" (run_linear_regression alpha df outcome predictors) = false ->
  exists residuals dw,
    durbin_watson residuals = Ok dw
    /\ field_path ["assumptions"; "independence"; "durbin_watson"]
         (run_linear_regression alpha df outcome predictors) = Some (VRound dw 4)
    /\ (forallb (fun x => negb (Float.is_nan x)) residuals = true ->
        let c := check_independence (map Num residuals) in
        field "durbin_watson" c = Some (VRound dw 4)
        /\ (field "concern" c = Some (VBool false)
            <-> field_path ["assumptions"; "independence"; "interpretation"]
                  (run_linear_regression alpha df outcome predictors)
                = Some (VStr "no autocorrelation"))
        /\ (field "interpretation" c = Some (VStr "positive autocorrelation")
            <-> field_path ["assumptions"; "independence"; "interpretation"]
                  (run_linear_regression alpha df outcome predictors)
                = Some (VStr "positive autocorrelation"))).
Proof.
  unfold run_linear_regression. intros Hk.
  destruct (run_linear_regression_body alpha df outcome predictors) as [r|e] eqn:Hbody;
    [|discriminate Hk].
  cbn [try_except] in *. clear Hk.
  unfold run_linear_regression_body in Hbody.
  apply bind_ok in Hbody as (sel & _ & Hbody).
  apply bind_ok in Hbody as (X & _ & Hbody).
  apply bind_ok in Hbody as (ycol & _ & Hbody).
  apply bind_ok in Hbody as (Xf & _ & Hbody).
  apply bind_ok in Hbody as (y & _ & Hbody).
  apply bind_ok in Hbody as (model & _ & Hbody).
  apply bind_ok in Hbody as (coefficients & _ & Hbody).
  apply bind_ok in Hbody as (vif_data & _ & Hbody).
  apply bind_ok in Hbody as (normality & _ & Hbody).
  apply bind_ok in Hbody as ([bp_stat bp_p] & _ & Hbody).
  apply bind_ok in Hbody as (dw & Hdw & Hbody).
  injection Hbody as <-.
  exists (resid model), dw. split; [exact Hdw|]. split; [reflexivity|].
  intros Hnan. cbv zeta.
  destruct (dropna_numbers _ Hnan) as [Hd Hf].
  unfold check_independence, check_independence_body. rewrite Hd, Hf. cbn [bind].
  rewrite Hdw. cbn [bind].
  destruct (PrimFloat.ltb dw 1.5); [|destruct (Float.gtb dw 2.5)];
    cbn; (split; [reflexivity|]); split; split; intros H; try reflexivity;
    discriminate H.
Qed.

End IndependenceFacts.

Lemma independence_checks_agree_witness :
  exists residuals dw,
    durbin_watson (Lib := Sample.lib) residuals = Ok dw
    /\ field_path ["assumptions"; "independence"; "durbin_watson"]
         (run_linear_regression (L := Sample.lib) 0.05 Sample.three_groups "score"
            (OneName "x")) = Some (VRound dw 4)
    /\ (forallb (fun x => negb (Float.is_nan x)) residuals = true ->
        let c := check_independence (L := Sample.lib) (map Num residuals) in
        field "durbin_watson" c = Some (VRound dw 4)
        /\ (field "concern" c = Some (VBool false)
            <-> field_path ["assumptions"; "independence"; "interpretation"]
                  (run_linear_regression (L := Sample.lib) 0.05 Sample.three_groups "score"
                     (OneName "x"))
                = Some (VStr "no autocorrelation"))
        /\ (field "interpretation" c = Some (VStr "positive autocorrelation")
            <-> field_path ["assumptions"; "independence"; "interpretation"]
                  (run_linear_regression (L := Sample.lib) 0.05 Sample.three_groups "score"
                     (OneName "x"))
                = Some (VStr "positive autocorrelation"))).
Proof.
  apply (independence_checks_agree Sample.lib 0.05 Sample.three_groups "score" (OneName "x")).
  vm_compute. reflexivity.
Defined.

Lemma SF_ltb_asym (a b : spec_float) : SFltb a b = true -> SFltb b a = false.
Proof.
  unfold SFltb.
  destruct a as [sa|sa| |sa ma ea], b as [sb|sb| |sb mb eb];
    simpl; try discriminate; try reflexivity;
    repeat match goal with s : bool |- _ => destruct s end;
    simpl; try discriminate; try reflexivity;
    change (Pos.compare_cont Eq) with Pos.compare;
    destruct (Z.compare_spec ea eb), (Z.compare_spec eb ea);
    try discriminate; try reflexivity; try lia;
    destruct (Pos.compare_spec ma mb), (Pos.compare_spec mb ma);
    simpl; try discriminate; try reflexivity; try lia.
Qed.

Lemma ltb_asym (a b : float) : PrimFloat.ltb a b = true -> PrimFloat.ltb b a = false.
Proof. rewrite !FloatAxioms.ltb_spec. apply SF_ltb_asym. Qed.

Section LinearityFacts.

Context (L : Lib) (D : Diagnostics) (alpha : float).

(** X27: the verdict of [check_linearity] is the correlation of the fitted
    values with the residuals alone: a rainbow test that fails is reported
    as [None] and one that answers is reported, without a part in the
    conclusion.  A linear verdict excludes a correlation concern; the
    converse does not hold (a correlation of exactly 0.3, or one that is not
    a number, is neither). *)
Theorem linearity_verdict (x y : list cell) (xs ys : list float) (model : fit)
    (resid_corr : float) :
  as_floats (map fst (aligned x y)) = Ok xs ->
  as_floats (map snd (aligned x y)) = Ok ys ->
  OLS_fit ys [("x", xs)] = Ok model ->
  corrcoef (fittedvalues model) (resid model) = Ok resid_corr ->
  let r := check_linearity alpha x y in
  has_key "error" r = false
  /\ field "rainbow_test" r
     = Some (match linear_rainbow model with
             | Ok (rainbow_stat, rainbow_p) =>
                 VDict [
                   ("statistic", VRound rainbow_stat 4);
                   ("p_value", VRound rainbow_p 4);
                   ("linear", VBool (Float.gtb rainbow_p alpha)) ]
             | Raise _ => VNone
             end)
  /\ field_path ["conclusion"; "linear"] r
     = Some (VBool (PrimFloat.ltb (PrimFloat.abs resid_corr) 0.3))
  /\ field_path ["conclusion"; "recommendation"] r
     = Some (VStr (if PrimFloat.ltb (PrimFloat.abs resid_corr) 0.3 then "proceed"
                   else "consider_transformation"))
  /\ (field_path ["conclusion"; "linear"] r = Some (VBool true) ->
      field "correlation_concern" r = Some (VBool false)).
Proof.
  intros Hx Hy Hm Hc r. subst r. unfold check_linearity, check_linearity_body.
  rewrite Hx. cbn [bind]. rewrite Hy. cbn [bind]. rewrite Hm. cbn [bind].
  rewrite Hc. cbn [bind ret try_except].
  repeat split.
  cbn -[Float.gtb PrimFloat.ltb PrimFloat.abs]. intros [= H].
  unfold Float.gtb. rewrite (ltb_asym _ _ H). reflexivity.
Qed.

End LinearityFacts.

Lemma linearity_verdict_witness :
  let r := check_linearity (L := Sample.lib) (D := Fixtures.constant_residuals) 0.05
             [Num 1; Num 2; Null; Num 4]%float [Num 2; Num 4; Num 6; Num 8]%float in
  has_key "error" r = false
  /\ field "rainbow_test" r = Some VNone
  /\ field "correlation_concern" r = Some (VBool false)
  /\ field_path ["conclusion"; "linear"] r = Some (VBool false)
  /\ field_path ["conclusion"; "recommendation"] r = Some (VStr "consider_transformation").
Proof.
  destruct (linearity_verdict Sample.lib Fixtures.constant_residuals 0.05
              [Num 1; Num 2; Null; Num 4]%float [Num 2; Num 4; Num 6; Num 8]%float
              [1; 2; 4]%float [2; 4; 8]%float Sample.sample_fit Float.nan)
    as (H1 & H2 & H3 & H4 & _); try reflexivity.
  repeat split; assumption.
Defined.

(** ** The audit trail in every state *)

Lemma dict_get_set (d : list (string * value)) (k k' : string) (v : value) :
  dict_get (dict_set d k v) k' = if String.eqb k' k then Some v else dict_get d k'.
Proof.
  induction d as [|[k0 v0] d IH]; cbn [dict_set dict_get].
  - reflexivity.
  - destruct (String.eqb_spec k k0) as [->|N]; cbn [dict_get].
    + destruct (String.eqb k' k0); reflexivity.
    + rewrite IH. destruct (String.eqb_spec k' k0) as [->|N'].
      * apply String.eqb_neq in N. rewrite String.eqb_sym, N. reflexivity.
      * reflexivity.
Qed.

Module AuditInvariants.
Import Audit.

Lemma numbered_step (s : AuditLogger) (o : op) :
  numbered (entries s) -> numbered (entries (step s o)).
Proof.
  intros N. destruct o; cbn [step log fst clear entries]; try exact N.
  - intros i e H.
    destruct (Nat.lt_ge_cases i (length (entries s))) as [Hlt|Hge].
    + rewrite nth_error_app1 in H by exact Hlt. apply N. exact H.
    + rewrite nth_error_app2 in H by exact Hge.
      destruct (i - length (entries s))%nat as [|k] eqn:K; cbn in H.
      * injection H as <-. cbn [entry_number]. unfold len. lia.
      * destruct k; discriminate H.
  - intros i e H. destruct i; discriminate H.
  - unfold undo_last. destruct (entries s) as [|e0 l] eqn:E; cbn [fst entries].
    + rewrite E. exact N.
    + intros i e H.
      assert (Hlt : (i < length (removelast (e0 :: l)))%nat).
      { apply nth_error_Some. rewrite H. discriminate. }
      rewrite AuditFacts.nth_error_removelast in H by exact Hlt.
      apply N. exact H.
Qed.

(** X14: in every state that the methods lead to, the entries are numbered
    1, 2, 3, ... in the order of the trail: no number is missing or used
    twice, also after [undo_last] and [clear]. *)
Theorem entries_are_numbered_in_order (dataset_id : option string) (now : string)
    (ops : list op) (i : nat) (e : entry) :
  nth_error (entries (run (init dataset_id now) ops)) i = Some e ->
  entry_number e = Z.of_nat i + 1.
Proof.
  assert (G : forall s, numbered (entries s) -> numbered (entries (run s ops))).
  { unfold run. induction ops as [|o ops IH]; intros s N; [exact N|].
    cbn [fold_left]. apply IH. apply numbered_step. exact N. }
  apply (G (init dataset_id now)). intros j e' H. destruct j; discriminate H.
Qed.

(** X15: [undo_last] takes back a [log]: the state is the one before, and the
    entry returned is the one that was logged. *)
Theorem undo_last_reverts_log (s : AuditLogger) (now action : string)
    (details : list (string * value)) (user : string) :
  undo_last (fst (log s now action details user))
  = (s, Some (snd (log s now action details user))).
Proof.
  unfold undo_last, log. cbn [fst snd entries dataset_id created_at].
  destruct (entries s ++ [_]) as [|e0 l] eqn:E.
  { destruct (entries s); discriminate E. }
  rewrite <- E, removelast_last, last_snoc. destruct s; reflexivity.
Qed.

Lemma count_action_counted (d : list (string * value)) (e : entry) (a : string) :
  counted (count_action d e) a
  = counted d a + (if String.eqb (action e) a then 1 else 0).
Proof.
  unfold counted, count_action. rewrite dict_get_set.
  destruct (String.eqb_spec a (action e)) as [->|N].
  - rewrite String.eqb_refl. reflexivity.
  - apply not_eq_sym in N. apply String.eqb_neq in N. rewrite N. lia.
Qed.

Lemma count_action_ok (d : list (string * value)) (e : entry) :
  (forall a, 0 <= counted d a) -> counts_ok d ->
  (forall a, 0 <= counted (count_action d e) a) /\ counts_ok (count_action d e).
Proof.
  intros Pos Ok. split.
  - intros a. rewrite count_action_counted. specialize (Pos a).
    destruct (String.eqb (action e) a); lia.
  - intros a. rewrite count_action_counted. unfold count_action. rewrite dict_get_set.
    specialize (Pos a). specialize (Ok a).
    destruct (String.eqb_spec a (action e)) as [->|N].
    + rewrite String.eqb_refl.
      change (match dict_get d (action e) with Some (VInt n) => n | _ => 0 end)
        with (counted d (action e)).
      destruct (Z.eqb_spec (counted d (action e) + 1) 0); [lia|reflexivity].
    + apply not_eq_sym in N. apply String.eqb_neq in N. rewrite N, Z.add_0_r. exact Ok.
Qed.

Lemma fold_count_action (es : list entry) (d : list (string * value)) :
  (forall a, 0 <= counted d a) -> counts_ok d ->
  counts_ok (fold_left count_action es d)
  /\ forall a, counted (fold_left count_action es d) a = counted d a + occurrences a es.
Proof.
  revert d. induction es as [|e es IH]; intros d Pos Ok.
  - split; [exact Ok|]. intros a. unfold occurrences, len. cbn. lia.
  - cbn [fold_left]. destruct (count_action_ok d e Pos Ok) as [Pos' Ok'].
    destruct (IH _ Pos' Ok') as [IH1 IH2]. split; [exact IH1|].
    intros a. rewrite IH2, count_action_counted. unfold occurrences, len.
    cbn [List.filter]. destruct (String.eqb (action e) a); cbn [length]; lia.
Qed.

(** X16: the summary counts every action: ['transformation_counts'] has an
    entry for exactly the actions of the trail, with the number of their
    entries, and ['total_transformations'] is the length of the trail. *)
Theorem summary_counts_every_action (s : AuditLogger) (a : string) :
  field_path ["transformation_counts"; a] (get_summary s)
  = (if occurrences a (entries s) =? 0 then None
     else Some (VInt (occurrences a (entries s))))
  /\ field "total_transformations" (get_summary s) = Some (VInt (len (entries s))).
Proof.
  split; [|reflexivity].
  unfold get_summary. cbn [field_path field dict_get String.eqb Ascii.eqb Bool.eqb andb].
  cbn -[fold_left occurrences Z.eqb].
  destruct (fold_count_action (entries s) []) as [Ok Cnt].
  - intros b. cbn. lia.
  - intros b. reflexivity.
  - specialize (Ok a). rewrite (Cnt a) in Ok.
    change (counted [] a) with 0 in Ok. rewrite Z.add_0_l in Ok.
    destruct (dict_get _ a); exact Ok.
Qed.

End AuditInvariants.

Lemma entries_are_numbered_in_order_witness :
  exists e,
    nth_error (Audit.entries
                 (Audit.run (Audit.init None "09:00")
                    [ Audit.Log "09:01" "impute" [] "system";
                      Audit.Log "09:02" "recode" [] "system";
                      Audit.UndoLast;
                      Audit.Log "09:03" "filter" [] "system" ])) 1 = Some e
    /\ Audit.action e = "filter"
    /\ Audit.entry_number e = 2.
Proof.
  eexists. split; [vm_compute; reflexivity|]. split; [reflexivity|].
  apply (AuditInvariants.entries_are_numbered_in_order None "09:00"
           [ Audit.Log "09:01" "impute" [] "system";
             Audit.Log "09:02" "recode" [] "system";
             Audit.UndoLast;
             Audit.Log "09:03" "filter" [] "system" ] 1).
  vm_compute. reflexivity.
Defined.

(** ** The version store in every state *)

Module VersionRuns.
Import Versions VersionQueries VersionFacts.

Lemma mutate_dom (h : heap) (l l' : loc) (f : DataFrame -> DataFrame) :
  is_Some (h !! l') -> is_Some (mutate h l f !! l').
Proof.
  unfold mutate. destruct (h !! l) as [c|] eqn:E; [|auto].
  intros H. destruct (decide (l = l')) as [->|N].
  - rewrite lookup_insert_eq. eauto.
  - rewrite lookup_insert_ne by exact N. exact H.
Qed.

Lemma start_consistent (h : heap) :
  consistent {| frames := h; manager := init; held := dom h |}.
Proof.
  split; cbn.
  - intros l Hl. apply elem_of_dom in Hl. exact Hl.
  - intros name v H. rewrite lookup_empty in H. discriminate H.
Qed.

Lemma act_consistent (w : world) (c : call) : consistent w -> consistent (act w c).
Proof.
  intros [Hheld Hsnap]. destruct c as [contents|df f|df name desc now|name| |]; cbn [act];
    try (split; assumption).
  - (* NewFrame *)
    pose proof (fresh_not_allocated (frames w)) as Hfresh.
    set (l := fresh (dom (frames w))) in *.
    split; cbn [frames manager held].
    + intros l' Hl'. apply elem_of_union in Hl' as [Hl'|Hl'].
      * apply elem_of_singleton in Hl'. subst l'. rewrite lookup_insert_eq. eauto.
      * destruct (decide (l = l')) as [->|N]; [rewrite lookup_insert_eq; eauto|].
        rewrite lookup_insert_ne by exact N. apply Hheld. exact Hl'.
    + intros name v Hv. destruct (Hsnap name v Hv) as (Hn & c & Hc & Hs).
      assert (N : l <> data v).
      { intros E. rewrite <- E in Hc. rewrite Hfresh in Hc. discriminate Hc. }
      split.
      * intros Hin. apply elem_of_union in Hin as [Hin|Hin]; [|exact (Hn Hin)].
        apply elem_of_singleton in Hin. apply N. symmetry. exact Hin.
      * exists c. rewrite lookup_insert_ne by exact N. split; [exact Hc|exact Hs].
  - (* Change *)
    destruct (bool_decide (df ∈ held w)) eqn:Hin; [|split; assumption].
    apply bool_decide_eq_true in Hin.
    split; cbn [frames manager held].
    + intros l' Hl'. apply mutate_dom. apply Hheld. exact Hl'.
    + intros name v Hv. destruct (Hsnap name v Hv) as (Hn & c & Hc & Hs).
      split; [exact Hn|]. exists c. split; [|exact Hs].
      rewrite mutate_other; [exact Hc|]. intros ->. exact (Hn Hin).
  - (* SaveVersion *)
    destruct (bool_decide (df ∈ held w)) eqn:Hin; [|split; assumption].
    apply bool_decide_eq_true in Hin.
    destruct (Hheld df Hin) as [contents Hdf].
    destruct (copy_spec (frames w) df contents Hdf) as (snap & Hcopy & Hfresh & Hne).
    unfold save_version. rewrite Hcopy. cbn [bind]. unfold deref.
    rewrite lookup_insert_ne by exact Hne. rewrite Hdf. cbn [bind ret].
    split; cbn [frames manager held versions].
    + intros l' Hl'. destruct (decide (snap = l')) as [->|N];
        [rewrite lookup_insert_eq; eauto|].
      rewrite lookup_insert_ne by exact N. apply Hheld. exact Hl'.
    + intros name' v Hv. destruct (decide (name = name')) as [->|Nn].
      * rewrite lookup_insert_eq in Hv. injection Hv as <-. cbn [data shape version_columns].
        split.
        -- intros Hs. destruct (Hheld snap Hs) as [x Hx]. rewrite Hfresh in Hx.
           discriminate Hx.
        -- exists contents. rewrite lookup_insert_eq. repeat split.
      * rewrite lookup_insert_ne in Hv by exact Nn.
        destruct (Hsnap name' v Hv) as (Hn & c & Hc & Hs).
        split; [exact Hn|]. exists c. split; [|exact Hs].
        rewrite lookup_insert_ne; [exact Hc|]. intros E. rewrite <- E, Hfresh in Hc.
        discriminate Hc.
  - (* GetVersion *)
    unfold get_version. destruct (versions (manager w) !! name) as [v|] eqn:Hv;
      [|split; assumption].
    destruct (Hsnap name v Hv) as (Hn & c & Hc & Hs).
    destruct (copy_spec (frames w) (data v) c Hc) as (got & Hcopy & Hfresh & Hne).
    rewrite Hcopy. cbn [bind ret].
    split; cbn [frames manager held].
    + intros l' Hl'. apply elem_of_union in Hl' as [Hl'|Hl'].
      * apply elem_of_singleton in Hl'. subst l'. rewrite lookup_insert_eq. eauto.
      * destruct (decide (got = l')) as [->|N]; [rewrite lookup_insert_eq; eauto|].
        rewrite lookup_insert_ne by exact N. apply Hheld. exact Hl'.
    + intros name' v' Hv'. destruct (Hsnap name' v' Hv') as (Hn' & c' & Hc' & Hs').
      assert (N : got <> data v').
      { intros E. rewrite <- E in Hc'. rewrite Hfresh in Hc'. discriminate Hc'. }
      split.
      * intros Hin. apply elem_of_union in Hin as [Hin|Hin]; [|exact (Hn' Hin)].
        apply elem_of_singleton in Hin. apply N. symmetry. exact Hin.
      * exists c'. rewrite lookup_insert_ne by exact N. split; [exact Hc'|exact Hs'].
Qed.

Lemma act_keeps_snapshot (w : world) (c : call) (name : string) (v : version)
    (contents : DataFrame) :
  consistent w ->
  versions (manager w) !! name = Some v ->
  frames w !! data v = Some contents ->
  saves name c = false ->
  versions (manager (act w c)) !! name = Some v
  /\ frames (act w c) !! data v = Some contents.
Proof.
  intros [Hheld Hsnap] Hv Hc Hs.
  destruct (Hsnap name v Hv) as (Hn & _).
  assert (Hfresh : forall h, h = frames w -> fresh (dom h) <> data v).
  { intros h -> E. pose proof (fresh_not_allocated (frames w)) as F.
    rewrite E in F. rewrite F in Hc. discriminate Hc. }
  destruct c as [c0|df f|df name' desc now|name'| |]; cbn [act];
    try (split; assumption).
  - cbn [frames manager]. split; [exact Hv|].
    rewrite lookup_insert_ne by (apply Hfresh; reflexivity). exact Hc.
  - destruct (bool_decide (df ∈ held w)) eqn:Hin; [|split; assumption].
    apply bool_decide_eq_true in Hin. cbn [frames manager]. split; [exact Hv|].
    rewrite mutate_other; [exact Hc|]. intros ->. exact (Hn Hin).
  - destruct (bool_decide (df ∈ held w)) eqn:Hin; [|split; assumption].
    apply bool_decide_eq_true in Hin.
    destruct (Hheld df Hin) as [contents' Hdf].
    destruct (copy_spec (frames w) df contents' Hdf) as (snap & Hcopy & Hfr & Hne).
    unfold save_version. rewrite Hcopy. cbn [bind]. unfold deref.
    rewrite lookup_insert_ne by exact Hne. rewrite Hdf. cbn [bind ret frames manager versions].
    cbn [saves] in Hs. apply String.eqb_neq in Hs.
    rewrite lookup_insert_ne by exact Hs. split; [exact Hv|].
    rewrite lookup_insert_ne; [exact Hc|]. intros E. rewrite <- E, Hfr in Hc.
    discriminate Hc.
  - unfold get_version. destruct (versions (manager w) !! name') as [v'|] eqn:Hv';
      [|split; assumption].
    destruct (Hsnap name' v' Hv') as (_ & c' & Hc' & _).
    destruct (copy_spec (frames w) (data v') c' Hc') as (got & Hcopy & Hfr & Hne).
    rewrite Hcopy. cbn [bind ret frames manager]. split; [exact Hv|].
    rewrite lookup_insert_ne; [exact Hc|]. intros E. rewrite <- E, Hfr in Hc.
    discriminate Hc.
Qed.

Lemma run_consistent (w : world) (calls : list call) :
  consistent w -> consistent (run w calls).
Proof.
  unfold run. revert w. induction calls as [|c calls IH]; intros w H; [exact H|].
  cbn [fold_left]. apply IH. apply act_consistent. exact H.
Qed.

(** X17: whatever a program does through the methods and with the frames it
    holds, a saved version keeps the contents it was saved with until a
    version is saved again under its name; and at all times the shape and
    the labels recorded with a version are those of its snapshot. *)
Theorem saved_versions_never_change (h : heap) (before after : list call)
    (name : string) (v : version) (contents : DataFrame) :
  let start := {| frames := h; manager := init; held := dom h |} in
  versions (manager (run start before)) !! name = Some v ->
  frames (run start before) !! data v = Some contents ->
  forallb (fun c => negb (saves name c)) after = true ->
  versions (manager (run start (before ++ after))) !! name = Some v
  /\ frames (run start (before ++ after)) !! data v = Some contents
  /\ shape v = df_shape contents
  /\ version_columns v = columns contents.
Proof.
  intros start Hv Hc Hs.
  assert (Cons : consistent (run start before)) by (apply run_consistent, start_consistent).
  assert (Meta : shape v = df_shape contents /\ version_columns v = columns contents).
  { destruct Cons as [_ Hsnap]. destruct (Hsnap name v Hv) as (_ & c & Hc' & S1 & S2).
    rewrite Hc in Hc'. injection Hc' as <-. split; assumption. }
  unfold run in *. rewrite fold_left_app.
  revert Hv Hc Cons. generalize (fold_left act before start). clear start.
  induction after as [|c after IH]; intros w Hv Hc Cons.
  - cbn [fold_left]. repeat split; try assumption; apply Meta.
  - cbn [forallb] in Hs. apply andb_true_iff in Hs as [Hs1 Hs2].
    apply negb_true_iff in Hs1. cbn [fold_left].
    destruct (act_keeps_snapshot w c name v contents Cons Hv Hc Hs1) as [Hv' Hc'].
    apply (IH Hs2 (act w c) Hv' Hc'). apply act_consistent. exact Cons.
Qed.

End VersionRuns.

Lemma saved_versions_never_change_witness :
  let start :=
    {| VersionQueries.frames := {[1%positive := Sample.two_groups]};
       VersionQueries.manager := Versions.init;
       VersionQueries.held := dom ({[1%positive := Sample.two_groups]} : Versions.heap) |} in
  let calls :=
    [ VersionQueries.SaveVersion 1 "raw" None "09:00" ]
    ++ [ VersionQueries.Change 1 dropna;
         VersionQueries.GetVersion "raw";
         VersionQueries.Change 3 (fun d => {| columns := columns d; rows := [] |});
         VersionQueries.SaveVersion 3 "clean" None "09:05" ] in
  exists v,
    Versions.versions (VersionQueries.manager (VersionQueries.run start calls)) !! "raw"
    = Some v
    /\ VersionQueries.frames (VersionQueries.run start calls) !! Versions.data v
       = Some Sample.two_groups
    /\ Versions.shape v = (10, 2).
Proof.
  intros start calls.
  destruct (VersionRuns.saved_versions_never_change
              {[1%positive := Sample.two_groups]}
              [ VersionQueries.SaveVersion 1 "raw" None "09:00" ]
              [ VersionQueries.Change 1 dropna;
                VersionQueries.GetVersion "raw";
                VersionQueries.Change 3 (fun d => {| columns := columns d; rows := [] |});
                VersionQueries.SaveVersion 3 "clean" None "09:05" ]
              "raw"
              {| Versions.data := 2; Versions.timestamp := "09:00";
                 Versions.description := None; Versions.shape := (10, 2);
                 Versions.version_columns := ["group"; "score"] |}
              Sample.two_groups) as (H1 & H2 & H3 & _).
  - vm_compute. reflexivity.
  - vm_compute. reflexivity.
  - reflexivity.
  - eexists. split; [exact H1|]. split; [exact H2|reflexivity].
Defined.

Module VersionListing.
Import Versions VersionQueries VersionFacts VersionRuns.

Lemma filter_key_absent {V} (l : list (string * V)) (n : string) :
  n ∉ map fst l -> List.filter (fun kv => bool_decide (fst kv = n)) l = [].
Proof.
  induction l as [|[k x] l IH]; [reflexivity|].
  cbn [map fst List.filter]. intros H. apply not_elem_of_cons in H as [N H].
  rewrite bool_decide_eq_false_2 by (intros E; apply N; symmetry; exact E).
  apply IH. exact H.
Qed.

Lemma filter_key_unique {V} (l : list (string * V)) (n : string) (v : V) :
  NoDup (map fst l) -> (n, v) ∈ l ->
  List.filter (fun kv => bool_decide (fst kv = n)) l = [(n, v)].
Proof.
  induction l as [|[k x] l IH]; [intros _ H; inversion H|].
  cbn [map fst]. intros ND Hin. apply NoDup_cons in ND as [Hk ND].
  cbn [List.filter fst]. apply elem_of_cons in Hin as [E|Hin].
  - injection E as <- <-. rewrite bool_decide_eq_true_2 by reflexivity. f_equal.
    apply filter_key_absent. exact Hk.
  - rewrite bool_decide_eq_false_2; [apply IH; assumption|].
    intros ->. apply Hk. apply (list_elem_of_fmap_2 fst) in Hin. exact Hin.
Qed.

Lemma current_entries_spec (self : DataVersionManager) (n : string) (v : version) :
  current_version self = Some n -> versions self !! n = Some v ->
  current_entries self = [version_entry self (n, v)].
Proof.
  intros Hc Hv. unfold current_entries, list_versions.
  assert (F : forall l,
             List.filter (fun e => match field "is_current" e with
                                   | Some (VBool true) => true
                                   | _ => false
                                   end) (map (version_entry self) l)
             = map (version_entry self)
                   (List.filter (fun kv => bool_decide (fst kv = n)) l)).
  { induction l as [|[k x] l IH]; [reflexivity|].
    cbn [map List.filter fst]. rewrite IH.
    replace (match field "is_current" (version_entry self (k, x)) with
             | Some (VBool true) => true
             | _ => false
             end) with (bool_decide (current_version self = Some k))
      by (cbn; destruct (bool_decide _); reflexivity).
    rewrite Hc. destruct (decide (k = n)) as [->|N].
    - rewrite !bool_decide_eq_true_2 by reflexivity. reflexivity.
    - rewrite !bool_decide_eq_false_2; [reflexivity|exact N|congruence]. }
  rewrite F, (filter_key_unique _ n v); [reflexivity| |].
  - apply NoDup_fst_map_to_list.
  - apply elem_of_map_to_list. exact Hv.
Qed.

Lemma act_keeps_manager (w : world) (c : call) :
  is_save c = false -> manager (act w c) = manager w.
Proof.
  destruct c as [c0|df f|df name desc now|name| |]; cbn [act is_save];
    try reflexivity; try discriminate; intros _.
  - destruct (bool_decide _); reflexivity.
  - destruct (get_version _ _ _) as [[h [l|]]|e]; reflexivity.
Qed.

Lemma run_keeps_manager (w : world) (calls : list call) :
  forallb (fun c => negb (is_save c)) calls = true ->
  manager (run w calls) = manager w.
Proof.
  unfold run. revert w. induction calls as [|c calls IH]; intros w H; [reflexivity|].
  cbn [forallb] in H. apply andb_true_iff in H as [Hc H]. apply negb_true_iff in Hc.
  cbn [fold_left]. rewrite (IH _ H). apply act_keeps_manager. exact Hc.
Qed.

(** A program can save every frame it holds, and the name it saves under
    becomes the current one. *)
Lemma save_on_held (w : world) (df : loc) (name : string) (description : option string)
    (now : string) :
  consistent w -> df ∈ held w ->
  let m := manager (act w (SaveVersion df name description now)) in
  current_version m = Some name /\ is_Some (versions m !! name).
Proof.
  intros [Hheld _] Hin m. subst m. destruct (Hheld df Hin) as [c Hc].
  cbn [act]. rewrite bool_decide_eq_true_2 by exact Hin.
  destruct (copy_spec (frames w) df c Hc) as (l & Hcopy & _ & Hne).
  unfold save_version. rewrite Hcopy. cbn [bind]. unfold deref.
  rewrite lookup_insert_ne by exact Hne. rewrite Hc. cbn [bind ret manager].
  cbn [current_version versions]. split; [reflexivity|].
  rewrite lookup_insert_eq. eauto.
Qed.

(** X18: in every state of a program that uses the manager, [list_versions]
    is empty as long as no version was saved; from then on it marks exactly
    one version as the current one, and that is the one the program saved
    last. *)
Theorem one_version_is_current (h : heap) (calls : list call) :
  let start := {| frames := h; manager := init; held := dom h |} in
  (forallb (fun c => negb (is_save c)) calls = true ->
   list_versions (manager (run start calls)) = [])
  /\ (forall (before after : list call) (df : loc) (name : string)
             (description : option string) (now : string),
        calls = before ++ SaveVersion df name description now :: after ->
        df ∈ held (run start before) ->
        forallb (fun c => negb (is_save c)) after = true ->
        let m := manager (run start calls) in
        exists v,
          versions m !! name = Some v
          /\ current_entries m = [version_entry m (name, v)]).
Proof.
  intros start. split.
  - intros H. rewrite (run_keeps_manager start calls H). reflexivity.
  - intros before after df name description now -> Hin Hafter m. subst m.
    unfold run in *. rewrite fold_left_app. cbn [fold_left].
    fold (run (act (fold_left act before start) (SaveVersion df name description now))
              after).
    rewrite (run_keeps_manager _ after Hafter).
    destruct (save_on_held (fold_left act before start) df name description now)
      as [Hc [v Hv]]; [apply (run_consistent start before), start_consistent|exact Hin|].
    exists v. split; [exact Hv|]. apply current_entries_spec; assumption.
Qed.

(** Two versions saved, ['raw'] and then ['clean']: the list marks
    ['clean'], and ['raw'] is still there. *)
Example clean_is_current_after_raw :
  let start :=
    {| frames := {[1%positive := Sample.two_groups]}; manager := init;
       held := dom ({[1%positive := Sample.two_groups]} : heap) |} in
  let m := manager (run start [ SaveVersion 1 "raw" None "09:00";
                                Change 1 dropna;
                                SaveVersion 1 "clean" None "09:05";
                                GetVersion "raw"; ListVersions ]) in
  current_version m = Some "clean"
  /\ map (field "version") (current_entries m) = [Some (VStr "clean")]
  /\ length (list_versions m) = 2%nat.
Proof. cbv zeta. repeat split; vm_compute; reflexivity. Qed.

Lemma set_minus_spec (a b : list string) :
  NoDup (set_minus a b) /\ forall x, x ∈ set_minus a b <-> x ∈ a /\ x ∉ b.
Proof.
  unfold set_minus. split; [apply NoDup_remove_dups|].
  intros x. rewrite elem_of_remove_dups, list_elem_of_difference. reflexivity.
Qed.

(** X19: in every state of a program that uses the manager, [compare_versions]
    on two stored names reports the differences between the two snapshots
    as they are then: the differences of their numbers of rows and of
    columns, and the labels that one has and the other has not. *)
Theorem compare_versions_compares_the_snapshots (h : heap) (calls : list call)
    (version1 version2 : string) :
  let w := run {| frames := h; manager := init; held := dom h |} calls in
  let r := compare_versions (manager w) version1 version2 in
  match versions (manager w) !! version1, versions (manager w) !! version2 with
  | Some v1, Some v2 =>
      exists c1 c2 added removed,
        frames w !! data v1 = Some c1
        /\ frames w !! data v2 = Some c2
        /\ field_path ["differences"; "row_diff"] r
           = Some (VInt (len (rows c2) - len (rows c1)))
        /\ field_path ["differences"; "col_diff"] r
           = Some (VInt (len (columns c2) - len (columns c1)))
        /\ field_path ["differences"; "columns_added"] r = Some (VList (map VStr added))
        /\ field_path ["differences"; "columns_removed"] r
           = Some (VList (map VStr removed))
        /\ NoDup added /\ NoDup removed
        /\ (forall x, x ∈ added <-> x ∈ columns c2 /\ x ∉ columns c1)
        /\ (forall x, x ∈ removed <-> x ∈ columns c1 /\ x ∉ columns c2)
  | _, _ => r = error_record "One or both versions not found"
  end.
Proof.
  intros w r. subst r.
  assert (Cons : consistent w) by (apply run_consistent, start_consistent).
  unfold compare_versions.
  destruct (versions (manager w) !! version1) as [v1|] eqn:H1; [|reflexivity].
  destruct (versions (manager w) !! version2) as [v2|] eqn:H2; [|reflexivity].
  destruct Cons as [_ Hsnap].
  destruct (Hsnap _ _ H1) as (_ & c1 & Hc1 & S1 & L1).
  destruct (Hsnap _ _ H2) as (_ & c2 & Hc2 & S2 & L2).
  exists c1, c2, (set_minus (columns c2) (columns c1)),
         (set_minus (columns c1) (columns c2)).
  rewrite S1, S2, L1, L2. unfold df_shape. cbn [fst snd].
  pose proof (set_minus_spec (columns c2) (columns c1)) as [ND21 M21].
  pose proof (set_minus_spec (columns c1) (columns c2)) as [ND12 M12].
  repeat (split; [first [assumption | reflexivity]|]). exact M12.
Qed.

End VersionListing.

(** ** The data sets of a session *)

Module StorageFacts.
Import Versions Storage VersionFacts.

Lemma dataset_id_of_inj (j k : Z) : dataset_id_of j = dataset_id_of k -> j = k.
Proof.
  unfold dataset_id_of. intros H. apply String.app_inj in H.
  apply pretty_Z_inj in H. exact H.
Qed.

Lemma step_ids_issued (h : heap) (self : DataStorage) (o : op) :
  ids_issued self -> ids_issued (snd (step (h, self) o)).
Proof.
  intros [Pos I]. destruct o as [df name version now|id|id df version|id version|id];
    cbn [step snd]; try (split; assumption).
  - unfold store. destruct (copy h df) as [[h' snap]|e]; cbn [fst snd counter datasets].
    + split; [cbn [counter]; lia|]. intros id H. cbn [datasets] in H.
      destruct (decide (dataset_id_of (counter self + 1) = id)) as [<-|N].
      * exists (counter self + 1). split; [reflexivity|]. cbn [counter]. lia.
      * rewrite lookup_insert_ne in H by exact N.
        destruct (I id H) as (k & -> & Hk). exists k. split; [reflexivity|].
        cbn [counter]. lia.
    + split; [cbn [counter]; lia|]. intros id H. cbn [datasets] in H. destruct (I id H) as (k & -> & Hk).
      exists k. split; [reflexivity|]. cbn [counter]. lia.
  - unfold update. destruct (datasets self !! id) as [info|] eqn:E;
      [|split; assumption].
    assert (G : forall info',
               ids_issued {| datasets := <[id := info']> (datasets self);
                             counter := counter self |}).
    { intros info'. split; [exact Pos|]. intros id' H. cbn [datasets] in H.
      destruct (decide (id = id')) as [<-|N].
      - destruct (I id) as (k & -> & Hk); [rewrite E; eauto|].
        exists k. split; [reflexivity|exact Hk].
      - rewrite lookup_insert_ne in H by exact N.
        destruct (I id' H) as (k & -> & Hk). exists k. split; [reflexivity|exact Hk]. }
    destruct version as [v|]; [|apply G].
    destruct (String.eqb v ""); [apply G|].
    destruct (copy h df) as [[h' snap]|e]; apply G.
  - unfold delete. destruct (datasets self !! id) as [info|] eqn:E; cbn [fst];
      [|split; assumption].
    split; [exact Pos|]. intros id' H. cbn [datasets] in H.
    destruct (decide (id = id')) as [<-|N].
    + rewrite lookup_delete_eq in H. destruct H as [x H]. discriminate H.
    + rewrite lookup_delete_ne in H by exact N.
      destruct (I id' H) as (k & -> & Hk). exists k. split; [reflexivity|exact Hk].
Qed.

(** X20: [store] never gives out an identifier twice, whatever was stored,
    replaced and deleted before: the identifier of the next [store] is not
    in use, so the data sets stored before stay as they are. *)
Theorem store_gives_a_new_identifier (h0 : heap) (ops : list op) (df : loc)
    (name : option string) (version now : string) :
  let '(h, self) := run (h0, init) ops in
  let '(h', self', answer) := store h self df name version now in
  datasets self !! dataset_id_of (counter self + 1) = None
  /\ (forall dataset_id info,
        datasets self !! dataset_id = Some info ->
        datasets self' !! dataset_id = Some info)
  /\ (forall dataset_id, answer = Ok dataset_id ->
        dataset_id = dataset_id_of (counter self + 1)
        /\ get self' dataset_id = Some df
        /\ get self dataset_id = None).
Proof.
  destruct (run (h0, init) ops) as [h self] eqn:R.
  assert (I : ids_issued self).
  { replace self with (snd (run (h0, init) ops)) by (rewrite R; reflexivity).
    clear R. unfold run.
    assert (G : forall st, ids_issued (snd st) -> ids_issued (snd (fold_left step ops st))).
    { induction ops as [|o ops IH]; intros st H; [exact H|].
      cbn [fold_left]. apply IH. destruct st as [h1 s1]. apply step_ids_issued. exact H. }
    apply G. split; [cbn; lia|]. cbn. intros id H. rewrite lookup_empty in H.
    destruct H as [x H]. discriminate H. }
  assert (F : datasets self !! dataset_id_of (counter self + 1) = None).
  { destruct (datasets self !! dataset_id_of (counter self + 1)) as [info|] eqn:E;
      [|reflexivity].
    destruct I as [_ I]. destruct (I _ (ex_intro _ info E)) as (k & Hk & Hr).
    apply dataset_id_of_inj in Hk. lia. }
  unfold store. destruct (copy h df) as [[h' snap]|e].
  - split; [exact F|]. split.
    + intros id info H. cbn [datasets]. rewrite lookup_insert_ne; [exact H|].
      intros <-. rewrite F in H. discriminate H.
    + intros id [= <-]. split; [reflexivity|]. unfold get. cbn [datasets].
      rewrite lookup_insert_eq, F. split; reflexivity.
  - split; [exact F|]. split; [intros id info H; exact H|]. intros id H. discriminate H.
Qed.

(** X21: what a client gets is the stored object itself: [get] gives the frame
    that was stored, and [get_version] the snapshot, neither a copy.  So
    the snapshot is safe from changes made to the frame, but not from
    changes made through what [get_version] returned. *)
Theorem storage_hands_out_its_own_frames (h : heap) (self : DataStorage) (df : loc)
    (contents : DataFrame) (name : option string) (version now : string) :
  h !! df = Some contents ->
  exists h1 self1 dataset_id snapshot,
    store h self df name version now = (h1, self1, Ok dataset_id)
    /\ get self1 dataset_id = Some df
    /\ get_version self1 dataset_id version = Some snapshot
    /\ snapshot <> df
    /\ h1 !! snapshot = Some contents
    /\ (forall f, mutate h1 df f !! snapshot = Some contents)
    /\ (forall f, mutate h1 df f !! df = Some (f contents))
    /\ (forall f, mutate h1 snapshot f !! snapshot = Some (f contents)).
Proof.
  intros H.
  destruct (copy_spec h df contents H) as (snap & Hcopy & Hfresh & Hne).
  unfold store. rewrite Hcopy.
  eexists _, _, _, snap. split; [reflexivity|].
  unfold get, get_version. cbn [datasets]. rewrite !lookup_insert_eq.
  cbn [option_map ds_data ds_versions]. rewrite lookup_singleton_eq.
  assert (Hdf : <[snap := contents]> h !! df = Some contents)
    by (rewrite lookup_insert_ne by exact Hne; exact H).
  split; [reflexivity|]. split; [reflexivity|]. split; [exact Hne|].
  split; [first [reflexivity | apply lookup_insert_eq]|]. split; [|split].
  - intros f. rewrite mutate_other by (intros E; apply Hne; symmetry; exact E).
    apply lookup_insert_eq.
  - intros f. unfold mutate. rewrite Hdf. apply lookup_insert_eq.
  - intros f. unfold mutate. rewrite lookup_insert_eq. apply lookup_insert_eq.
Qed.

(** X22: [update] on an identifier that is not stored changes nothing and
    answers [False]; on a stored one it puts the frame in place of the data,
    and with a version name it adds a snapshot under that name and leaves
    the snapshots under other names alone. *)
Theorem update_keeps_other_versions (h : heap) (self : DataStorage) (dataset_id : string)
    (df : loc) (contents : DataFrame) (version : string) :
  h !! df = Some contents -> version <> "" ->
  match datasets self !! dataset_id with
  | None => update h self dataset_id df (Some version) = (h, self, Ok false)
  | Some info =>
      exists h1 self1 snapshot,
        update h self dataset_id df (Some version) = (h1, self1, Ok true)
        /\ get self1 dataset_id = Some df
        /\ get_version self1 dataset_id version = Some snapshot
        /\ h !! snapshot = None
        /\ h1 !! snapshot = Some contents
        /\ (forall other, other <> version ->
              get_version self1 dataset_id other = get_version self dataset_id other)
        /\ (forall l, is_Some (h !! l) -> h1 !! l = h !! l)
  end.
Proof.
  intros H N. unfold update.
  destruct (datasets self !! dataset_id) as [info|] eqn:E; [|reflexivity].
  apply String.eqb_neq in N. rewrite N.
  destruct (copy_spec h df contents H) as (snap & Hcopy & Hfresh & Hne).
  rewrite Hcopy. eexists _, _, snap. split; [reflexivity|].
  unfold get, get_version. cbn [datasets]. rewrite !lookup_insert_eq, E.
  cbn [option_map ds_data ds_versions].
  split; [reflexivity|]. split; [first [reflexivity | apply lookup_insert_eq]|].
  split; [exact Hfresh|].
  split; [first [reflexivity | apply lookup_insert_eq]|]. split.
  - intros other No. rewrite lookup_insert_ne; [reflexivity|].
    intros ->. apply No. reflexivity.
  - intros l [x Hl]. rewrite lookup_insert_ne; [reflexivity|].
    intros <-. rewrite Hfresh in Hl. discriminate Hl.
Qed.

End StorageFacts.

Lemma storage_hands_out_its_own_frames_witness :
  exists h1 self1 dataset_id snapshot,
    Storage.store {[1%positive := Sample.two_groups]} Storage.init 1 None "v1_raw" "09:00"
    = (h1, self1, Ok dataset_id)
    /\ Storage.get self1 dataset_id = Some 1%positive
    /\ Storage.get_version self1 dataset_id "v1_raw" = Some snapshot
    /\ snapshot <> 1%positive
    /\ h1 !! snapshot = Some Sample.two_groups
    /\ (forall f, Versions.mutate h1 1 f !! snapshot = Some Sample.two_groups)
    /\ (forall f, Versions.mutate h1 1 f !! 1%positive = Some (f Sample.two_groups))
    /\ (forall f, Versions.mutate h1 snapshot f !! snapshot = Some (f Sample.two_groups)).
Proof.
  apply (StorageFacts.storage_hands_out_its_own_frames
           {[1%positive := Sample.two_groups]} Storage.init 1 Sample.two_groups None
           "v1_raw" "09:00").
  apply lookup_singleton_eq.
Defined.

Lemma update_keeps_other_versions_witness :
  let stored :=
    Storage.store {[1%positive := Sample.two_groups]} Storage.init 1 None "v1_raw" "09:00" in
  let h := fst (fst stored) in
  let self := snd (fst stored) in
  exists h1 self1 snapshot,
    Storage.update h self "dataset_1" 1 (Some "v2_clean") = (h1, self1, Ok true)
    /\ Storage.get self1 "dataset_1" = Some 1%positive
    /\ Storage.get_version self1 "dataset_1" "v2_clean" = Some snapshot
    /\ h !! snapshot = None
    /\ h1 !! snapshot = Some Sample.two_groups
    /\ (forall other, other <> "v2_clean" ->
          Storage.get_version self1 "dataset_1" other
          = Storage.get_version self "dataset_1" other)
    /\ (forall l, is_Some (h !! l) -> h1 !! l = h !! l).
Proof.
  intros stored h self.
  assert (H1 : h !! 1%positive = Some Sample.two_groups) by (vm_compute; reflexivity).
  assert (H2 : "v2_clean" <> "") by discriminate.
  pose proof (StorageFacts.update_keeps_other_versions h self "dataset_1" 1
                Sample.two_groups "v2_clean" H1 H2) as H.
  assert (E : Storage.datasets self !! "dataset_1"
              = Some {| Storage.ds_data := 1; Storage.ds_name := "Dataset 1";
                        Storage.ds_version := "v1_raw";
                        Storage.ds_versions := {[ "v1_raw" := 2%positive ]};
                        Storage.ds_created_at := "09:00" |}).
  { vm_compute. reflexivity. }
  rewrite E in H. exact H.
Defined.

(** ** The interpreters *)

Section InterpretFacts.

Context (R : Interpreter.Requests) (system_prompt : string)
        (self : Interpreter.AIInterpreter).

(** X23: [interpret] always answers, DeepSeek first: the text is the one
    [_call_deepseek] gave for the messages when that is not empty; else the
    one [_call_gemini] gave for the prompt (after the system prompt, when
    that is used) when that is not empty; else, both having given nothing,
    the template with ['success'] false and an ['error'] entry. *)
Theorem interpret_always_answers (prompt : string) (use_system_prompt : bool) :
  let r := Interpreter.interpret system_prompt self prompt use_system_prompt in
  let messages :=
    (if use_system_prompt
     then [VDict [("role", VStr "system"); ("content", VStr system_prompt)]]
     else [])
    ++ [VDict [("role", VStr "user"); ("content", VStr prompt)]] in
  let full_prompt :=
    if use_system_prompt
    then system_prompt +:+ (Narratives.newline +:+ Narratives.newline) +:+ prompt
    else prompt in
  let deepseek := Interpreter._call_deepseek self messages 2000 in
  let gemini := Interpreter._call_gemini self full_prompt 2000 in
  exists text model,
    field "interpretation" r = Some text
    /\ truthy_value text = true
    /\ field "model" r = Some (VStr model)
    /\ field "success" r = Some (VBool (negb (String.eqb model "fallback-template")))
    /\ has_key "error" r = String.eqb model "fallback-template"
    /\ ((model = "deepseek-reasoner" /\ deepseek = Some text)
        \/ (model = "gemini-flash"
            /\ Interpreter.truthy deepseek = false
            /\ gemini = Some text)
        \/ (model = "fallback-template"
            /\ Interpreter.truthy deepseek = false
            /\ Interpreter.truthy gemini = false
            /\ text = VStr Interpreter._generate_fallback_interpretation)).
Proof.
  intros r messages full_prompt deepseek gemini. subst r.
  unfold Interpreter.interpret. fold messages. fold deepseek.
  change (if use_system_prompt
          then system_prompt +:+ _ +:+ prompt else prompt) with full_prompt.
  fold gemini.
  destruct (Interpreter.truthy deepseek) eqn:D.
  - destruct deepseek as [text|]; [|discriminate D].
    exists text, "deepseek-reasoner". repeat split; try reflexivity; [exact D|].
    left. split; reflexivity.
  - destruct (Interpreter.truthy gemini) eqn:G.
    + destruct gemini as [text|]; [|discriminate G].
      exists text, "gemini-flash". repeat split; try reflexivity; [exact G|].
      right. left. repeat split; reflexivity.
    + eexists _, "fallback-template". repeat split; try reflexivity.
      right. right. repeat split; reflexivity.
Qed.

(** Gemini is asked when DeepSeek has no key, and its text is what comes
    back. *)
Example interpret_with_a_gemini_key :
  let r := Interpreter.interpret (R := Sample.always_answers) "system"
             (Interpreter.init "" "key") "prompt" true in
  field "interpretation" r = Some (VStr "text")
  /\ field "model" r = Some (VStr "gemini-flash")
  /\ field "success" r = Some (VBool true).
Proof. cbv zeta. repeat split; vm_compute; reflexivity. Qed.

End InterpretFacts.

(** ** From a test to its interpretation *)






Section NarrativeFacts.

Context (L : Lib) (R : Interpreter.Requests) (P : Narratives.Printing)
        (alpha : float) (system_prompt : string) (self : Interpreter.AIInterpreter).

Import Narratives.















End NarrativeFacts.

(** ** From a test to its table *)

Lemma mkdict_two_eq (k0 k1 : string) (b0 b1 : value) :
  mkdict [(k0, b0); (k1, b1)]
  = if String.eqb k1 k0 then [(k0, b1)] else [(k0, b0); (k1, b1)].
Proof. reflexivity. Qed.

Lemma subscript_here (k : string) (v : value) (rest : list (string * value)) :
  Interpreter.subscript (VDict ((k, v) :: rest)) k = Ok v.
Proof. unfold Interpreter.subscript. cbn [field dict_get]. rewrite String.eqb_refl. reflexivity. Qed.

Lemma subscript_next (k k' : string) (v : value) (rest : list (string * value)) :
  String.eqb k k' = false ->
  Interpreter.subscript (VDict ((k', v) :: rest)) k = Interpreter.subscript (VDict rest) k.
Proof.
  intros E. unfold Interpreter.subscript. cbn [field dict_get]. rewrite E. reflexivity.
Qed.

Ltac table_steps :=
  cbn [has_key existsb fst snd orb andb negb String.eqb Ascii.eqb Bool.eqb bind ret
       Interpreter.subscript field dict_get nth_error error_record
       Narratives.item Narratives.subscript_by Narratives.error_passed_on
       Narratives.items Narratives.iter Narratives.length_of Narratives.minus_int
       List.find group_block rank_block tukey_block map app
       Tables.format_fixed Tables.as_number Tables.plus Tables.keys Tables.get_or_none
       Tables.percent_fixed Tables.variable_label].

Section TableFacts.

Context (L : Lib) (P : Narratives.Printing) (F : Tables.NumberFormat) (alpha : float).

Import Narratives Tables.

Lemma format_p_value_ok (x : float) (ndigits : Z) :
  exists s, _format_p_value (VRound x ndigits) = Ok s.
Proof.
  unfold _format_p_value. cbn [as_number bind format_fixed ret].
  destruct (PrimFloat.ltb _ 0.001); [eexists; reflexivity|].
  destruct (PrimFloat.ltb _ 0.01); eexists; reflexivity.
Qed.

Ltac p_value :=
  match goal with
  | |- context [_format_p_value (VRound ?x ?n)] =>
      let s := fresh "s" in
      let Hs := fresh "Hs" in
      destruct (format_p_value_ok x n) as [s Hs]; rewrite Hs; clear Hs
  end.

(** X25: the table of the two-sample test lists the groups by the keys of
    ['group_statistics'].  When the two group values print differently the
    table is made; when they print the same (the number 1 and the text '1')
    the dictionary has one key only, and reading the second group is an
    [IndexError]. *)
Theorem ttest_table_needs_two_labels (df : DataFrame) (group_var outcome_var : string)
    (paired : bool) (title : option string) :
  has_key "error" (run_ttest alpha df group_var outcome_var paired) = false ->
  exists a b,
    group_values df group_var outcome_var = [a; b]
    /\ if String.eqb (str_cell a) (str_cell b)
       then generate_ttest_table (run_ttest alpha df group_var outcome_var paired) title
            = Raise (Exception "IndexError" "list index out of range")
       else exists table,
           generate_ttest_table (run_ttest alpha df group_var outcome_var paired) title
           = Ok table
           /\ has_key "error" table = false.
Proof.
  intros Hk.
  apply run_ttest_success in Hk as (loc & Hb & Hr).
  destruct Hb as (a & b & x1 & x2 & U & _ & _ & Hg & _).
  exists a, b. split; [exact U|].
  destruct (run_ttest alpha df group_var outcome_var paired) as [| | | | | | | |kvs];
    clear U.
  all: unfold ttest_report in Hr; rewrite Hg in Hr.
  all: apply bind_ok in Hr as (d_ci & _ & Hr).
  all: apply bind_ok in Hr as (n1 & _ & Hr).
  all: apply bind_ok in Hr as (n2 & _ & Hr).
  all: try discriminate Hr.
  injection Hr as <-.
  unfold generate_ttest_table. table_steps. rewrite mkdict_two_eq.
  rewrite (String.eqb_sym (str_cell b) (str_cell a)).
  destruct (String.eqb (str_cell a) (str_cell b)) eqn:E.
  - table_steps. rewrite subscript_here. table_steps. reflexivity.
  - table_steps. rewrite subscript_here. table_steps.
    rewrite subscript_next, subscript_here
      by (rewrite String.eqb_sym; exact E).
    table_steps. p_value. table_steps. eexists. split; reflexivity.
Qed.













End TableFacts.

Lemma ttest_table_needs_two_labels_witness :
  exists a b,
    group_values Sample.two_groups "group" "score" = [a; b]
    /\ if String.eqb (str_cell (H := Sample.lib) a) (str_cell (H := Sample.lib) b)
       then Tables.generate_ttest_table (L := Sample.lib) (P := Fixtures.printing)
              (F := Fixtures.number_format)
              (run_ttest (L := Sample.lib) 0.05 Sample.two_groups "group" "score" false) None
            = Raise (Exception "IndexError" "list index out of range")
       else exists table,
           Tables.generate_ttest_table (L := Sample.lib) (P := Fixtures.printing)
             (F := Fixtures.number_format)
             (run_ttest (L := Sample.lib) 0.05 Sample.two_groups "group" "score" false) None
           = Ok table
           /\ has_key "error" table = false.
Proof.
  apply (ttest_table_needs_two_labels Sample.lib Fixtures.printing Fixtures.number_format
           0.05 Sample.two_groups "group" "score" false None).
  vm_compute. reflexivity.
Defined.

(** The two group values [1] and ['float'] print the same with the sample
    library: the test succeeds, the interpreter takes its record, and the
    table generator raises. *)
Example one_label_for_two_groups :
  let r := run_ttest (L := Sample.lib) 0.05 Fixtures.mixed_labels "group" "score" false in
  has_key "error" r = false
  /\ field_path ["variables"; "groups"] r = Some (VList [VStr "float"; VStr "float"])
  /\ is_ok (Narratives.interpret_ttest (L := Sample.lib) (R := Sample.always_answers)
              (P := Fixtures.printing) "system" (Interpreter.init "" "") r "objective")
     = true
  /\ Tables.generate_ttest_table (L := Sample.lib) (P := Fixtures.printing)
       (F := Fixtures.number_format) r None
     = Raise (Exception "IndexError" "list index out of range").
Proof. cbv zeta. repeat split; vm_compute; reflexivity. Qed.
